(** * pandas_aux: a shallow embedding of the table-cleaning helpers

    This development embeds the functions of [pandas_aux.py] that transform
    a table or write it to a sheet, and proves the properties its
    specification states about them.  [excel_to_dataframe], which only
    hands a file to the reader of pandas, is not embedded.

    Modelling conventions.
    - A Python [str] is a [string] whose characters are the code points below
      256 (Latin-1); the character classes of [str.strip], [str.lower] and of
      the [re] module are their restrictions to that range.
    - A cell holds a [str], an [int], a [bool], [None] or the float [nan];
      finite floats are outside the model.
    - A [DataFrame] is column-major, as in pandas: a row index and an ordered
      list of named, typed columns.  Column names are unique, so [df[column]]
      is the one column of that name.  Every series built inside one call
      shares the index of its frame, so pandas' index alignment is the
      identity and is not written out.
    - The library calls follow pandas 2.x with its default (object) storage
      of text columns, and openpyxl 3.1.  Finite floats being outside the
      model, one conversion of pandas is not followed: a computed column of
      integers and missing values without any text, which pandas turns into
      floats, is kept as computed.
    - Python objects live in a store; a frame argument is a reference into
      it, so in-place updates and copies are distinguished.  [print] appends
      to [stdout]; an exception leaves the store as it was when raised.
    - Whether a directory can be created and a file written is not decided
      by the arguments of a call: the answers of the operating system are
      given with it ([OS]). *)

From Stdlib Require Import ZArith NArith Lia.
From Stdlib Require Import Strings.String Strings.Ascii Numbers.DecimalString.
From stdpp Require Import base option list strings.

Open Scope Z_scope.

(* ================================================================== *)
(** ** Python strings *)
(* ================================================================== *)

Module PyStr.

Definition chars (s : string) : list ascii := list_ascii_of_string s.
Definition of_chars (l : list ascii) : string := string_of_list_ascii l.

(** [ord(c)] *)
Definition ord (c : ascii) : N := N_of_ascii c.

Definition between (lo hi : N) (c : ascii) : bool :=
  ((lo <=? ord c) && (ord c <=? hi))%N.

(** [len(s)] *)
Definition len (s : string) : Z := Z.of_nat (String.length s).

(** Unicode white space ([str.isspace], [\s], the default of [str.strip]):
    TAB..CR, FS..US, SPACE, NEL and NBSP. *)
Definition isspace (c : ascii) : bool :=
  between 9 13 c || between 28 32 c || (ord c =? 133)%N || (ord c =? 160)%N.

(** Unicode decimal digits (category Nd, [\d]): below 256 only [0-9]. *)
Definition isdecimal (c : ascii) : bool := between 48 57 c.

(** Unicode letters ([str.isalpha]) below 256: the ASCII letters, the
    ordinal indicators, the micro sign and the accented Latin-1 letters. *)
Definition isalpha (c : ascii) : bool :=
  between 65 90 c || between 97 122 c
  || (ord c =? 170)%N || (ord c =? 181)%N || (ord c =? 186)%N
  || between 192 214 c || between 216 246 c || between 248 255 c.

(** [c.lower()]: [A-Z] and the upper-case Latin-1 letters move by 32. *)
Definition lower_char (c : ascii) : ascii :=
  if between 65 90 c || (between 192 222 c && negb (ord c =? 215)%N)
  then ascii_of_N (ord c + 32)
  else c.

(** [s.lower()] *)
Definition lower (s : string) : string := of_chars (map lower_char (chars s)).

Fixpoint drop_spaces (l : list ascii) : list ascii :=
  match l with
  | [] => []
  | c :: l' => if isspace c then drop_spaces l' else l
  end.

(** [s.lstrip()], [s.rstrip()], [s.strip()] *)
Definition lstrip (s : string) : string := of_chars (drop_spaces (chars s)).
Definition rstrip (s : string) : string :=
  of_chars (rev (drop_spaces (rev (chars s)))).
Definition strip (s : string) : string := rstrip (lstrip s).

(** [s.replace(old, new)] for a one-character [old]. *)
Fixpoint replace (old : ascii) (new : string) (s : string) : string :=
  match s with
  | EmptyString => EmptyString
  | String c s' =>
      if Ascii.eqb c old then new +:+ replace old new s'
      else String c (replace old new s')
  end.

(** [s[:stop]]: a negative [stop] counts from the end. *)
Definition slice_to (stop : Z) (s : string) : string :=
  let n := len s in
  let k := if stop <? 0 then Z.max 0 (n + stop) else Z.min stop n in
  of_chars (take (Z.to_nat k) (chars s)).

Definition is_sign (c : ascii) : bool :=
  Ascii.eqb c "+"%char || Ascii.eqb c "-"%char.

(** [s.zfill(width)]: zeros go after a leading sign. *)
Definition zfill (width : Z) (s : string) : string :=
  if width <=? len s then s
  else
    let pad := of_chars (replicate (Z.to_nat (width - len s)) "0"%char) in
    match s with
    | String c rest =>
        if is_sign c then String c (pad +:+ rest) else pad +:+ s
    | EmptyString => pad
    end.

(** [str(n)] for an [int]. *)
Definition of_int (z : Z) : string := NilEmpty.string_of_int (Z.to_int z).

(** [chr(n)], defined on the modelled range of code points. *)
Definition chr (n : Z) : option ascii :=
  if (0 <=? n) && (n <? 256) then Some (ascii_of_N (Z.to_N n)) else None.

End PyStr.

(* ================================================================== *)
(** ** The fragment of [re] the library uses *)
(* ================================================================== *)

Module Re.

(** Members of a bracketed set. *)
Inductive item :=
| Range (lo hi : ascii)     (* a-z *)
| Digit                     (* \d *)
| Space.                    (* \s *)

(** One-character patterns. *)
Inductive pattern :=
| NotDigit                              (* \D *)
| CharSet (negated : bool) (items : list item).  (* [...] and [^...] *)

Definition item_matches (i : item) (c : ascii) : bool :=
  match i with
  | Range lo hi => PyStr.between (PyStr.ord lo) (PyStr.ord hi) c
  | Digit => PyStr.isdecimal c
  | Space => PyStr.isspace c
  end.

Definition matches (p : pattern) (c : ascii) : bool :=
  match p with
  | NotDigit => negb (PyStr.isdecimal c)
  | CharSet neg items =>
      let hit := existsb (fun i => item_matches i c) items in
      if neg then negb hit else hit
  end.

(** [re.sub(p, repl, s)] for a one-character pattern: the matches are the
    single characters accepted by [p], each replaced by [repl]. *)
Fixpoint sub (p : pattern) (repl : string) (s : string) : string :=
  match s with
  | EmptyString => EmptyString
  | String c s' =>
      if matches p c then repl +:+ sub p repl s'
      else String c (sub p repl s')
  end.

(** r'[^a-zA-Z0-9\s]' *)
Definition not_alnum_space : pattern :=
  CharSet true [Range "a" "z"; Range "A" "Z"; Range "0" "9"; Space].

End Re.

(* ================================================================== *)
(** ** Python values and exceptions *)
(* ================================================================== *)

(** What a cell (or a scalar argument) can hold. *)
Inductive value :=
| VStr (s : string)
| VInt (n : Z)
| VBool (b : bool)
| VNone
| VNaN.

#[global] Instance value_eq_dec : EqDecision value.
Proof. solve_decision. Defined.

Inductive exn :=
| ValueError (msg : string)
| KeyError (msg : string)
| TypeError (msg : string)
| AttributeError (msg : string)
| Exception_ (msg : string)      (* a bare [Exception] has the message "" *)
| OSError (msg : string)         (* and its subclasses, [FileNotFoundError]
                                    and [PermissionError] among them *)
| IllegalCharacterError (msg : string)   (* of openpyxl *)
| Unmodelled (msg : string).     (* not a Python exception: a reference to
                                    no object, or a code point above 255 *)

(** A computation either returns or raises. *)
Inductive outcome (A : Type) :=
| Ret (a : A)
| Exc (e : exn).
Arguments Ret {A} a.
Arguments Exc {A} e.

Definition obind {A B} (m : outcome A) (k : A -> outcome B) : outcome B :=
  match m with
  | Ret a => k a
  | Exc e => Exc e
  end.

(** [[f(x) for x in l]], stopping at the first exception. *)
Fixpoint omap {A B} (f : A -> outcome B) (l : list A) : outcome (list B) :=
  match l with
  | [] => Ret []
  | x :: l' =>
      obind (f x) (fun y => obind (omap f l') (fun ys => Ret (y :: ys)))
  end.

Module Py.

(** [str(v)] *)
Definition str (v : value) : string :=
  match v with
  | VStr s => s
  | VInt n => PyStr.of_int n
  | VBool true => "True"
  | VBool false => "False"
  | VNone => "None"
  | VNaN => "nan"
  end.

(** [isinstance(v, str)] *)
Definition is_str (v : value) : bool :=
  match v with VStr _ => true | _ => false end.

(** [bool(v)]: the truth value tested by [if v]. *)
Definition truthy (v : value) : bool :=
  match v with
  | VStr s => negb (String.eqb s "")
  | VInt n => negb (n =? 0)
  | VBool b => b
  | VNone => false
  | VNaN => true
  end.

Definition int_of_bool (b : bool) : Z := if b then 1 else 0.

(** [a == b]: [bool] is a subtype of [int], and [nan] equals nothing. *)
Definition eq (a b : value) : bool :=
  match a, b with
  | VStr s, VStr t => String.eqb s t
  | VInt m, VInt n => m =? n
  | VBool x, VBool y => Bool.eqb x y
  | VInt m, VBool y => m =? int_of_bool y
  | VBool x, VInt n => int_of_bool x =? n
  | VNone, VNone => true
  | _, _ => false
  end.

(** [len(v)] *)
Definition len (v : value) : outcome value :=
  match v with
  | VStr s => Ret (VInt (PyStr.len s))
  | _ => Exc (TypeError "object has no len()")
  end.

(** [v in strs] for a list of string literals. *)
Definition str_in (s : string) (l : list string) : bool :=
  existsb (String.eqb s) l.

End Py.

(* ================================================================== *)
(** ** The fragment of pandas the library uses *)
(* ================================================================== *)

Inductive dtype := object | int64 | bool_ | float64.

#[global] Instance dtype_eq_dec : EqDecision dtype.
Proof. solve_decision. Defined.

Record Series := mkSeries {
  s_dtype : dtype;
  s_values : list value
}.

Record DataFrame := mkFrame {
  df_index : list Z;                      (* row labels *)
  df_columns : list (string * Series)     (* columns, left to right *)
}.

#[global] Instance Series_eq_dec : EqDecision Series.
Proof. solve_decision. Defined.

#[global] Instance DataFrame_eq_dec : EqDecision DataFrame.
Proof. solve_decision. Defined.

Module Pd.

(** [pd.isna(v)] *)
Definition isna (v : value) : bool :=
  match v with VNone | VNaN => true | _ => false end.

(** [len(df)] and [len(df.columns)] *)
Definition nrows (T : DataFrame) : nat := length (df_index T).
Definition ncols (T : DataFrame) : nat := length (df_columns T).

(** [df.columns.tolist()] *)
Definition column_names (T : DataFrame) : list string :=
  map fst (df_columns T).

(** [column in df.columns] *)
Definition has_column (column : string) (T : DataFrame) : bool :=
  bool_decide (column ∈ column_names T).

Fixpoint assoc (column : string) (cols : list (string * Series))
  : option Series :=
  match cols with
  | [] => None
  | (name, s) :: cols' =>
      if String.eqb name column then Some s else assoc column cols'
  end.

(** [df[column]] *)
Definition getitem (column : string) (T : DataFrame) : outcome Series :=
  match assoc column (df_columns T) with
  | Some s => Ret s
  | None => Exc (KeyError column)
  end.

Fixpoint replace_column (column : string) (s : Series)
    (cols : list (string * Series)) : list (string * Series) :=
  match cols with
  | [] => [(column, s)]
  | (name, s0) :: cols' =>
      if String.eqb name column then (name, s) :: cols'
      else (name, s0) :: replace_column column s cols'
  end.

(** [df[column] = s]: the column is replaced where it stands, or appended
    when the name is new. *)
Definition setitem (column : string) (s : Series) (T : DataFrame)
  : DataFrame :=
  mkFrame (df_index T) (replace_column column s (df_columns T)).

(** [df.loc[:, column] = s], as pandas 2 does it: the values are written
    into the column that is there, which keeps its dtype; a new name gets
    the series as it is. *)
Definition loc_setitem (column : string) (s : Series) (T : DataFrame)
  : DataFrame :=
  match assoc column (df_columns T) with
  | Some s0 => setitem column (mkSeries (s_dtype s0) (s_values s)) T
  | None => setitem column s T
  end.

Definition is_int (v : value) : bool :=
  match v with VInt _ => true | _ => false end.
Definition is_bool (v : value) : bool :=
  match v with VBool _ => true | _ => false end.
Definition is_nan (v : value) : bool :=
  match v with VNaN => true | _ => false end.

(** The dtype pandas gives to freshly computed Python objects: a typed
    array when every object has that type, [object] otherwise.  Nothing
    is inferred from an empty result, which keeps the dtype [d] it came
    from. *)
Definition infer_dtype (d : dtype) (vs : list value) : dtype :=
  match vs with
  | [] => d
  | _ =>
      if forallb is_int vs then int64
      else if forallb is_bool vs then bool_
      else if forallb is_nan vs then float64
      else object
  end.

(** What pandas makes of freshly computed Python objects
    ([maybe_convert_objects]): when all of them are missing and one is
    [nan], a float column in which [None] has become [nan] too; otherwise
    the objects as they are, under the inferred dtype. *)
Definition convert (d : dtype) (vs : list value) : Series :=
  if forallb isna vs && existsb is_nan vs
  then mkSeries float64 (map (fun _ => VNaN) vs)
  else mkSeries (infer_dtype d vs) vs.

(** [s.apply(f)] *)
Definition apply (f : value -> outcome value) (s : Series)
  : outcome Series :=
  obind (omap f (s_values s)) (fun vs => Ret (convert (s_dtype s) vs)).

(** [s.astype(str)]: every element goes through [str], missing ones
    included. *)
Definition astype_str (s : Series) : Series :=
  mkSeries object (map (fun v => VStr (Py.str v)) (s_values s)).

(** [s == parameter]: element-wise, false wherever a side is missing. *)
Definition eq_scalar (s : Series) (parameter : value) : list bool :=
  map (fun v => negb (isna v) && negb (isna parameter) && Py.eq v parameter)
      (s_values s).

(** [s != n] *)
Definition ne_scalar (s : Series) (parameter : value) : list bool :=
  map negb (eq_scalar s parameter).

(** Keeps the positions where the mask holds. *)
Fixpoint take_mask {A} (mask : list bool) (l : list A) : list A :=
  match mask, l with
  | b :: mask', x :: l' =>
      if b then x :: take_mask mask' l' else take_mask mask' l'
  | _, _ => []
  end.

(** [df[mask]] for a boolean mask: row selection, dtypes kept. *)
Definition select (mask : list bool) (T : DataFrame) : DataFrame :=
  mkFrame (take_mask mask (df_index T))
          (map (fun '(name, s) =>
                  (name, mkSeries (s_dtype s) (take_mask mask (s_values s))))
               (df_columns T)).

(** Equality of hash-table keys: [==], and [nan] is one key. *)
Definition same_key (a b : value) : bool :=
  match a, b with
  | VNaN, VNaN => true
  | _, _ => Py.eq a b
  end.

(** [s.duplicated(keep='first')]: one pass with the table of keys seen. *)
Fixpoint duplicated_from (seen : list value) (vs : list value)
  : list bool :=
  match vs with
  | [] => []
  | v :: vs' =>
      if existsb (same_key v) seen
      then true :: duplicated_from seen vs'
      else false :: duplicated_from (v :: seen) vs'
  end.

Definition duplicated (s : Series) : list bool :=
  duplicated_from [] (s_values s).

(** [df.drop_duplicates(subset=[column], keep='first')] *)
Definition drop_duplicates (column : string) (T : DataFrame)
  : outcome DataFrame :=
  obind (getitem column T)
    (fun s => Ret (select (map negb (duplicated s)) T)).

(** [df.drop(columns=[column])] *)
Definition drop_columns (column : string) (T : DataFrame)
  : outcome DataFrame :=
  if has_column column T
  then Ret (mkFrame (df_index T)
              (filter (fun c => negb (String.eqb (fst c) column))
                      (df_columns T)))
  else Exc (KeyError column).

(** [df.rename(columns={old: new})] *)
Definition rename (old new : string) (T : DataFrame) : DataFrame :=
  mkFrame (df_index T)
    (map (fun '(name, s) =>
            (if String.eqb name old then new else name, s))
         (df_columns T)).

(** The [.str] accessor refuses a column whose present values are all
    numbers or all booleans. *)
Definition str_accessor_ok (s : Series) : bool :=
  let present := List.filter (fun v => negb (isna v)) (s_values s) in
  match present with
  | [] => true
  | _ => negb (forallb is_int present) && negb (forallb is_bool present)
  end.

Definition str_strip_value (v : value) : value :=
  match v with
  | VStr s => VStr (PyStr.strip s)
  | VNone => VNone
  | _ => VNaN
  end.

(** [s.str.strip()]: strings are stripped, missing values stay, anything
    else becomes [nan].  A column in which every value is missing comes
    back as it is; any other result is converted as computed objects
    are. *)
Definition str_strip (s : Series) : outcome Series :=
  if str_accessor_ok s
  then if forallb isna (s_values s)
       then Ret (mkSeries object (s_values s))
       else Ret (convert object (map str_strip_value (s_values s)))
  else Exc (AttributeError "Can only use .str accessor with string values!").

(** [df.apply(f)] for an [f] from a column to a column of the same
    length: the results are put together under the same names. *)
Fixpoint apply_columns (f : Series -> outcome Series)
    (cols : list (string * Series)) : outcome (list (string * Series)) :=
  match cols with
  | [] => Ret []
  | (name, s) :: cols' =>
      obind (f s) (fun s' =>
      obind (apply_columns f cols') (fun rest => Ret ((name, s') :: rest)))
  end.

Definition frame_apply (f : Series -> outcome Series) (T : DataFrame)
  : outcome DataFrame :=
  obind (apply_columns f (df_columns T))
    (fun cols => Ret (mkFrame (df_index T) cols)).

(** The rows of a frame, top to bottom: label and cells. *)
Fixpoint rows_of (idx : list Z) (cols : list (list value))
  : list (Z * list value) :=
  match idx with
  | [] => []
  | i :: idx' =>
      (i, map (fun c => default VNaN (head c)) cols)
        :: rows_of idx' (map tail cols)
  end.

Definition rows (T : DataFrame) : list (Z * list value) :=
  rows_of (df_index T) (map (fun c => s_values (snd c)) (df_columns T)).

(** Column names are unique and every column has one cell per row. *)
Definition well_formed (T : DataFrame) : Prop :=
  NoDup (column_names T) /\
  Forall (fun c => length (s_values (snd c)) = nrows T) (df_columns T).

End Pd.

(* ================================================================== *)
(** ** The fragment of openpyxl the library uses *)
(* ================================================================== *)

Module Xl.

Record TableStyleInfo := mkStyle {
  style_name : string;
  showFirstColumn : bool;
  showLastColumn : bool;
  showRowStripes : bool;
  showColumnStripes : bool
}.

Record Table := mkTable {
  displayName : string;
  ref : string;
  tableStyleInfo : option TableStyleInfo
}.

Record Worksheet := mkSheet {
  title : string;
  cells : list (list value);          (* rows, top to bottom *)
  bold_rows : list nat;               (* rows (from 1) set in bold *)
  tables : list Table;
  column_widths : list (string * Z)   (* column letter, width *)
}.

(** The characters no cell may hold: the control characters other than
    tab, line feed and carriage return. *)
Definition is_illegal (c : ascii) : bool :=
  PyStr.between 0 8 c || PyStr.between 11 12 c || PyStr.between 14 31 c.

(** What a cell keeps of the value it is given: a text is cut to 32767
    characters and refused when an illegal character is left in it; any
    other value is kept as it is. *)
Definition bind_value (v : value) : outcome value :=
  match v with
  | VStr s =>
      let s := PyStr.slice_to 32767 s in
      if existsb is_illegal (PyStr.chars s)
      then Exc (IllegalCharacterError (s +:+ " cannot be used in worksheets."))
      else Ret (VStr s)
  | _ => Ret v
  end.

(** [ws.append(row)] *)
Definition append_row (row : list value) : outcome (list value) :=
  omap bind_value row.

(** [c.upper()], as the characters it gives; [None] when the upper case
    lies above code point 255 (the micro sign and y with diaeresis). *)
Definition upper_char (c : ascii) : option (list ascii) :=
  if PyStr.between 97 122 c
     || (PyStr.between 224 254 c && negb (PyStr.ord c =? 247)%N)
  then Some [ascii_of_N (PyStr.ord c - 32)]
  else if (PyStr.ord c =? 223)%N then Some ["S"; "S"]%char
  else if (PyStr.ord c =? 181)%N || (PyStr.ord c =? 255)%N then None
  else Some [c].

(** [s.upper()] *)
Fixpoint upper_chars (l : list ascii) : option (list ascii) :=
  match l with
  | [] => Some []
  | c :: l' =>
      match upper_char c, upper_chars l' with
      | Some u, Some us => Some (u ++ us)
      | _, _ => None
      end
  end.

(** The pattern a table region must match. *)
Definition cell_range_pattern : string :=
  "^[$]?([A-Za-z]{1,3})[$]?(\d+)(:[$]?([A-Za-z]{1,3})[$]?(\d+)?)?$|^[A-Za-z]{1,3}:[A-Za-z]{1,3}$".

Definition is_range_letter (c : ascii) : bool :=
  PyStr.between 65 90 c || PyStr.between 97 122 c.

(** The longest prefix of characters accepted by [p], and what follows. *)
Fixpoint span (p : ascii -> bool) (l : list ascii)
  : list ascii * list ascii :=
  match l with
  | c :: l' =>
      if p c then let '(run, rest) := span p l' in (c :: run, rest)
      else ([], l)
  | [] => ([], [])
  end.

(** [[$]?] *)
Definition skip_dollar (l : list ascii) : list ascii :=
  match l with
  | "$"%char :: l' => l'
  | _ => l
  end.

(** [[A-Za-z]{1,3}]: what follows one to three letters. *)
Definition after_letters (l : list ascii) : option (list ascii) :=
  let '(run, rest) := span is_range_letter l in
  if ((1 <=? length run) && (length run <=? 3))%nat then Some rest else None.

(** [$]: the end of the text, or the line feed that ends it. *)
Definition at_end (l : list ascii) : bool :=
  match l with
  | [] => true
  | [c] => (PyStr.ord c =? 10)%N
  | _ => false
  end.

(** The first alternative: a cell, then perhaps a colon and a cell or a
    column. *)
Definition matches_cells (l : list ascii) : bool :=
  match after_letters (skip_dollar l) with
  | None => false
  | Some l1 =>
      let '(row, l2) := span PyStr.isdecimal (skip_dollar l1) in
      match row, l2 with
      | [], _ => false
      | _, ":"%char :: l3 =>
          match after_letters (skip_dollar l3) with
          | None => false
          | Some l4 =>
              let '(_, l5) := span PyStr.isdecimal (skip_dollar l4) in
              at_end l5
          end
      | _, _ => at_end l2
      end
  end.

(** The second alternative: two columns. *)
Definition matches_columns (l : list ascii) : bool :=
  match after_letters l with
  | Some (":"%char :: l1) =>
      match after_letters l1 with
      | Some l2 => at_end l2
      | None => false
      end
  | _ => false
  end.

Definition matches_cell_range (value : string) : bool :=
  matches_cells (PyStr.chars value) || matches_columns (PyStr.chars value).

(** [Table(displayName=..., ref=...)]: the region is put in upper case and
    checked against the pattern.  A character whose upper case lies above
    code point 255 is no letter of the pattern, so the check fails on it. *)
Definition Table_ (displayName ref : string) : outcome Table :=
  let mismatch :=
    Exc (ValueError ("Value does not match pattern " +:+ cell_range_pattern)) in
  match upper_chars (PyStr.chars ref) with
  | Some value =>
      if matches_cell_range (PyStr.of_chars value)
      then Ret (mkTable displayName (PyStr.of_chars value) None)
      else mismatch
  | None => mismatch
  end.

(** [table.tableStyleInfo = style] *)
Definition with_style (style : TableStyleInfo) (table : Table) : Table :=
  mkTable (displayName table) (ref table) (Some style).

(** The loop of [get_column_letter]: letters are produced from the least
    significant one. *)
Fixpoint letters (fuel : nat) (col_idx : Z) : list ascii :=
  match fuel with
  | O => []
  | S fuel' =>
      if col_idx <=? 0 then []
      else
        let q := col_idx / 26 in
        let r := col_idx mod 26 in
        let '(q, r) := if r =? 0 then (q - 1, 26) else (q, r) in
        ascii_of_N (Z.to_N (r + 64)) :: letters fuel' q
  end.

(** [get_column_letter(col_idx)]: [1 -> A], [26 -> Z], [27 -> AA]. *)
Definition get_column_letter (col_idx : Z) : outcome string :=
  if (1 <=? col_idx) && (col_idx <=? 18278)
  then Ret (PyStr.of_chars (rev (letters (Z.to_nat col_idx) col_idx)))
  else Exc (ValueError "Invalid column index").

(** [ws.max_column]: 1 on a sheet without cells. *)
Definition max_column (rows : list (list value)) : nat :=
  Nat.max 1 (foldr Nat.max O (map (@length value) rows)).

(** [ws.columns]: the cells of each column over all rows, an absent cell
    reading [None]. *)
Definition ws_columns (rows : list (list value)) : list (list value) :=
  map (fun j => map (fun r => default VNone (r !! j)) rows)
      (seq 0 (max_column rows)).

(** [max(l)] *)
Definition py_max (l : list Z) : outcome Z :=
  match l with
  | [] => Exc (ValueError "max() arg is an empty sequence")
  | x :: l' => Ret (foldl Z.max x l')
  end.

(** [max(len(str(cell.value)) for cell in col if cell.value)] *)
Definition max_length (col : list value) : outcome Z :=
  py_max (map (fun v => PyStr.len (Py.str v)) (List.filter Py.truthy col)).

Fixpoint enumerate_from {A} (i : Z) (l : list A) : list (Z * A) :=
  match l with
  | [] => []
  | x :: l' => (i, x) :: enumerate_from (i + 1) l'
  end.

End Xl.

(* ================================================================== *)
(** ** The object store *)
(* ================================================================== *)

Definition ref := nat.

Record World := mkWorld {
  heap : list DataFrame;                     (* frames, by reference *)
  stdout : list string;                      (* printed lines, oldest first *)
  dirs : list string;                        (* directories created *)
  files : list (string * Xl.Worksheet)       (* workbooks written, by path *)
}.

(** A Python computation: it runs in a world, returns or raises, and leaves
    a world behind in both cases. *)
Definition Py (A : Type) : Type := World -> outcome A * World.

Definition ret {A} (a : A) : Py A := fun w => (Ret a, w).

Definition bind {A B} (m : Py A) (k : A -> Py B) : Py B :=
  fun w =>
    match m w with
    | (Ret a, w') => k a w'
    | (Exc e, w') => (Exc e, w')
    end.

Notation "x <- m ;; k" := (bind m (fun x => k))
  (at level 100, m at next level, right associativity, only parsing).
Notation "m ;;; k" := (bind m (fun _ => k))
  (at level 100, right associativity, only parsing).

Definition raise {A} (e : exn) : Py A := fun w => (Exc e, w).

(** The result of a pure library call. *)
Definition lift {A} (m : outcome A) : Py A := fun w => (m, w).

(** [try: body  except Exception as e: handler(e)] *)
Definition try_except {A} (body : Py A) (handler : exn -> Py A) : Py A :=
  fun w =>
    match body w with
    | (Ret a, w') => (Ret a, w')
    | (Exc e, w') => handler e w'
    end.

Definition print (line : string) : Py unit :=
  fun w => (Ret tt, mkWorld (heap w) (stdout w ++ [line]) (dirs w) (files w)).

(** Reading the frame a reference points to. *)
Definition deref (r : ref) : Py DataFrame :=
  fun w =>
    match heap w !! r with
    | Some T => (Ret T, w)
    | None => (Exc (Unmodelled "no such object"), w)
    end.

(** A new frame object. *)
Definition new (T : DataFrame) : Py ref :=
  fun w =>
    (Ret (length (heap w)),
     mkWorld (heap w ++ [T]) (stdout w) (dirs w) (files w)).

(** An in-place update of the frame at [r]. *)
Definition update (r : ref) (T : DataFrame) : Py unit :=
  fun w => (Ret tt, mkWorld (<[r := T]> (heap w)) (stdout w) (dirs w) (files w)).

(** The answers of the operating system: for a directory it will not
    create and for a path it will not write, the message of the error. *)
Record OS := mkOS {
  refuses_directory : string -> option string;
  refuses_file : string -> option string
}.

(** [os.makedirs(directory, exist_ok=True)]: the empty name is no
    directory; any other is created unless the system refuses. *)
Definition makedirs (os : OS) (directory : string) : Py unit :=
  fun w =>
    if String.eqb directory ""
    then (Exc (OSError "[Errno 2] No such file or directory: ''"), w)
    else
      match refuses_directory os directory with
      | Some msg => (Exc (OSError msg), w)
      | None =>
          (Ret tt,
           mkWorld (heap w) (stdout w)
             (if bool_decide (directory ∈ dirs w) then dirs w
              else dirs w ++ [directory])
             (files w))
      end.

(** [wb.save(path)]: the file is written, replacing the one that was
    there, unless the system refuses. *)
Definition save (os : OS) (path : string) (ws : Xl.Worksheet) : Py unit :=
  fun w =>
    match refuses_file os path with
    | Some msg => (Exc (OSError msg), w)
    | None =>
        (Ret tt,
         mkWorld (heap w) (stdout w) (dirs w)
           ((path, ws)
              :: List.filter (fun f => negb (String.eqb (fst f) path))
                   (files w)))
    end.

(** [str(e)] *)
Definition exn_str (e : exn) : string :=
  match e with
  | ValueError m | TypeError m | AttributeError m | Exception_ m
  | OSError m | IllegalCharacterError m | Unmodelled m => m
  | KeyError m => "'" +:+ m +:+ "'"
  end.

(** [os.path.join(a, b)] *)
Definition path_join (a b : string) : string :=
  match b with
  | String "/" _ => b
  | _ =>
      match rev (PyStr.chars a) with
      | [] => b
      | "/"%char :: _ => a +:+ b
      | _ => a +:+ "/" +:+ b
      end
  end.

(** Short hands for the frame at a reference: [column in df.columns],
    [df[column]], [df[column] = s], [df.loc[:, column] = s] and
    [df.copy()]. *)
Definition contains (df : ref) (column : string) : Py bool :=
  T <- deref df ;; ret (Pd.has_column column T).

Definition getitem_at (df : ref) (column : string) : Py Series :=
  T <- deref df ;; lift (Pd.getitem column T).

Definition setitem_at (df : ref) (column : string) (s : Series) : Py unit :=
  T <- deref df ;; update df (Pd.setitem column s T).

Definition loc_setitem_at (df : ref) (column : string) (s : Series)
  : Py unit :=
  T <- deref df ;; update df (Pd.loc_setitem column s T).

Definition copy (df : ref) : Py ref :=
  T <- deref df ;; new T.

(** Running a computation. *)
Definition run {A} (m : Py A) (w : World) : outcome A * World := m w.

(* ================================================================== *)
(** ** pandas_aux.py *)
(* ================================================================== *)

Definition missing_column_msg (column : string) : string :=
  "The column '" +:+ column +:+ "' does not exist in the DataFrame.".

(** The sheet [dataframe_to_excel] builds before saving it. *)
Definition table_ref (T : DataFrame) : outcome string :=
  let num_rows := Z.of_nat (Pd.nrows T) + 1 in
  match PyStr.chr (65 + Z.of_nat (Pd.ncols T) - 1) with
  | Some c => Ret ("A1:" +:+ String c "" +:+ PyStr.of_int num_rows)
  | None => Exc (Unmodelled "chr above 255")
  end.

Definition table_style : Xl.TableStyleInfo :=
  Xl.mkStyle "TableStyleMedium9" false false true false.

Definition column_width (entry : Z * list value) : outcome (string * Z) :=
  let '(i, col) := entry in
  obind (Xl.max_length col) (fun max_length =>
  obind (Xl.get_column_letter i) (fun letter =>
  Ret (letter, max_length + 2))).

Definition build_sheet (T : DataFrame) : outcome Xl.Worksheet :=
  obind (Xl.append_row (map VStr (Pd.column_names T))) (fun header =>
  obind (omap Xl.append_row (map snd (Pd.rows T))) (fun data =>
  let cells := header :: data in
  obind (table_ref T) (fun ref =>
  obind (Xl.Table_ "DataTable" ref) (fun table =>
  let table := Xl.with_style table_style table in
  obind (omap column_width (Xl.enumerate_from 1 (Xl.ws_columns cells)))
    (fun widths =>
  Ret (Xl.mkSheet "extracted_data" cells [1%nat] [table] widths)))))).

Definition dataframe_to_excel (os : OS) (df : ref)
    (directory file_name : string) : Py (option string) :=
  try_except
    (makedirs os directory ;;;
     let file_path := path_join directory file_name in
     T <- deref df ;;
     ws <- lift (build_sheet T) ;;
     save os file_path ws ;;;
     ret (Some file_path))
    (fun e =>
       print ("Error exporting to Excel: " +:+ exn_str e) ;;;
       ret None).

Definition remove_duplicates (df : ref) (column : string) : Py ref :=
  present <- contains df column ;;
  if negb present
  then raise (ValueError (missing_column_msg column))
  else
    T <- deref df ;;
    T' <- lift (Pd.drop_duplicates column T) ;;
    new T'.

Definition strip_column (col : Series) : outcome Series :=
  if decide (s_dtype col = object) then Pd.str_strip col else Ret col.

Definition strip_dataframe (df : ref) : Py ref :=
  T <- deref df ;;
  T' <- lift (Pd.frame_apply strip_column T) ;;
  new T'.

Definition filter_dataframe (df : ref) (column : string) (parameter : value)
  : Py (option ref) :=
  present <- contains df column ;;
  if negb present
  then print (missing_column_msg column) ;;; ret None
  else
    s <- getitem_at df column ;;
    T <- deref df ;;
    r <- new (Pd.select (Pd.eq_scalar s parameter) T) ;;
    ret (Some r).

Definition clean_text (v : value) : outcome value :=
  match v with
  | VStr s =>
      let s := PyStr.replace "&" "E" s in
      let s := Re.sub Re.not_alnum_space "" s in
      Ret (VStr s)
  | _ => Ret v
  end.

Definition clean_special_characters (df : ref) (column : string)
  : Py (option ref) :=
  present <- contains df column ;;
  if negb present
  then print (missing_column_msg column) ;;; ret None
  else
    s <- getitem_at df column ;;
    s' <- lift (Pd.apply clean_text s) ;;
    loc_setitem_at df column s' ;;;
    ret (Some df).

Definition lower_value (x : value) : outcome value :=
  match x with
  | VStr s => Ret (VStr (PyStr.lower s))
  | _ => Ret x
  end.

Definition lowercase_dataframe (df : ref) (column : string)
  : Py (option ref) :=
  present <- contains df column ;;
  if negb present
  then print (missing_column_msg column) ;;; ret None
  else
    s <- getitem_at df column ;;
    s' <- lift (Pd.apply lower_value s) ;;
    setitem_at df column s' ;;;
    ret (Some df).

Definition process (size : Z) (doc : value) : outcome value :=
  if Pd.isna doc
     || Py.str_in (PyStr.lower (PyStr.strip (Py.str doc))) [""; "nan"; "none"]
  then Ret VNone
  else
    let doc_str := PyStr.strip (Py.str doc) in
    let doc_numeric := Re.sub Re.NotDigit "" doc_str in
    let doc_numeric :=
      if PyStr.len doc_numeric <? size then PyStr.zfill size doc_numeric
      else if size <? PyStr.len doc_numeric
           then PyStr.slice_to size doc_numeric
           else doc_numeric in
    Ret (VStr doc_numeric).

(** The warning sign of the message lies outside Latin-1; the printed line
    carries its UTF-8 bytes. *)
Definition format_document (df : ref) (column : string) (size : Z)
  : Py (option ref) :=
  present <- contains df column ;;
  if negb present
  then print ("⚠ " +:+ missing_column_msg column) ;;; ret None
  else
    df <- copy df ;;
    s <- getitem_at df column ;;
    s' <- lift (Pd.apply (process size) s) ;;
    setitem_at df column s' ;;;
    ret (Some df).

Definition drop_column (df : ref) (column : string) : Py (option ref) :=
  present <- contains df column ;;
  if present
  then
    T <- deref df ;;
    T' <- lift (Pd.drop_columns column T) ;;
    df <- new T' ;;
    ret (Some df)
  else ret None.

Definition filter_by_different_char_count (df : ref) (column : string)
    (char_count : Z) : Py ref :=
  present <- contains df column ;;
  if negb present
  then raise (ValueError (missing_column_msg column))
  else
    s <- getitem_at df column ;;
    setitem_at df column (Pd.astype_str s) ;;;
    s <- getitem_at df column ;;
    lens <- lift (Pd.apply Py.len s) ;;
    let filter_mask := Pd.ne_scalar lens (VInt char_count) in
    T <- deref df ;;
    new (Pd.select filter_mask T).

Definition truncate (limit : Z) (x : value) : outcome value :=
  if Py.truthy x
  then match x with
       | VStr s => Ret (VStr (PyStr.slice_to limit s))
       | _ => Exc (TypeError "object is not subscriptable")
       end
  else Ret x.

Definition limit_column_size (df : ref) (column : string) (limit : Z)
  : Py ref :=
  df_copy <- copy df ;;
  present <- contains df_copy column ;;
  if negb present
  then raise (ValueError (missing_column_msg column))
  else
    s <- getitem_at df_copy column ;;
    setitem_at df_copy column (Pd.astype_str s) ;;;
    s <- getitem_at df_copy column ;;
    s' <- lift (Pd.apply (truncate limit) s) ;;
    setitem_at df_copy column s' ;;;
    ret df_copy.

Definition process_phone (phone : value) : outcome value :=
  match phone with
  | VStr s => Ret (VStr (Re.sub Re.NotDigit "" s))
  | _ => Exc (TypeError "expected string or bytes-like object")
  end.

Definition format_phone_number (df : ref) (column : string)
  : Py (option ref) :=
  present <- contains df column ;;
  if negb present
  then print (missing_column_msg column) ;;; ret None
  else
    df <- copy df ;;
    s <- getitem_at df column ;;
    setitem_at df column (Pd.astype_str s) ;;;
    s <- getitem_at df column ;;
    s' <- lift (Pd.apply process_phone s) ;;
    setitem_at df column s' ;;;
    ret (Some df).

Definition rename_column (df : ref) (current_name new_name : string)
  : Py (option ref) :=
  try_except
    (present <- contains df current_name ;;
     (if negb present
      then print (missing_column_msg current_name) ;;;
           raise (Exception_ "")
      else ret tt) ;;;
     T <- deref df ;;
     renamed_df <- new (Pd.rename current_name new_name T) ;;
     ret (Some renamed_df))
    (fun e =>
       print ("Error renaming column: " +:+ exn_str e) ;;;
       ret None).

(* ================================================================== *)
(** ** The properties, in the specification's words *)
(* ================================================================== *)

Module Spec.

(** The world after [lines] were printed. *)
Definition printed (lines : list string) (w : World) : World :=
  mkWorld (heap w) (stdout w ++ lines) (dirs w) (files w).

(** The world after the frames [Ts] were created. *)
Definition allocated (Ts : list DataFrame) (w : World) : World :=
  mkWorld (heap w ++ Ts) (stdout w) (dirs w) (files w).

(** The world after the frame at [r] became [T]. *)
Definition mutated (r : ref) (T : DataFrame) (w : World) : World :=
  mkWorld (<[r := T]> (heap w)) (stdout w) (dirs w) (files w).

(** A string stripped to its digits. *)
Definition digits_only (s : string) : string :=
  PyStr.of_chars (List.filter PyStr.isdecimal (PyStr.chars s)).

(** The characters left by [str.strip]. *)
Definition stripped (l : list ascii) : list ascii :=
  rev (PyStr.drop_spaces (rev (PyStr.drop_spaces l))).

Definition all_space (s : string) : bool :=
  forallb PyStr.isspace (PyStr.chars s).

Definition left_pad_zeros (size : nat) (s : string) : string :=
  PyStr.of_chars (replicate (size - String.length s) "0"%char) +:+ s.

Definition first_chars (size : nat) (s : string) : string :=
  PyStr.of_chars (take size (PyStr.chars s)).

(** Left-padded with zeros when shorter than [size], cut to the first
    [size] characters when longer. *)
Definition fit (size : Z) (digits : string) : string :=
  if PyStr.len digits <? size
  then left_pad_zeros (Z.to_nat size) digits
  else if size <? PyStr.len digits
       then first_chars (Z.to_nat size) digits
       else digits.

(** formatDocument as stated: blank are the missing values, the empty
    string and the words nan and none in any case. *)
Definition blank_as_stated (v : value) : bool :=
  Pd.isna v
  || String.eqb (Py.str v) ""
  || Py.str_in (PyStr.lower (Py.str v)) ["nan"; "none"].

Definition format_cell_as_stated (size : Z) (v : value) : value :=
  if blank_as_stated v then VNone
  else VStr (fit size (digits_only (Py.str v))).

(** formatDocument as the code has it: white space around the text does
    not count. *)
Definition blank (v : value) : bool :=
  Pd.isna v
  || all_space (Py.str v)
  || Py.str_in (PyStr.lower (PyStr.strip (Py.str v))) ["nan"; "none"].

Definition format_cell (size : Z) (v : value) : value :=
  if blank v then VNone
  else VStr (fit size (digits_only (Py.str v))).

(** cleanSpecialChars. *)
Definition amp_to_E (c : ascii) : ascii :=
  if Ascii.eqb c "&"%char then "E"%char else c.

(** Kept as stated: letters, digits and white space. *)
Definition kept_as_stated (c : ascii) : bool :=
  PyStr.isalpha c || PyStr.isdecimal c || PyStr.isspace c.

Definition is_ascii_letter (c : ascii) : bool :=
  PyStr.between 65 90 c || PyStr.between 97 122 c.

(** Kept by the code: the letters a-z and A-Z, the digits 0-9 and white
    space. *)
Definition kept (c : ascii) : bool :=
  is_ascii_letter c || PyStr.between 48 57 c || PyStr.isspace c.

Definition clean_with (keep : ascii -> bool) (v : value) : value :=
  match v with
  | VStr s =>
      VStr (PyStr.of_chars
              (List.filter keep (map amp_to_E (PyStr.chars s))))
  | _ => v
  end.

Definition clean_cell_as_stated : value -> value := clean_with kept_as_stated.
Definition clean_cell : value -> value := clean_with kept.

(** formatPhone. *)
Definition phone_cell (v : value) : value :=
  VStr (digits_only (Py.str v)).

(** dedupe: position [i] holds the first occurrence of its value when no
    earlier position holds an equal one. *)
Definition is_first_occurrence (vs : list value) (i : nat) : bool :=
  match vs !! i with
  | Some v => forallb (fun u => negb (Pd.same_key u v)) (take i vs)
  | None => false
  end.

Definition first_occurrences (vs : list value) : list bool :=
  map (is_first_occurrence vs) (seq 0 (length vs)).

Definition pairwise_distinct (vs : list value) : Prop :=
  forall i j a b,
    i <> j -> vs !! i = Some a -> vs !! j = Some b ->
    Pd.same_key a b = false.

(** The key a value stands for in a hash table: [True] and [False] are
    the numbers 1 and 0. *)
Definition key (v : value) : value :=
  match v with
  | VBool b => VInt (Py.int_of_bool b)
  | _ => v
  end.

(** Every column has one cell per row. *)
Definition rectangular (idx : list Z) (cols : list (list value)) : Prop :=
  Forall (fun c => length c = length idx) cols.

(** The cells of the columns, one list per column. *)
Definition cells_of (T : DataFrame) : list (list value) :=
  map (fun c => s_values (snd c)) (df_columns T).

(** Rows and their cells. *)
Fixpoint index_of (column : string) (names : list string) : nat :=
  match names with
  | [] => O
  | name :: names' =>
      if String.eqb name column then O else S (index_of column names')
  end.

Definition position (column : string) (T : DataFrame) : nat :=
  index_of column (Pd.column_names T).

Definition cell (pos : nat) (row : Z * list value) : value :=
  default VNaN (snd row !! pos).

Definition with_cell (f : value -> value) (pos : nat)
    (row : Z * list value) : Z * list value :=
  (fst row, alter f pos (snd row)).

Definition stringified (v : value) : value := VStr (Py.str v).

(** filterByLength keeps a row when the text of its cell is not [n]
    characters long. *)
Definition length_differs (n : Z) (pos : nat) (row : Z * list value)
  : bool :=
  negb (PyStr.len (Py.str (cell pos row)) =? n).

(** The rows to keep, from the column's values. *)
Definition length_mask (n : Z) (vs : list value) : list bool :=
  map (fun v => negb (PyStr.len (Py.str v) =? n)) vs.

(** save: the region of a table of [ncols] columns and [nrows] data
    rows. *)
Definition table_region (ncols nrows : nat) : outcome string :=
  obind (Xl.get_column_letter (Z.of_nat ncols)) (fun letter =>
  Ret ("A1:" +:+ letter +:+ PyStr.of_int (Z.of_nat nrows + 1))).

(** A frame with [n] empty columns named 1, 2, ... *)
Definition wide_frame (n : nat) : DataFrame :=
  mkFrame []
    (map (fun i => (PyStr.of_int (Z.of_nat i), mkSeries object []))
         (seq 1 n)).

End Spec.

(* ================================================================== *)
(** ** Sample data *)
(* ================================================================== *)

Module Sample.

Definition customers : DataFrame :=
  mkFrame [0; 1; 2; 3]
    [("id", mkSeries int64 [VInt 1; VInt 22; VInt 1; VInt 333]);
     ("name", mkSeries object [VStr " A&B #1! "; VNaN; VStr "x"; VNone]);
     ("phone", mkSeries object
                 [VStr "(11) 98888-7777"; VNaN; VStr "123"; VNone])].

Definition world : World := mkWorld [customers] [] [] [].

(** A document number made of two spaces. *)
Definition blank_documents : DataFrame :=
  mkFrame [0] [("doc", mkSeries object [VStr "  "])].

(** The Latin-1 letter e with an acute accent, U+00E9. *)
Definition e_acute : ascii := "233"%char.

Definition jose : string := "Jos" +:+ String e_acute "".

Definition people : DataFrame :=
  mkFrame [0] [("name", mkSeries object [VStr jose])].

(** A column of [False] under a short header. *)
Definition flags : DataFrame :=
  mkFrame [0; 1] [("ok", mkSeries bool_ [VBool false; VBool false])].

End Sample.

(* ================================================================== *)
(** ** Further properties, in plain terms *)
(* ================================================================== *)

Module Laws.

(** lowercase: text is lowered, anything else is left alone. *)
Definition lower_cell (v : value) : value :=
  match v with
  | VStr s => VStr (PyStr.lower s)
  | _ => v
  end.

Definition is_ascii_upper (c : ascii) : bool := PyStr.between 65 90 c.

(** limitColumnSize: the first [limit] characters of the text of a value. *)
Definition truncated_cell (limit : Z) (v : value) : value :=
  VStr (Spec.first_chars (Z.to_nat limit) (Py.str v)).

(** filterEq keeps a row when its cell is present and equal to a present
    parameter. *)
Definition equals (parameter : value) (pos : nat) (row : Z * list value)
  : bool :=
  let v := Spec.cell pos row in
  negb (Pd.isna v) && negb (Pd.isna parameter) && Py.eq v parameter.

(** The columns other than [column]. *)
Definition other_columns (column : string) (T : DataFrame)
  : list (string * Series) :=
  filter (fun c => negb (String.eqb (fst c) column)) (df_columns T).

Definition renamed (old new name : string) : string :=
  if String.eqb name old then new else name.

(** A text of exactly [size] digits. *)
Definition digits_of_size (size : Z) (v : value) : Prop :=
  exists d,
    v = VStr d
    /\ PyStr.len d = size
    /\ Forall (fun c => PyStr.isdecimal c = true) (PyStr.chars d).

(** A text without white space at either end. *)
Definition trimmed (s : string) : Prop :=
  match PyStr.chars s with
  | [] => True
  | c :: _ =>
      PyStr.isspace c = false
      /\ exists c', last (PyStr.chars s) = Some c' /\ PyStr.isspace c' = false
  end.

(** A text whose length is not [n]. *)
Definition text_of_other_length (n : Z) (v : value) : Prop :=
  exists t, v = VStr t /\ PyStr.len t <> n.

(** A column with at least one text cell. *)
Definition holds_text (s : Series) : Prop :=
  exists i t, s_values s !! i = Some (VStr t).

(** A value a cell keeps as it is: any value but a text of more than
    32767 characters or with an illegal character. *)
Definition plain (v : value) : bool :=
  match v with
  | VStr s =>
      (PyStr.len s <=? 32767) && negb (existsb Xl.is_illegal (PyStr.chars s))
  | _ => true
  end.

(** A frame whose column names and cells are all plain. *)
Definition plain_frame (T : DataFrame) : bool :=
  forallb (fun c => plain (VStr (fst c)) && forallb plain (s_values (snd c)))
          (df_columns T).

(** An operating system that refuses nothing. *)
Definition willing : OS := mkOS (fun _ => None) (fun _ => None).

(** The directories there are once [directory] has been created. *)
Definition created (directory : string) (w : World) : list string :=
  if bool_decide (directory ∈ dirs w) then dirs w else dirs w ++ [directory].

(** The world after [dataframe_to_excel] created [directory] and wrote
    [ws] at [path]. *)
Definition exported (directory path : string) (ws : Xl.Worksheet)
    (w : World) : World :=
  mkWorld (heap w) (stdout w) (created directory w)
    ((path, ws)
       :: List.filter (fun f => negb (String.eqb (fst f) path)) (files w)).

(** The world after [dataframe_to_excel] gave up: it printed one line,
    the error after "Error exporting to Excel: ", and wrote no file; the
    frames are as they were and [dirs'] are the directories by then. *)
Definition export_failed (line : string) (dirs' : list string) (w : World)
  : World :=
  mkWorld (heap w) (stdout w ++ ["Error exporting to Excel: " +:+ line])
    dirs' (files w).

End Laws.

(* ================================================================== *)
(** ** Running computations *)
(* ================================================================== *)

Lemma run_bind {A B} (m : Py A) (k : A -> Py B) w :
  run (bind m k) w =
  match run m w with
  | (Ret a, w') => run (k a) w'
  | (Exc e, w') => (Exc e, w')
  end.
Proof. reflexivity. Qed.

Lemma run_deref w r T :
  heap w !! r = Some T -> run (deref r) w = (Ret T, w).
Proof. intros H. unfold run, deref. by rewrite H. Qed.

Lemma run_contains w r T column :
  heap w !! r = Some T ->
  run (contains r column) w = (Ret (Pd.has_column column T), w).
Proof. intros H. unfold contains. rewrite run_bind, (run_deref _ _ _ H). done. Qed.

Lemma run_getitem_at w r T column :
  heap w !! r = Some T ->
  run (getitem_at r column) w = (Pd.getitem column T, w).
Proof. intros H. unfold getitem_at. rewrite run_bind, (run_deref _ _ _ H). done. Qed.

Lemma run_setitem_at w r T column s :
  heap w !! r = Some T ->
  run (setitem_at r column s) w
  = (Ret tt, Spec.mutated r (Pd.setitem column s T) w).
Proof. intros H. unfold setitem_at. rewrite run_bind, (run_deref _ _ _ H). done. Qed.

Lemma run_copy w r T :
  heap w !! r = Some T ->
  run (copy r) w = (Ret (length (heap w)), Spec.allocated [T] w).
Proof. intros H. unfold copy. rewrite run_bind, (run_deref _ _ _ H). done. Qed.

Lemma heap_allocated_old w Ts r T :
  heap w !! r = Some T -> heap (Spec.allocated Ts w) !! r = Some T.
Proof. intros H. simpl. by apply lookup_app_l_Some. Qed.

Lemma heap_allocated_new w T :
  heap (Spec.allocated [T] w) !! length (heap w) = Some T.
Proof. simpl. by rewrite lookup_app_r, Nat.sub_diag. Qed.

Lemma heap_mutated_eq w r T T' :
  heap w !! r = Some T -> heap (Spec.mutated r T' w) !! r = Some T'.
Proof.
  intros H. simpl. apply list_lookup_insert_eq. by eapply lookup_lt_Some.
Qed.

Lemma heap_mutated_ne w r r' T' :
  r <> r' -> heap (Spec.mutated r T' w) !! r' = heap w !! r'.
Proof. intros H. simpl. by apply list_lookup_insert_ne. Qed.

Lemma has_column_false column T :
  column ∉ Pd.column_names T -> Pd.has_column column T = false.
Proof. intros H. unfold Pd.has_column. by apply bool_decide_eq_false. Qed.

Lemma assoc_None column cols :
  Pd.assoc column cols = None <-> column ∉ map fst cols.
Proof.
  induction cols as [|[name s] cols IH]; simpl.
  - split; [intros _; apply not_elem_of_nil | done].
  - destruct (String.eqb_spec name column) as [->|Hne].
    + split; [done | intros H; exfalso; apply H; left].
    + rewrite IH, not_elem_of_cons. simpl.
      split; [intros H; split; [congruence | done] | by intros [_ H]].
Qed.

Lemma assoc_Some_has_column column T s :
  Pd.assoc column (df_columns T) = Some s -> Pd.has_column column T = true.
Proof.
  intros H. unfold Pd.has_column. apply bool_decide_eq_true.
  destruct (decide (column ∈ Pd.column_names T)) as [|Hn]; [done|].
  apply assoc_None in Hn. congruence.
Qed.

Lemma getitem_Some column T s :
  Pd.assoc column (df_columns T) = Some s -> Pd.getitem column T = Ret s.
Proof. intros H. unfold Pd.getitem. by rewrite H. Qed.

(** Unfolds one call on a frame whose column test is known. *)
Ltac py_start Hheap :=
  rewrite run_bind, (run_contains _ _ _ _ Hheap).

(* ================================================================== *)
(** ** A missing column *)
(* ================================================================== *)

Section missing_column.

Context (w : World) (df : ref) (T : DataFrame) (column : string).
Hypothesis Hheap : heap w !! df = Some T.
Hypothesis Habsent : column ∉ Pd.column_names T.

Local Ltac absent_column :=
  py_start Hheap; rewrite (has_column_false _ _ Habsent); reflexivity.

Lemma remove_duplicates_missing :
  run (remove_duplicates df column) w = (Exc (ValueError (missing_column_msg column)), w).
Proof. unfold remove_duplicates. absent_column. Qed.




Lemma format_document_missing size :
  run (format_document df column size) w
  = (Ret None, Spec.printed ["⚠ " +:+ missing_column_msg column] w).
Proof. unfold format_document. absent_column. Qed.

Lemma drop_column_missing :
  run (drop_column df column) w = (Ret None, w).
Proof. unfold drop_column. absent_column. Qed.

Lemma filter_by_different_char_count_missing char_count :
  run (filter_by_different_char_count df column char_count) w
  = (Exc (ValueError (missing_column_msg column)), w).
Proof. unfold filter_by_different_char_count. absent_column. Qed.


Lemma format_phone_number_missing :
  run (format_phone_number df column) w = (Ret None, Spec.printed [missing_column_msg column] w).
Proof. unfold format_phone_number. absent_column. Qed.


End missing_column.



(* ================================================================== *)
(** ** Strings *)
(* ================================================================== *)

Section strings.

Local Open Scope nat_scope.

Lemma of_chars_chars s : PyStr.of_chars (PyStr.chars s) = s.
Proof. apply string_of_list_ascii_of_string. Qed.

Lemma chars_of_chars l : PyStr.chars (PyStr.of_chars l) = l.
Proof. apply list_ascii_of_string_of_list_ascii. Qed.

Lemma of_chars_app l k :
  PyStr.of_chars (l ++ k) = PyStr.of_chars l +:+ PyStr.of_chars k.
Proof. induction l as [|c l IH]; simpl; [done | by rewrite IH]. Qed.

Lemma str_app_nil_r s : s +:+ "" = s.
Proof.
  induction s as [|c s IH]; [done|].
  change (String c (s +:+ "") = String c s). by rewrite IH.
Qed.

Lemma length_chars s : length (PyStr.chars s) = String.length s.
Proof. induction s as [|c s IH]; simpl; [done | by rewrite IH]. Qed.

Lemma len_of_chars l : PyStr.len (PyStr.of_chars l) = Z.of_nat (length l).
Proof. unfold PyStr.len. by rewrite <- length_chars, chars_of_chars. Qed.

(** Deleting the matches of a one-character pattern is a filter. *)
Lemma sub_delete p s :
  Re.sub p "" s
  = PyStr.of_chars
      (List.filter (fun c => negb (Re.matches p c)) (PyStr.chars s)).
Proof.
  induction s as [|c s IH]; simpl; [done|].
  destruct (Re.matches p c); simpl; by rewrite IH.
Qed.

Lemma sub_not_digit s : Re.sub Re.NotDigit "" s = Spec.digits_only s.
Proof.
  rewrite sub_delete. unfold Spec.digits_only. f_equal.
  apply filter_ext. intros c. simpl. by rewrite negb_involutive.
Qed.

Lemma replace_amp s :
  PyStr.replace "&" "E" s
  = PyStr.of_chars (map Spec.amp_to_E (PyStr.chars s)).
Proof.
  induction s as [|c s IH]; simpl; [done|].
  rewrite IH.
  change (Spec.amp_to_E c) with (if Ascii.eqb c "&" then "E"%char else c).
  destruct (Ascii.eqb c "&"); reflexivity.
Qed.

Lemma not_alnum_space_kept c :
  negb (Re.matches Re.not_alnum_space c) = Spec.kept c.
Proof.
  destruct c as [[] [] [] [] [] [] [] []]; vm_compute; reflexivity.
Qed.

(** *** White space at the ends *)

Lemma drop_spaces_head l :
  PyStr.drop_spaces l = []
  \/ exists c l', PyStr.drop_spaces l = c :: l' /\ PyStr.isspace c = false.
Proof.
  induction l as [|c l IH]; simpl; [by left|].
  destruct (PyStr.isspace c) eqn:E; [done|]. right. by exists c, l.
Qed.

Lemma drop_spaces_nil l :
  PyStr.drop_spaces l = [] <-> forallb PyStr.isspace l = true.
Proof.
  induction l as [|c l IH]; simpl; [done|].
  destruct (PyStr.isspace c); simpl; [done|]. split; discriminate.
Qed.

Lemma drop_spaces_stable c l :
  PyStr.isspace c = false -> PyStr.drop_spaces (c :: l) = c :: l.
Proof. intros H. simpl. by rewrite H. Qed.

Lemma drop_spaces_snoc l c :
  PyStr.isspace c = false ->
  PyStr.drop_spaces (l ++ [c]) = PyStr.drop_spaces l ++ [c].
Proof.
  intros H. induction l as [|a l IH]; simpl.
  - by rewrite H.
  - destruct (PyStr.isspace a); [done | reflexivity].
Qed.

Lemma drop_spaces_idem l :
  PyStr.drop_spaces (PyStr.drop_spaces l) = PyStr.drop_spaces l.
Proof.
  destruct (drop_spaces_head l) as [->|(c & l' & -> & H)]; [done|].
  by apply drop_spaces_stable.
Qed.

Lemma strip_chars s :
  PyStr.strip s = PyStr.of_chars (Spec.stripped (PyStr.chars s)).
Proof. unfold PyStr.strip, PyStr.rstrip, PyStr.lstrip. by rewrite chars_of_chars. Qed.

Lemma stripped_cases l :
  (Spec.stripped l = [] /\ forallb PyStr.isspace l = true)
  \/ (exists c m,
        PyStr.isspace c = false
        /\ Spec.stripped l = c :: rev (PyStr.drop_spaces (rev m))
        /\ forallb PyStr.isspace l = false).
Proof.
  unfold Spec.stripped.
  destruct (drop_spaces_head l) as [E|(c & m & E & Hc)]; rewrite E.
  - left. split; [done | by apply drop_spaces_nil].
  - right. exists c, m. split; [done|]. split.
    + simpl. by rewrite (drop_spaces_snoc _ _ Hc), rev_unit.
    + destruct (forallb PyStr.isspace l) eqn:F; [|done].
      apply drop_spaces_nil in F. congruence.
Qed.

Lemma stripped_idem l : Spec.stripped (Spec.stripped l) = Spec.stripped l.
Proof.
  destruct (stripped_cases l) as [[-> _]|(c & m & Hc & -> & _)]; [done|].
  unfold Spec.stripped. rewrite (drop_spaces_stable _ _ Hc). simpl.
  rewrite rev_involutive, (drop_spaces_snoc _ _ Hc), drop_spaces_idem.
  by rewrite rev_unit.
Qed.

Lemma strip_idempotent s : PyStr.strip (PyStr.strip s) = PyStr.strip s.
Proof. by rewrite !strip_chars, chars_of_chars, stripped_idem. Qed.

Lemma of_chars_nil l : PyStr.of_chars l = "" <-> l = [].
Proof. destruct l; simpl; split; done. Qed.

Lemma strip_empty s :
  String.eqb (PyStr.lower (PyStr.strip s)) "" = Spec.all_space s.
Proof.
  rewrite strip_chars. unfold PyStr.lower, Spec.all_space.
  rewrite chars_of_chars.
  destruct (stripped_cases (PyStr.chars s))
    as [[-> ->]|(c & m & _ & -> & ->)]; done.
Qed.

Lemma space_not_decimal c :
  PyStr.isspace c = true -> PyStr.isdecimal c = false.
Proof. destruct c as [[] [] [] [] [] [] [] []]; vm_compute; done. Qed.

Lemma decimal_not_sign c :
  PyStr.isdecimal c = true -> PyStr.is_sign c = false.
Proof. destruct c as [[] [] [] [] [] [] [] []]; vm_compute; done. Qed.

Lemma filter_decimal_drop_spaces l :
  List.filter PyStr.isdecimal (PyStr.drop_spaces l)
  = List.filter PyStr.isdecimal l.
Proof.
  induction l as [|c l IH]; simpl; [done|].
  destruct (PyStr.isspace c) eqn:E; [|done].
  by rewrite (space_not_decimal _ E).
Qed.

(** Stripping white space first does not change the digits. *)
Lemma digits_only_strip s :
  Spec.digits_only (PyStr.strip s) = Spec.digits_only s.
Proof.
  unfold Spec.digits_only. rewrite strip_chars, chars_of_chars. f_equal.
  unfold Spec.stripped.
  rewrite filter_rev, filter_decimal_drop_spaces, filter_rev.
  by rewrite rev_involutive, filter_decimal_drop_spaces.
Qed.

Lemma digits_only_decimal s :
  Forall (fun c => PyStr.isdecimal c = true)
         (PyStr.chars (Spec.digits_only s)).
Proof.
  unfold Spec.digits_only. rewrite chars_of_chars.
  apply Forall_forall. intros c Hc.
  by apply list_elem_of_In, filter_In in Hc as [_ ?].
Qed.

(** On a string of digits [zfill] only pads. *)
Lemma zfill_digits (size : Z) d :
  Forall (fun c => PyStr.isdecimal c = true) (PyStr.chars d) ->
  (PyStr.len d < size)%Z ->
  PyStr.zfill size d = Spec.left_pad_zeros (Z.to_nat size) d.
Proof.
  intros Hd Hlt. unfold PyStr.zfill, Spec.left_pad_zeros.
  destruct (Z.leb_spec size (PyStr.len d)) as [|_]; [lia|].
  replace (Z.to_nat (size - PyStr.len d))
    with (Z.to_nat size - String.length d) by (unfold PyStr.len; lia).
  destruct d as [|c rest]; simpl.
  - by rewrite Nat.sub_0_r, str_app_nil_r.
  - inversion Hd as [|? ? Hc _]; subst.
    by rewrite (decimal_not_sign _ Hc).
Qed.

(** A slice up to a bound inside the string is a prefix. *)
Lemma slice_to_prefix (size : Z) d :
  (0 <= size)%Z -> (size < PyStr.len d)%Z ->
  PyStr.slice_to size d = Spec.first_chars (Z.to_nat size) d.
Proof.
  intros H0 Hlt. unfold PyStr.slice_to, Spec.first_chars.
  destruct (Z.ltb_spec size 0) as [|_]; [lia|].
  by rewrite Z.min_l by lia.
Qed.

End strings.

(* ================================================================== *)
(** ** Columns and the store *)
(* ================================================================== *)

Lemma omap_total {A B} (g : A -> outcome B) (f : A -> B) l :
  (forall x, x ∈ l -> g x = Ret (f x)) -> omap g l = Ret (map f l).
Proof.
  induction l as [|x l IH]; intros H; simpl; [done|].
  rewrite (H x) by left. simpl. rewrite IH; [done|].
  intros y Hy. apply H. by right.
Qed.

Lemma apply_convert g f s :
  (forall v, v ∈ s_values s -> g v = Ret (f v)) ->
  Pd.apply g s = Ret (Pd.convert (s_dtype s) (map f (s_values s))).
Proof. intros H. unfold Pd.apply. by rewrite (omap_total g f). Qed.

Lemma existsb_map_false {A B} (p : B -> bool) (f : A -> B) l :
  (forall x, p (f x) = false) -> existsb p (map f l) = false.
Proof. intros H. induction l as [|x l IH]; simpl; [done|]. by rewrite H. Qed.

(** Computed objects none of which is [nan] are kept as they are. *)
Lemma convert_present d vs :
  existsb Pd.is_nan vs = false ->
  Pd.convert d vs = mkSeries (Pd.infer_dtype d vs) vs.
Proof. intros H. unfold Pd.convert. by rewrite H, andb_false_r. Qed.

Lemma apply_total g f s :
  (forall v, v ∈ s_values s -> g v = Ret (f v)) ->
  (forall v, Pd.is_nan (f v) = false) ->
  Pd.apply g s
  = Ret (mkSeries (Pd.infer_dtype (s_dtype s) (map f (s_values s)))
           (map f (s_values s))).
Proof.
  intros H Hf. rewrite (apply_convert g f) by done.
  rewrite convert_present; [done | by apply existsb_map_false].
Qed.

Lemma assoc_replace_eq column s cols :
  Pd.assoc column (Pd.replace_column column s cols) = Some s.
Proof.
  induction cols as [|[name s0] cols IH]; simpl.
  - by rewrite String.eqb_refl.
  - destruct (String.eqb name column) eqn:E; simpl; by rewrite E.
Qed.

Lemma assoc_replace_ne c column s cols :
  c <> column ->
  Pd.assoc c (Pd.replace_column column s cols) = Pd.assoc c cols.
Proof.
  intros Hne. induction cols as [|[name s0] cols IH]; simpl.
  - destruct (String.eqb_spec column c); congruence.
  - destruct (String.eqb_spec name column) as [->|]; simpl.
    + destruct (String.eqb_spec column c); congruence.
    + by rewrite IH.
Qed.

Lemma replace_replace column s1 s2 cols :
  Pd.replace_column column s2 (Pd.replace_column column s1 cols)
  = Pd.replace_column column s2 cols.
Proof.
  induction cols as [|[name s0] cols IH]; simpl.
  - by rewrite String.eqb_refl.
  - destruct (String.eqb name column) eqn:E; simpl; rewrite E; [done|].
    by rewrite IH.
Qed.

Lemma names_replace column s s0 cols :
  Pd.assoc column cols = Some s0 ->
  map fst (Pd.replace_column column s cols) = map fst cols.
Proof.
  induction cols as [|[name s1] cols IH]; simpl; [done|].
  destruct (String.eqb name column); simpl; [done|].
  intros H. by rewrite IH.
Qed.

(** Reading back what [df[column] = s] stored; the other columns, their
    names and the index are not touched. *)
Lemma getitem_setitem column s T :
  Pd.getitem column (Pd.setitem column s T) = Ret s.
Proof. unfold Pd.getitem. simpl. by rewrite assoc_replace_eq. Qed.

Lemma getitem_setitem_ne c column s T :
  c <> column ->
  Pd.getitem c (Pd.setitem column s T) = Pd.getitem c T.
Proof. intros H. unfold Pd.getitem. simpl. by rewrite assoc_replace_ne. Qed.

Lemma setitem_setitem column s1 s2 T :
  Pd.setitem column s2 (Pd.setitem column s1 T) = Pd.setitem column s2 T.
Proof. unfold Pd.setitem. simpl. by rewrite replace_replace. Qed.

Lemma column_names_setitem column s s0 T :
  Pd.assoc column (df_columns T) = Some s0 ->
  Pd.column_names (Pd.setitem column s T) = Pd.column_names T.
Proof. apply names_replace. Qed.

Lemma mutated_mutated r T1 T2 w :
  Spec.mutated r T2 (Spec.mutated r T1 w) = Spec.mutated r T2 w.
Proof. unfold Spec.mutated. simpl. by rewrite list_insert_insert_eq. Qed.

Lemma mutated_allocated T R w :
  Spec.mutated (length (heap w)) R (Spec.allocated [T] w)
  = Spec.allocated [R] w.
Proof.
  unfold Spec.mutated, Spec.allocated. simpl. f_equal.
  rewrite insert_app_r_alt by done. by rewrite Nat.sub_diag.
Qed.

(** A copy that gets one column assigned once or twice. *)
Lemma run_assign_copy w T column s :
  run (setitem_at (length (heap w)) column s) (Spec.allocated [T] w)
  = (Ret tt, Spec.allocated [Pd.setitem column s T] w).
Proof.
  rewrite (run_setitem_at _ _ T) by apply heap_allocated_new.
  by rewrite mutated_allocated.
Qed.

(* ================================================================== *)
(** ** Cells *)
(* ================================================================== *)

Lemma process_format_cell size v :
  0 <= size -> process size v = Ret (Spec.format_cell size v).
Proof.
  intros Hsize. unfold process, Spec.format_cell, Spec.blank.
  change (Py.str_in ?t ("" :: ?l)) with (String.eqb t "" || Py.str_in t l)%bool.
  rewrite strip_empty, <- orb_assoc.
  destruct (Pd.isna v || _)%bool; [done|].
  rewrite sub_not_digit, digits_only_strip. do 2 f_equal.
  unfold Spec.fit.
  destruct (Z.ltb_spec (PyStr.len (Spec.digits_only (Py.str v))) size).
  - apply zfill_digits; [apply digits_only_decimal | done].
  - destruct (Z.ltb_spec size (PyStr.len (Spec.digits_only (Py.str v))));
      [by apply slice_to_prefix | done].
Qed.

Lemma format_cell_not_nan size v : Pd.is_nan (Spec.format_cell size v) = false.
Proof. unfold Spec.format_cell. by destruct (Spec.blank v). Qed.

Lemma clean_text_clean_cell v : clean_text v = Ret (Spec.clean_cell v).
Proof.
  destruct v; try done. simpl.
  rewrite sub_delete, replace_amp, chars_of_chars. do 3 f_equal.
  apply filter_ext, not_alnum_space_kept.
Qed.

Lemma process_phone_astype v :
  process_phone (VStr (Py.str v)) = Ret (Spec.phone_cell v).
Proof. simpl. by rewrite sub_not_digit. Qed.

(* ================================================================== *)
(** ** format_document *)
(* ================================================================== *)

Lemma run_lift {A} (m : outcome A) w : run (lift m) w = (m, w).
Proof. reflexivity. Qed.

Lemma run_ret {A} (a : A) w : run (ret a) w = (Ret a, w).
Proof. reflexivity. Qed.

Lemma run_try_except {A} (body : Py A) handler w :
  run (try_except body handler) w
  = match run body w with
    | (Ret a, w') => (Ret a, w')
    | (Exc e, w') => run (handler e) w'
    end.
Proof. reflexivity. Qed.

(** C2, as the code has it. For a size that is not negative,
    [format_document] returns a copy in which every cell of the column is
    formatted: a missing value, a text of white space only (the empty text
    included) and the words nan and none, in any case and with white space
    around them, become [None]; any other value is turned into text and
    stripped to its digits, which are left-padded with zeros up to [size]
    when fewer and cut to the first [size] when more.  With size 11, "123"
    gives "00000000123" and "123456789012" its first 11 digits; "" and
    "NaN" give the missing value.  Without the column the call prints and
    returns [None]. *)
Theorem format_document_formats_cells
    (w : World) (df : ref) (T : DataFrame) (column : string) (size : Z) :
  heap w !! df = Some T ->
  0 <= size ->
  match Pd.assoc column (df_columns T) with
  | Some s =>
      let vs := map (Spec.format_cell size) (s_values s) in
      let formatted := mkSeries (Pd.infer_dtype (s_dtype s) vs) vs in
      run (format_document df column size) w
      = (Ret (Some (length (heap w))),
         Spec.allocated [Pd.setitem column formatted T] w)
  | None =>
      run (format_document df column size) w
      = (Ret None, Spec.printed ["⚠ " +:+ missing_column_msg column] w)
  end
  /\ process 11 (VStr "123") = Ret (VStr "00000000123")
  /\ process 11 (VStr "123456789012") = Ret (VStr "12345678901")
  /\ process 11 (VStr "") = Ret VNone
  /\ process 11 (VStr "NaN") = Ret VNone
  /\ process 11 VNaN = Ret VNone.
Proof.
  intros Hheap Hsize. split; [|by vm_compute].
  destruct (Pd.assoc column (df_columns T)) as [s|] eqn:Hs.
  - intros vs formatted. unfold format_document. py_start Hheap.
    rewrite (assoc_Some_has_column _ _ _ Hs). simpl negb. cbv iota.
    rewrite run_bind, (run_copy _ _ _ Hheap).
    rewrite run_bind, (run_getitem_at _ _ T) by apply heap_allocated_new.
    rewrite (getitem_Some _ _ _ Hs).
    rewrite run_bind, run_lift.
    rewrite (apply_total _ (Spec.format_cell size))
      by (intros; first [by apply process_format_cell
                        | apply format_cell_not_nan]).
    by rewrite run_bind, run_assign_copy.
  - apply assoc_None in Hs. by apply (format_document_missing _ _ T).
Qed.

(** A negative size is not a length: the slice then counts from the end. *)
Example process_negative_size :
  process (-1) (VStr "12345") = Ret (VStr "1234").
Proof. reflexivity. Qed.

Lemma format_document_formats_cells_witness :
  fst (run (format_document 0%nat "id" 3) Sample.world) = Ret (Some 1%nat).
Proof.
  destruct (format_document_formats_cells
              Sample.world 0%nat Sample.customers "id" 3
              eq_refl ltac:(lia)) as [H _].
  simpl in H. exact (f_equal fst H).
Defined.

(** C2 as stated fails on a text of white space: the code gives the
    missing value where the claim pads the (empty) digits with zeros. *)
Lemma format_document_blank_text_counterexample :
  let w := mkWorld [Sample.blank_documents] [] [] [] in
  let claimed := map (Spec.format_cell_as_stated 11) [VStr "  "] in
  process 11 (VStr "  ") = Ret VNone
  /\ claimed = [VStr "00000000000"]
  /\ run (format_document 0%nat "doc" 11) w
     <> (Ret (Some 1%nat),
         Spec.allocated
           [Pd.setitem "doc" (mkSeries object claimed) Sample.blank_documents]
           w).
Proof. vm_compute. repeat split; discriminate. Qed.

(* ================================================================== *)
(** ** clean_special_characters *)
(* ================================================================== *)

(** C5. The documentation of [clean_special_characters] promises that
    letters, digits and white space are kept, and so does the claim.  The
    code keeps the letters a-z and A-Z only: on a frame whose column holds
    the name "Jos" followed by e with an acute accent, that letter matches
    the pattern of what is deleted and the cell of the caller's frame
    becomes "Jos", where the claim keeps the name whole.  On "A&B #1!",
    which holds no such letter, the code gives "AEB 1" as claimed. *)
Theorem clean_special_characters_deletes_accented_letter :
  let w := mkWorld [Sample.people] [] [] [] in
  PyStr.isalpha Sample.e_acute = true
  /\ Re.matches Re.not_alnum_space Sample.e_acute = true
  /\ clean_text (VStr Sample.jose) = Ret (VStr "Jos")
  /\ Spec.clean_cell_as_stated (VStr Sample.jose) = VStr Sample.jose
  /\ run (clean_special_characters 0%nat "name") w
     = (Ret (Some 0%nat),
        Spec.mutated 0%nat
          (mkFrame [0] [("name", mkSeries object [VStr "Jos"])]) w)
  /\ clean_text (VStr "A&B #1!") = Ret (VStr "AEB 1").
Proof. vm_compute. by repeat split. Qed.

(** A column without text goes through the conversion of pandas: the
    computed column [None, nan] comes back as floats, so the object column
    it is written into holds [nan] twice. *)
Example clean_special_characters_without_text :
  let T := mkFrame [0; 1] [("name", mkSeries object [VNone; VNaN])] in
  let w := mkWorld [T] [] [] [] in
  Pd.apply clean_text (mkSeries object [VNone; VNaN])
  = Ret (mkSeries float64 [VNaN; VNaN])
  /\ run (clean_special_characters 0%nat "name") w
     = (Ret (Some 0%nat),
        Spec.mutated 0%nat
          (mkFrame [0; 1] [("name", mkSeries object [VNaN; VNaN])]) w).
Proof. by vm_compute. Qed.

(* ================================================================== *)
(** ** format_phone_number *)
(* ================================================================== *)

Lemma map_phone_cell_astype vs :
  map Spec.phone_cell (map (fun v => VStr (Py.str v)) vs)
  = map Spec.phone_cell vs.
Proof. rewrite map_map. by apply map_ext. Qed.

Lemma apply_process_phone s :
  Pd.apply process_phone (Pd.astype_str s)
  = Ret (let vs := map Spec.phone_cell (s_values s) in
         mkSeries (Pd.infer_dtype object vs) vs).
Proof.
  rewrite (apply_total _ Spec.phone_cell).
  - simpl. by rewrite map_phone_cell_astype.
  - simpl. intros v Hv. apply list_elem_of_fmap in Hv as (u & -> & _).
    exact (process_phone_astype u).
  - done.
Qed.

(** What a call on a frame that has the column does. *)
Lemma run_format_phone_number w df T column s :
  heap w !! df = Some T ->
  Pd.assoc column (df_columns T) = Some s ->
  let vs := map Spec.phone_cell (s_values s) in
  let formatted := mkSeries (Pd.infer_dtype object vs) vs in
  run (format_phone_number df column) w
  = (Ret (Some (length (heap w))),
     Spec.allocated [Pd.setitem column formatted T] w).
Proof.
  intros Hheap Hs vs formatted. unfold format_phone_number. py_start Hheap.
  rewrite (assoc_Some_has_column _ _ _ Hs). simpl negb. cbv iota.
  rewrite run_bind, (run_copy _ _ _ Hheap).
  rewrite run_bind, (run_getitem_at _ _ T) by apply heap_allocated_new.
  rewrite (getitem_Some _ _ _ Hs).
  rewrite run_bind, run_assign_copy.
  rewrite run_bind, (run_getitem_at _ _ (Pd.setitem column (Pd.astype_str s) T))
    by apply heap_allocated_new.
  rewrite getitem_setitem.
  rewrite run_bind, run_lift, apply_process_phone.
  rewrite run_bind, run_assign_copy.
  by rewrite setitem_setitem.
Qed.

(** C6. [format_phone_number] returns a copy in which every cell of the
    column is the text of the value with every character that is not a
    digit removed; nothing is padded and no length is imposed.
    "(11) 98888-7777" gives "11988887777".  Without the column the call
    prints and returns [None]. *)
Theorem format_phone_number_keeps_digits
    (w : World) (df : ref) (T : DataFrame) (column : string) :
  heap w !! df = Some T ->
  match Pd.assoc column (df_columns T) with
  | Some s =>
      let vs := map Spec.phone_cell (s_values s) in
      let formatted := mkSeries (Pd.infer_dtype object vs) vs in
      run (format_phone_number df column) w
      = (Ret (Some (length (heap w))),
         Spec.allocated [Pd.setitem column formatted T] w)
  | None =>
      run (format_phone_number df column) w
      = (Ret None, Spec.printed [missing_column_msg column] w)
  end
  /\ process_phone (VStr "(11) 98888-7777") = Ret (VStr "11988887777").
Proof.
  intros Hheap. split; [|by vm_compute].
  destruct (Pd.assoc column (df_columns T)) as [s|] eqn:Hs.
  - by apply run_format_phone_number.
  - apply assoc_None in Hs. by apply (format_phone_number_missing _ _ T).
Qed.

Lemma format_phone_number_keeps_digits_witness :
  fst (run (format_phone_number 0%nat "phone") Sample.world)
  = Ret (Some 1%nat).
Proof.
  destruct (format_phone_number_keeps_digits
              Sample.world 0%nat Sample.customers "phone" eq_refl) as [H _].
  simpl in H. exact (f_equal fst H).
Defined.

(** C9. After a successful [format_phone_number] the column of the returned
    frame holds no missing value: every cell is a text, and a cell that was
    missing holds the empty text, because [astype(str)] turns [nan] into
    "nan" (and [None] into "None"), which have no digit; [format_document]
    instead answers a missing value with a missing value. *)
Theorem format_phone_number_leaves_no_missing
    (w : World) (df : ref) (T : DataFrame) (column : string) (s : Series) :
  heap w !! df = Some T ->
  Pd.assoc column (df_columns T) = Some s ->
  exists (r : ref) (w' : World) (R : DataFrame) (s' : Series),
    run (format_phone_number df column) w = (Ret (Some r), w')
    /\ heap w' !! r = Some R
    /\ Pd.getitem column R = Ret s'
    /\ Forall (fun v => Pd.isna v = false /\ Py.is_str v = true) (s_values s')
    /\ (forall i v,
          s_values s !! i = Some v -> Pd.isna v = true ->
          s_values s' !! i = Some (VStr ""))
    /\ s_values (Pd.astype_str (mkSeries float64 [VNaN])) = [VStr "nan"]
    /\ Re.sub Re.NotDigit "" "nan" = ""
    /\ (forall size v, Pd.isna v = true -> process size v = Ret VNone).
Proof.
  intros Hheap Hs. eexists _, _, _, _.
  split; [by apply run_format_phone_number|].
  split; [apply heap_allocated_new|].
  split; [apply getitem_setitem|]. simpl.
  split; [|split; [|split; [done|split; [done|]]]];
    [| | intros size v Hv; unfold process; by rewrite Hv].
  - apply Forall_forall. intros v Hv.
    by apply list_elem_of_fmap in Hv as (u & -> & _).
  - intros i v Hi Hv. rewrite list_lookup_fmap, Hi. simpl.
    by destruct v.
Qed.

Lemma format_phone_number_leaves_no_missing_witness :
  exists r w', run (format_phone_number 0%nat "phone") Sample.world
               = (Ret (Some r), w').
Proof.
  destruct (format_phone_number_leaves_no_missing
              Sample.world 0%nat Sample.customers "phone" _ eq_refl eq_refl)
    as (r & w' & _ & _ & H & _).
  by exists r, w'.
Defined.

(* ================================================================== *)
(** ** Masks and rows *)
(* ================================================================== *)

Section masks.

Context {A B : Type}.
Implicit Types (mask : list bool) (l : list A).

Lemma take_mask_nil {C} mask : Pd.take_mask mask (@nil C) = [].
Proof. by destruct mask as [|[] ?]. Qed.

Lemma take_mask_sublist mask l : Pd.take_mask mask l `sublist_of` l.
Proof.
  revert mask. induction l as [|x l IH]; intros mask.
  - rewrite take_mask_nil. constructor.
  - destruct mask as [|[] mask]; simpl.
    + apply sublist_nil_l.
    + by apply sublist_skip.
    + by apply sublist_cons.
Qed.

Lemma take_mask_map (f : A -> B) mask l :
  Pd.take_mask mask (map f l) = map f (Pd.take_mask mask l).
Proof.
  revert mask. induction l as [|x l IH]; intros mask; simpl.
  - by rewrite !take_mask_nil.
  - destruct mask as [|[] mask]; simpl; by rewrite ?IH.
Qed.

Lemma take_mask_filter (P : A -> bool) l :
  Pd.take_mask (map P l) l = List.filter P l.
Proof.
  induction l as [|x l IH]; simpl; [done|].
  destruct (P x); by rewrite IH.
Qed.

End masks.

Section rows.

Implicit Types (idx : list Z) (cols : list (list value)).

Local Open Scope nat_scope.

Lemma rectangular_tail i idx cols :
  Spec.rectangular (i :: idx) cols -> Spec.rectangular idx (map tail cols).
Proof.
  unfold Spec.rectangular. intros H. apply Forall_fmap.
  eapply Forall_impl; [exact H|]. intros [|x c]; simpl; lia.
Qed.

Lemma rows_of_take_mask idx cols mask :
  Spec.rectangular idx cols ->
  Pd.rows_of (Pd.take_mask mask idx) (map (Pd.take_mask mask) cols)
  = Pd.take_mask mask (Pd.rows_of idx cols).
Proof.
  revert cols mask. induction idx as [|i idx IH]; intros cols mask Hrect.
  - simpl. by rewrite !take_mask_nil.
  - destruct mask as [|b mask]; [done|].
    assert (Hcols : Forall (fun c => exists x c', c = x :: c') cols).
    { eapply Forall_impl; [exact Hrect|].
      intros [|x c] Hc; simpl in Hc; [lia | by exists x, c]. }
    pose proof (IH _ mask (rectangular_tail _ _ _ Hrect)) as IH'.
    destruct b; simpl.
    + f_equal.
      * f_equal. rewrite map_map. apply Forall_fmap_ext_1.
        eapply Forall_impl; [exact Hcols|]. by intros c (x & c' & ->).
      * rewrite <- IH'. f_equal. rewrite !map_map. apply Forall_fmap_ext_1.
        eapply Forall_impl; [exact Hcols|]. by intros c (x & c' & ->).
    + rewrite <- IH'. f_equal. rewrite map_map. apply Forall_fmap_ext_1.
      eapply Forall_impl; [exact Hcols|]. by intros c (x & c' & ->).
Qed.

Lemma rows_of_alter (f : value -> value) pos idx cols :
  Spec.rectangular idx cols ->
  Pd.rows_of idx (alter (map f) pos cols)
  = map (Spec.with_cell f pos) (Pd.rows_of idx cols).
Proof.
  revert cols. induction idx as [|i idx IH]; intros cols Hrect; [done|].
  simpl. f_equal.
  - unfold Spec.with_cell. simpl. f_equal.
    apply (list_fmap_alter (fun c => default VNaN (head c)) (map f) f).
    eapply Forall_impl; [exact Hrect|].
    intros [|x c] Hc; simpl in Hc; [lia | done].
  - rewrite <- IH by by eapply rectangular_tail.
    f_equal. apply (list_fmap_alter tail (map f) (map f)).
    apply Forall_forall. by intros [|x c] _.
Qed.

Lemma cells_rows_of pos idx cols c :
  Spec.rectangular idx cols ->
  cols !! pos = Some c ->
  map (Spec.cell pos) (Pd.rows_of idx cols) = c.
Proof.
  revert cols c. induction idx as [|i idx IH]; intros cols c Hrect Hc.
  - pose proof (Forall_lookup_1 _ _ _ _ Hrect Hc) as Hlen.
    destruct c; [done | simpl in Hlen; lia].
  - pose proof (Forall_lookup_1 _ _ _ _ Hrect Hc) as Hlen.
    destruct c as [|x c]; [simpl in Hlen; lia|].
    simpl. f_equal.
    + unfold Spec.cell. simpl.
      change (map ?f cols) with (f <$> cols).
      by rewrite list_lookup_fmap, Hc.
    + apply IH; [by eapply rectangular_tail|].
      change (map tail cols) with (tail <$> cols).
      by rewrite list_lookup_fmap, Hc.
Qed.

Lemma rectangular_alter (f : value -> value) pos idx cols :
  Spec.rectangular idx cols -> Spec.rectangular idx (alter (map f) pos cols).
Proof.
  intros H. apply Forall_alter; [done|].
  intros c _ Hc. by rewrite length_map.
Qed.

Lemma well_formed_rectangular T :
  Pd.well_formed T -> Spec.rectangular (df_index T) (Spec.cells_of T).
Proof. intros [_ H]. unfold Spec.rectangular, Spec.cells_of. by apply Forall_fmap. Qed.

Lemma cells_of_select mask T :
  Spec.cells_of (Pd.select mask T) = map (Pd.take_mask mask) (Spec.cells_of T).
Proof.
  unfold Spec.cells_of. simpl. rewrite !map_map. apply map_ext. by intros [name s].
Qed.

Lemma rows_select mask T :
  Spec.rectangular (df_index T) (Spec.cells_of T) ->
  Pd.rows (Pd.select mask T) = Pd.take_mask mask (Pd.rows T).
Proof.
  intros H. unfold Pd.rows. fold (Spec.cells_of (Pd.select mask T)).
  rewrite cells_of_select. by apply rows_of_take_mask.
Qed.

Lemma cells_of_replace_map (f : value -> value) d column s named :
  Pd.assoc column named = Some s ->
  map (fun c => s_values (snd c))
      (Pd.replace_column column (mkSeries d (map f (s_values s))) named)
  = alter (map f) (Spec.index_of column (map fst named))
          (map (fun c => s_values (snd c)) named).
Proof.
  induction named as [|[name s0] named IH]; simpl; [done|].
  destruct (String.eqb name column); simpl.
  - by intros [= ->].
  - intros H. by rewrite IH.
Qed.

Lemma cells_of_lookup column s named :
  Pd.assoc column named = Some s ->
  map (fun c => s_values (snd c)) named
    !! Spec.index_of column (map fst named) = Some (s_values s).
Proof.
  induction named as [|[name s0] named IH]; simpl; [done|].
  destruct (String.eqb name column); simpl; [by intros [= ->] | done].
Qed.

(** Rewriting one column cell by cell rewrites that cell of every row. *)
Lemma rows_setitem_map (f : value -> value) d column s T :
  Spec.rectangular (df_index T) (Spec.cells_of T) ->
  Pd.assoc column (df_columns T) = Some s ->
  Pd.rows (Pd.setitem column (mkSeries d (map f (s_values s))) T)
  = map (Spec.with_cell f (Spec.position column T)) (Pd.rows T).
Proof.
  intros Hrect Hs. unfold Pd.rows, Pd.setitem. simpl.
  rewrite (cells_of_replace_map f d column s) by done.
  by apply rows_of_alter.
Qed.

(** The cells of a column, read off the rows. *)
Lemma cells_of_rows column s T :
  Spec.rectangular (df_index T) (Spec.cells_of T) ->
  Pd.assoc column (df_columns T) = Some s ->
  map (Spec.cell (Spec.position column T)) (Pd.rows T) = s_values s.
Proof.
  intros Hrect Hs. apply cells_rows_of; [done|]. by apply cells_of_lookup.
Qed.

Lemma assoc_select mask column T :
  Pd.assoc column (df_columns (Pd.select mask T))
  = (fun s => mkSeries (s_dtype s) (Pd.take_mask mask (s_values s)))
      <$> Pd.assoc column (df_columns T).
Proof.
  simpl. induction (df_columns T) as [|[name s] cols IH]; simpl; [done|].
  by destruct (String.eqb name column).
Qed.

End rows.

(* ================================================================== *)
(** ** remove_duplicates *)
(* ================================================================== *)

Section keys.

Implicit Types (a b c v : value) (vs seen : list value).

Lemma same_key_key a b : Pd.same_key a b = true <-> Spec.key a = Spec.key b.
Proof.
  destruct a as [s| m | [] | |], b as [t| n | [] | |];
    unfold Pd.same_key, Py.eq, Spec.key, Py.int_of_bool, Bool.eqb;
    rewrite ?String.eqb_eq, ?Z.eqb_eq; split; congruence.
Qed.

Lemma same_key_refl a : Pd.same_key a a = true.
Proof. by apply same_key_key. Qed.

Lemma same_key_sym a b : Pd.same_key a b = Pd.same_key b a.
Proof.
  destruct (Pd.same_key a b) eqn:E1, (Pd.same_key b a) eqn:E2; try done.
  - apply same_key_key in E1. symmetry in E1. apply same_key_key in E1.
    congruence.
  - apply same_key_key in E2. symmetry in E2. apply same_key_key in E2.
    congruence.
Qed.

Lemma same_key_trans a b c :
  Pd.same_key a b = true -> Pd.same_key b c = true -> Pd.same_key a c = true.
Proof. rewrite !same_key_key. congruence. Qed.

Lemma existsb_same_key_trans a b seen :
  Pd.same_key a b = true ->
  existsb (Pd.same_key b) seen = true -> existsb (Pd.same_key a) seen = true.
Proof.
  intros Hab. rewrite !existsb_exists. intros (x & Hx & Hbx).
  exists x. split; [done|]. by eapply same_key_trans.
Qed.

Lemma negb_existsb_same_key v vs :
  negb (existsb (Pd.same_key v) vs)
  = forallb (fun u => negb (Pd.same_key u v)) vs.
Proof.
  induction vs as [|u vs IH]; simpl; [done|].
  by rewrite negb_orb, IH, (same_key_sym v u).
Qed.

(** The table of seen keys stands for everything met so far. *)
Lemma duplicated_from_first seen pre vs :
  (forall x, existsb (Pd.same_key x) seen = existsb (Pd.same_key x) pre) ->
  map negb (Pd.duplicated_from seen vs)
  = map (Spec.is_first_occurrence (pre ++ vs)) (seq (length pre) (length vs)).
Proof.
  revert seen pre. induction vs as [|v vs IH]; intros seen pre Hseen; [done|].
  assert (Hhead : Spec.is_first_occurrence (pre ++ v :: vs) (length pre)
                  = negb (existsb (Pd.same_key v) seen)).
  { unfold Spec.is_first_occurrence.
    rewrite list_lookup_middle by done. rewrite take_app_length.
    by rewrite Hseen, negb_existsb_same_key. }
  assert (Htail : forall seen',
             (forall x, existsb (Pd.same_key x) seen'
                        = (existsb (Pd.same_key x) pre || Pd.same_key x v)%bool) ->
             map negb (Pd.duplicated_from seen' vs)
             = map (Spec.is_first_occurrence (pre ++ v :: vs))
                   (seq (S (length pre)) (length vs))).
  { intros seen' Hseen'.
    rewrite (IH seen' (pre ++ [v])).
    - rewrite <- app_assoc, length_app. simpl.
      by rewrite Nat.add_1_r.
    - intros x. rewrite Hseen', existsb_app. simpl. by rewrite orb_false_r. }
  simpl. rewrite Hhead.
  destruct (existsb (Pd.same_key v) seen) eqn:Hdup; simpl; f_equal.
  - apply Htail. intros x. rewrite Hseen.
    destruct (Pd.same_key x v) eqn:Hxv; [|by rewrite orb_false_r].
    rewrite orb_true_r, <- Hseen. by eapply existsb_same_key_trans.
  - apply Htail. intros x. simpl. rewrite Hseen. apply orb_comm.
Qed.

Lemma duplicated_first_occurrences vs :
  map negb (Pd.duplicated_from [] vs) = Spec.first_occurrences vs.
Proof. by apply (duplicated_from_first [] []). Qed.

(** A kept value differs from every key seen before it. *)
Lemma kept_apart seen vs :
  let kept := Pd.take_mask (map negb (Pd.duplicated_from seen vs)) vs in
  Forall (fun x => existsb (Pd.same_key x) seen = false) kept
  /\ ForallOrdPairs (fun a b => Pd.same_key b a = false) kept.
Proof.
  revert seen. induction vs as [|v vs IH]; intros seen; simpl.
  - split; constructor.
  - destruct (existsb (Pd.same_key v) seen) eqn:Hdup; simpl; [apply IH|].
    destruct (IH (v :: seen)) as [Hseen Hpairs]. split.
    + constructor; [done|].
      eapply Forall_impl; [exact Hseen|]. simpl. intros x Hx.
      by apply orb_false_elim in Hx as [_ ?].
    + constructor; [|done].
      rewrite List.Forall_forall. rewrite Forall_forall in Hseen.
      intros x Hx. apply list_elem_of_In, Hseen in Hx. simpl in Hx.
      by apply orb_false_elim in Hx as [? _].
Qed.

Lemma ordered_pairs_lookup (R : value -> value -> Prop) vs :
  ForallOrdPairs R vs ->
  forall i j a b, (i < j)%nat -> vs !! i = Some a -> vs !! j = Some b -> R a b.
Proof.
  induction 1 as [|x vs Hx _ IH]; intros i j a b Hij Ha Hb; [done|].
  destruct i as [|i], j as [|j]; try lia; simpl in *.
  - injection Ha as ->. rewrite List.Forall_forall in Hx. apply Hx.
    apply list_elem_of_In. by eapply list_elem_of_lookup_2.
  - apply (IH i j); [lia | done | done].
Qed.

Lemma first_occurrences_distinct vs :
  let kept := Pd.take_mask (Spec.first_occurrences vs) vs in
  Spec.pairwise_distinct kept /\ NoDup kept.
Proof.
  intros kept.
  assert (Hpair : Spec.pairwise_distinct kept).
  { destruct (kept_apart [] vs) as [_ H].
    rewrite duplicated_first_occurrences in H. fold kept in H.
    intros i j a b Hij Ha Hb.
    destruct (Nat.lt_total i j) as [Hlt|[->|Hlt]]; [| done |].
    - rewrite same_key_sym. by apply (ordered_pairs_lookup _ _ H i j).
    - by apply (ordered_pairs_lookup _ _ H j i). }
  split; [done|].
  apply NoDup_alt. intros i j x Hi Hj.
  destruct (decide (i = j)) as [|Hne]; [done|].
  pose proof (Hpair i j x x Hne Hi Hj) as H.
  by rewrite same_key_refl in H.
Qed.

End keys.

Lemma run_remove_duplicates w df T column s :
  heap w !! df = Some T ->
  Pd.assoc column (df_columns T) = Some s ->
  run (remove_duplicates df column) w
  = (Ret (length (heap w)),
     Spec.allocated
       [Pd.select (Spec.first_occurrences (s_values s)) T] w).
Proof.
  intros Hheap Hs. unfold remove_duplicates. py_start Hheap.
  rewrite (assoc_Some_has_column _ _ _ Hs). simpl negb. cbv iota.
  rewrite run_bind, (run_deref _ _ _ Hheap).
  rewrite run_bind, run_lift. unfold Pd.drop_duplicates.
  rewrite (getitem_Some _ _ _ Hs). simpl obind. unfold Pd.duplicated.
  by rewrite duplicated_first_occurrences.
Qed.

(** C1. On a frame that has the column, [remove_duplicates] returns a new
    frame made of the rows of the input at the positions where the column
    holds the first occurrence of its value, in their original order: the
    rows are a subsequence of the input's rows, and the values left in the
    column are pairwise distinct.  Without the column it raises
    [ValueError]. *)
Theorem remove_duplicates_keeps_first_occurrences
    (w : World) (df : ref) (T : DataFrame) (column : string) :
  heap w !! df = Some T ->
  Pd.well_formed T ->
  match Pd.assoc column (df_columns T) with
  | Some s =>
      let first := Spec.first_occurrences (s_values s) in
      let R := Pd.select first T in
      run (remove_duplicates df column) w
      = (Ret (length (heap w)), Spec.allocated [R] w)
      /\ (exists s',
            Pd.getitem column R = Ret s'
            /\ s_values s' = Pd.take_mask first (s_values s)
            /\ NoDup (s_values s')
            /\ Spec.pairwise_distinct (s_values s'))
      /\ Pd.rows R `sublist_of` Pd.rows T
      /\ Pd.rows R = Pd.take_mask first (Pd.rows T)
  | None =>
      run (remove_duplicates df column) w
      = (Exc (ValueError (missing_column_msg column)), w)
  end.
Proof.
  intros Hheap Hwf.
  destruct (Pd.assoc column (df_columns T)) as [s|] eqn:Hs.
  - intros first R.
    pose proof (well_formed_rectangular _ Hwf) as Hrect.
    split; [by apply run_remove_duplicates|].
    split; [|split].
    + eexists. split.
      * unfold Pd.getitem, R. by rewrite assoc_select, Hs.
      * simpl. split; [done|].
        destruct (first_occurrences_distinct (s_values s)). by split.
    + unfold R. rewrite rows_select by done. apply take_mask_sublist.
    + by apply rows_select.
  - apply assoc_None in Hs. by apply (remove_duplicates_missing _ _ T).
Qed.

Lemma sample_customers_well_formed : Pd.well_formed Sample.customers.
Proof. split; apply (bool_decide_unpack _); vm_compute; exact I. Defined.

Lemma remove_duplicates_keeps_first_occurrences_witness :
  fst (run (remove_duplicates 0%nat "id") Sample.world) = Ret 1%nat.
Proof.
  destruct (remove_duplicates_keeps_first_occurrences
              Sample.world 0%nat Sample.customers "id"
              eq_refl sample_customers_well_formed) as [H _].
  exact (f_equal fst H).
Defined.

(* ================================================================== *)
(** ** filter_by_different_char_count *)
(* ================================================================== *)

Lemma apply_len_astype s :
  Pd.apply Py.len (Pd.astype_str s)
  = Ret (let lens := map (fun v => VInt (PyStr.len (Py.str v))) (s_values s) in
         mkSeries (Pd.infer_dtype object lens) lens).
Proof.
  rewrite (apply_total _ (fun v => VInt (PyStr.len (Py.str v)))).
  - simpl. rewrite map_map. done.
  - simpl. intros v Hv. by apply list_elem_of_fmap in Hv as (u & -> & _).
  - done.
Qed.

Lemma ne_scalar_lens d n vs :
  Pd.ne_scalar
    (mkSeries d (map (fun v => VInt (PyStr.len (Py.str v))) vs)) (VInt n)
  = Spec.length_mask n vs.
Proof.
  unfold Pd.ne_scalar, Pd.eq_scalar, Spec.length_mask. simpl.
  rewrite !map_map. by apply map_ext.
Qed.

(** What a call on a frame that has the column does: the column of the
    caller's frame is rewritten, then the rows are selected from it. *)
Lemma run_filter_by_different_char_count w df T column s char_count :
  heap w !! df = Some T ->
  Pd.assoc column (df_columns T) = Some s ->
  let T' := Pd.setitem column (Pd.astype_str s) T in
  let R := Pd.select (Spec.length_mask char_count (s_values s)) T' in
  run (filter_by_different_char_count df column char_count) w
  = (Ret (length (heap w)), Spec.allocated [R] (Spec.mutated df T' w)).
Proof.
  intros Hheap Hs T' R. unfold filter_by_different_char_count.
  py_start Hheap.
  rewrite (assoc_Some_has_column _ _ _ Hs). simpl negb. cbv iota.
  rewrite run_bind, (run_getitem_at _ _ T), (getitem_Some _ _ _ Hs) by done.
  rewrite run_bind, (run_setitem_at _ _ T) by done. fold T'.
  pose proof (heap_mutated_eq w df T T' Hheap) as Hheap'.
  rewrite run_bind, (run_getitem_at _ _ T') by done.
  unfold T' at 1. rewrite getitem_setitem.
  rewrite run_bind, run_lift, apply_len_astype. cbv zeta.
  rewrite ne_scalar_lens.
  rewrite run_bind, (run_deref _ _ _ Hheap').
  unfold run, new, Spec.allocated. simpl. by rewrite length_insert.
Qed.

(** C7. On a frame that has the column, [filter_by_different_char_count]
    returns a new frame made of exactly the rows whose value in the column,
    turned into text, has a length different from [char_count], in their
    original order; the rows come from the caller's frame as the call
    leaves it, that is with the cell of the column turned into text.
    Without the column it raises [ValueError]. *)
Theorem filter_by_different_char_count_keeps_other_lengths
    (w : World) (df : ref) (T : DataFrame) (column : string) (char_count : Z) :
  heap w !! df = Some T ->
  Pd.well_formed T ->
  match Pd.assoc column (df_columns T) with
  | Some s =>
      let pos := Spec.position column T in
      let T' := Pd.setitem column (Pd.astype_str s) T in
      let R := Pd.select (Spec.length_mask char_count (s_values s)) T' in
      run (filter_by_different_char_count df column char_count) w
      = (Ret (length (heap w)), Spec.allocated [R] (Spec.mutated df T' w))
      /\ Pd.rows T' = map (Spec.with_cell Spec.stringified pos) (Pd.rows T)
      /\ Pd.rows R
         = map (Spec.with_cell Spec.stringified pos)
             (List.filter (Spec.length_differs char_count pos) (Pd.rows T))
      /\ Pd.rows R
         = List.filter (Spec.length_differs char_count pos) (Pd.rows T')
      /\ Pd.rows R `sublist_of` Pd.rows T'
  | None =>
      run (filter_by_different_char_count df column char_count) w
      = (Exc (ValueError (missing_column_msg column)), w)
  end.
Proof.
  intros Hheap Hwf.
  destruct (Pd.assoc column (df_columns T)) as [s|] eqn:Hs.
  - intros pos T' R.
    pose proof (well_formed_rectangular _ Hwf) as Hrect.
    assert (Hrows' : Pd.rows T'
                     = map (Spec.with_cell Spec.stringified pos) (Pd.rows T)).
    { by apply (rows_setitem_map Spec.stringified). }
    assert (Hrect' : Spec.rectangular (df_index T') (Spec.cells_of T')).
    { unfold T', Spec.cells_of, Pd.setitem, Pd.astype_str. simpl.
      rewrite (cells_of_replace_map Spec.stringified) by done.
      by apply rectangular_alter. }
    assert (Hmask : Spec.length_mask char_count (s_values s)
                    = map (Spec.length_differs char_count pos) (Pd.rows T)).
    { rewrite <- (cells_of_rows column s T) by done.
      unfold Spec.length_mask. by rewrite map_map. }
    assert (HR : Pd.rows R
                 = map (Spec.with_cell Spec.stringified pos)
                     (List.filter (Spec.length_differs char_count pos)
                        (Pd.rows T))).
    { unfold R. rewrite rows_select, Hrows', take_mask_map by done.
      by rewrite Hmask, take_mask_filter. }
    split; [by apply run_filter_by_different_char_count|].
    split; [done|]. split; [done|]. split.
    + unfold R. rewrite rows_select by done.
      assert (Hcells : map (Spec.cell pos) (Pd.rows T')
                       = map Spec.stringified (s_values s)).
      { replace pos with (Spec.position column T').
        - apply (cells_of_rows column (Pd.astype_str s) T'); [done|].
          unfold T'. simpl. by rewrite assoc_replace_eq.
        - unfold pos, Spec.position, T'.
          by rewrite (column_names_setitem _ _ s). }
      assert (Hmask' : Spec.length_mask char_count (s_values s)
                = map (Spec.length_differs char_count pos) (Pd.rows T')).
      { transitivity
          (map (fun v => negb (PyStr.len (Py.str v) =? char_count))
               (map (Spec.cell pos) (Pd.rows T'))).
        - rewrite Hcells, map_map. by apply map_ext.
        - by rewrite map_map. }
      by rewrite Hmask', take_mask_filter.
    + unfold R. rewrite rows_select by done. apply take_mask_sublist.
  - apply assoc_None in Hs.
    by apply (filter_by_different_char_count_missing _ _ T).
Qed.

Lemma filter_by_different_char_count_keeps_other_lengths_witness :
  fst (run (filter_by_different_char_count 0%nat "id" 1) Sample.world)
  = Ret 1%nat.
Proof.
  destruct (filter_by_different_char_count_keeps_other_lengths
              Sample.world 0%nat Sample.customers "id" 1
              eq_refl sample_customers_well_formed) as [H _].
  exact (f_equal fst H).
Defined.

(** C10. A successful [filter_by_different_char_count] changes the frame
    the caller passed: afterwards its column holds the text of every
    value it held, while the index and the other columns are as before;
    the filtered rows are returned as another frame. *)
Theorem filter_by_different_char_count_mutates_input
    (w : World) (df : ref) (T : DataFrame) (column : string) (s : Series)
    (char_count : Z) :
  heap w !! df = Some T ->
  Pd.assoc column (df_columns T) = Some s ->
  exists (r : ref) (w' : World) (T' : DataFrame),
    run (filter_by_different_char_count df column char_count) w
    = (Ret r, w')
    /\ r <> df
    /\ heap w' !! df = Some T'
    /\ Pd.getitem column T'
       = Ret (mkSeries object (map Spec.stringified (s_values s)))
    /\ (forall c, c <> column -> Pd.getitem c T' = Pd.getitem c T)
    /\ Pd.column_names T' = Pd.column_names T
    /\ df_index T' = df_index T.
Proof.
  intros Hheap Hs. eexists _, _, _.
  split; [by apply run_filter_by_different_char_count|].
  split; [apply lookup_lt_Some in Hheap; lia|].
  split; [by apply heap_allocated_old, (heap_mutated_eq _ _ T)|].
  split; [apply getitem_setitem|].
  split; [intros c Hc; by apply getitem_setitem_ne|].
  split; [by apply (column_names_setitem _ _ s) | done].
Qed.

Lemma filter_by_different_char_count_mutates_input_witness :
  exists r w',
    run (filter_by_different_char_count 0%nat "id" 1) Sample.world
    = (Ret r, w')
    /\ r <> 0%nat.
Proof.
  destruct (filter_by_different_char_count_mutates_input
              Sample.world 0%nat Sample.customers "id" _ 1 eq_refl eq_refl)
    as (r & w' & _ & H & Hr & _).
  by exists r, w'.
Defined.

(* ================================================================== *)
(** ** strip_dataframe *)
(* ================================================================== *)

Lemma str_strip_value_idem v :
  Pd.str_strip_value (Pd.str_strip_value v) = Pd.str_strip_value v.
Proof. destruct v; simpl; try done. by rewrite strip_idempotent. Qed.

Lemma str_strip_values_present vs :
  Forall (fun v => Py.is_str v = true)
    (List.filter (fun v => negb (Pd.isna v)) (map Pd.str_strip_value vs)).
Proof.
  induction vs as [|v vs IH]; simpl; [constructor|].
  destruct v; simpl; try done; by constructor.
Qed.

(** The [.str] accessor accepts what [.str.strip()] produced. *)
Lemma str_accessor_ok_stripped d vs :
  Pd.str_accessor_ok (mkSeries d (map Pd.str_strip_value vs)) = true.
Proof.
  unfold Pd.str_accessor_ok. simpl.
  pose proof (str_strip_values_present vs) as H.
  destruct (List.filter _ _) as [|v present]; [done|].
  inversion H as [|? ? Hv _]; subst. by destruct v.
Qed.

Lemma forallb_lookup {A} (p : A -> bool) l i x :
  forallb p l = true -> l !! i = Some x -> p x = true.
Proof.
  intros H Hi. rewrite forallb_forall in H. apply H.
  apply list_elem_of_In. by apply (list_elem_of_lookup_2 l i).
Qed.

(** What [convert] makes of stripped cells: a float column of [nan] when
    no text is left, the cells as they are otherwise. *)
Lemma convert_stripped vs :
  let vs' := map Pd.str_strip_value vs in
  (forallb Pd.isna vs' = true
   /\ Pd.convert object vs' = mkSeries float64 (map (fun _ => VNaN) vs'))
  \/ (forallb Pd.isna vs' && existsb Pd.is_nan vs' = false
      /\ Pd.convert object vs' = mkSeries object vs').
Proof.
  intros vs'. unfold Pd.convert.
  destruct (forallb Pd.isna vs' && existsb Pd.is_nan vs') eqn:E.
  - left. by apply andb_prop in E as [-> _].
  - right. split; [done|]. f_equal. subst vs'.
    destruct vs as [|v vs]; [done|]. simpl in *.
    destruct v; simpl in *; try done.
    all: rewrite andb_true_r in E.
    all: destruct (forallb Pd.is_nan (map Pd.str_strip_value vs)) eqn:F;
      [|done].
    all: exfalso; revert E F; generalize (map Pd.str_strip_value vs).
    all: intros l E F; induction l as [|x l IH]; simpl in *; [done|].
    all: destruct x; simpl in *; try done; by apply IH.
Qed.

Lemma strip_column_idem s s1 :
  strip_column s = Ret s1 -> strip_column s1 = Ret s1.
Proof.
  unfold strip_column at 1.
  destruct (decide (s_dtype s = object)) as [Hobj|Hobj].
  - unfold Pd.str_strip.
    destruct (Pd.str_accessor_ok s) eqn:Hok; [|done].
    destruct (forallb Pd.isna (s_values s)) eqn:Hna.
    + intros [= <-]. unfold strip_column. simpl.
      unfold Pd.str_strip. simpl.
      change (Pd.str_accessor_ok (mkSeries object (s_values s)))
        with (Pd.str_accessor_ok s).
      by rewrite Hok, Hna.
    + destruct (convert_stripped (s_values s)) as [[_ ->]|[E ->]].
      * by intros [= <-].
      * intros [= <-]. unfold strip_column. simpl.
        unfold Pd.str_strip. rewrite str_accessor_ok_stripped. simpl.
        destruct (forallb Pd.isna (map Pd.str_strip_value (s_values s)))
          eqn:F; [done|].
        rewrite map_map, (map_ext _ _ (fun v => str_strip_value_idem v)).
        destruct (convert_stripped (s_values s)) as [[E' _]|[_ ->]]; [|done].
        cbv zeta in E'. rewrite F in E'. discriminate E'.
  - intros [= <-]. unfold strip_column. by destruct (decide _).
Qed.

Lemma apply_columns_strip_idem cols cols1 :
  Pd.apply_columns strip_column cols = Ret cols1 ->
  Pd.apply_columns strip_column cols1 = Ret cols1.
Proof.
  revert cols1. induction cols as [|[name s] cols IH]; intros cols1; simpl.
  - by intros [= <-].
  - destruct (strip_column s) as [s1|] eqn:Hs; [|done]. simpl.
    destruct (Pd.apply_columns strip_column cols) as [rest|]; [|done]. simpl.
    intros [= <-]. simpl.
    by rewrite (strip_column_idem _ _ Hs), (IH rest).
Qed.

(** Stripping a stripped frame gives the same frame. *)
Lemma strip_frame_idem T T1 :
  Pd.frame_apply strip_column T = Ret T1 ->
  Pd.frame_apply strip_column T1 = Ret T1.
Proof.
  unfold Pd.frame_apply.
  destruct (Pd.apply_columns strip_column (df_columns T)) as [cols1|] eqn:H;
    [|done].
  intros [= <-]. simpl. by rewrite (apply_columns_strip_idem _ _ H).
Qed.

(** C4. [strip_dataframe] is idempotent: when it returns a frame, stripping
    that frame again returns a new frame equal to it, and when it raises
    (the [.str] accessor refusing a column), stripping its result raises
    the same. *)
Theorem strip_dataframe_idempotent (w : World) (df : ref) :
  match run (strip_dataframe df) w with
  | (Ret r1, w1) =>
      exists T1 : DataFrame,
        heap w1 !! r1 = Some T1
        /\ run (strip_dataframe r1) w1
           = (Ret (length (heap w1)), Spec.allocated [T1] w1)
        /\ run (r1 <- strip_dataframe df ;; strip_dataframe r1) w
           = (Ret (length (heap w1)), Spec.allocated [T1] w1)
  | (Exc e, w1) =>
      run (r1 <- strip_dataframe df ;; strip_dataframe r1) w = (Exc e, w1)
  end.
Proof.
  rewrite run_bind.
  destruct (run (strip_dataframe df) w) as [[r1|e] w1] eqn:Hrun; [|done].
  unfold strip_dataframe in Hrun. rewrite run_bind in Hrun.
  unfold run at 1, deref in Hrun.
  destruct (heap w !! df) as [T|]; [|done].
  rewrite run_bind, run_lift in Hrun.
  destruct (Pd.frame_apply strip_column T) as [T1|] eqn:HT; [|done].
  injection Hrun as <- <-.
  assert (Hnew : heap (Spec.allocated [T1] w) !! length (heap w) = Some T1)
    by apply heap_allocated_new.
  assert (Hagain : run (strip_dataframe (length (heap w)))
                     (Spec.allocated [T1] w)
                   = (Ret (length (heap (Spec.allocated [T1] w))),
                      Spec.allocated [T1] (Spec.allocated [T1] w))).
  { unfold strip_dataframe. rewrite run_bind, (run_deref _ _ _ Hnew).
    by rewrite run_bind, run_lift, (strip_frame_idem _ _ HT). }
  exists T1. by repeat split.
Qed.

(* ================================================================== *)
(** ** dataframe_to_excel *)
(* ================================================================== *)

(** Up to 26 columns [chr(65 + n - 1)] is the letter of the last column. *)
Lemma table_ref_within_alphabet T :
  (1 <= Pd.ncols T <= 26)%nat ->
  table_ref T = Spec.table_region (Pd.ncols T) (Pd.nrows T).
Proof.
  intros Hn. unfold table_ref, Spec.table_region.
  generalize (PyStr.of_int (Z.of_nat (Pd.nrows T) + 1)). intros rows.
  generalize dependent (Pd.ncols T). intros n Hn.
  do 27 (destruct n as [|n]; [try lia; reflexivity|]). lia.
Qed.

Lemma run_makedirs os directory w :
  run (makedirs os directory) w
  = if String.eqb directory ""
    then (Exc (OSError "[Errno 2] No such file or directory: ''"), w)
    else match refuses_directory os directory with
         | Some msg => (Exc (OSError msg), w)
         | None =>
             (Ret tt,
              mkWorld (heap w) (stdout w) (Laws.created directory w) (files w))
         end.
Proof. reflexivity. Qed.

Lemma run_save os path ws w :
  run (save os path ws) w
  = match refuses_file os path with
    | Some msg => (Exc (OSError msg), w)
    | None =>
        (Ret tt,
         mkWorld (heap w) (stdout w) (dirs w)
           ((path, ws)
              :: List.filter (fun f => negb (String.eqb (fst f) path))
                   (files w)))
    end.
Proof. reflexivity. Qed.

(** A frame whose sheet cannot be built is not exported, whatever the
    system allows: the call prints one line and returns [None]. *)
Lemma dataframe_to_excel_gives_up os w df T directory file_name e :
  heap w !! df = Some T ->
  build_sheet T = Exc e ->
  exists line dirs',
    run (dataframe_to_excel os df directory file_name) w
    = (Ret None, Laws.export_failed line dirs' w).
Proof.
  intros Hheap Hbuild. unfold dataframe_to_excel.
  rewrite run_try_except, run_bind, run_makedirs.
  destruct (String.eqb directory ""); [by eexists _, _|].
  destruct (refuses_directory os directory) as [msg|]; [by eexists _, _|].
  rewrite run_bind, (run_deref _ _ T) by done.
  rewrite run_bind, run_lift, Hbuild. by eexists _, _.
Qed.

(** C8. From the 27th column on, the region is not the one the claim
    names, and no workbook is written at all.  For a table of 27 columns
    and no data row, [chr(65 + 27 - 1)] is the bracket that follows Z, so
    the code asks for the region A1:[1 where the letter of the last column
    is AA and the region A1:AA1.  [Table] refuses what is not a cell
    range: no sheet is built, and whatever the directory and the file name
    are, the call prints the error and returns [None] without writing a
    file.  The width loop of the same function takes its letters from
    [column_letter], which does give AA for column 27. *)
Theorem table_ref_past_column_Z :
  table_ref (Spec.wide_frame 27) = Ret "A1:[1"
  /\ Spec.table_region 27 0 = Ret "A1:AA1"
  /\ Xl.get_column_letter 27 = Ret "AA"
  /\ Xl.matches_cell_range "A1:[1" = false
  /\ Xl.matches_cell_range "A1:AA1" = true
  /\ (exists msg, build_sheet (Spec.wide_frame 27) = Exc (ValueError msg))
  /\ (forall (os : OS) (directory file_name : string),
        exists line dirs',
          run (dataframe_to_excel os 0%nat directory file_name)
              (mkWorld [Spec.wide_frame 27] [] [] [])
          = (Ret None,
             Laws.export_failed line dirs'
               (mkWorld [Spec.wide_frame 27] [] [] []))).
Proof.
  do 5 (split; [by vm_compute|]).
  assert (Hbuild : exists msg,
             build_sheet (Spec.wide_frame 27) = Exc (ValueError msg))
    by (eexists; by vm_compute).
  split; [done|]. intros os directory file_name.
  destruct Hbuild as [msg Hbuild].
  exact (dataframe_to_excel_gives_up os
           (mkWorld [Spec.wide_frame 27] [] [] []) 0%nat (Spec.wide_frame 27)
           directory file_name _ eq_refl Hbuild).
Qed.

(** The width loop skips the cells that are false in a condition ([None],
    but also [False], 0 and the empty text): a column of [False] gets the
    width of its header, 2 + 2, not that of "False". *)
Example column_width_skips_false :
  exists ws,
    build_sheet Sample.flags = Ret ws
    /\ Xl.column_widths ws = [("A", 4)]
    /\ PyStr.len (Py.str (VBool false)) + 2 = 7.
Proof. eexists. by vm_compute. Qed.

(** On the sample the region and the widths are as expected. *)
Example build_sheet_customers :
  exists ws,
    build_sheet Sample.customers = Ret ws
    /\ map Xl.ref (Xl.tables ws) = ["A1:C5"]
    /\ Xl.column_widths ws = [("A", 5); ("B", 11); ("C", 17)].
Proof. eexists. by vm_compute. Qed.

(* ================================================================== *)
(** ** Columns rewritten cell by cell *)
(* ================================================================== *)

Lemma infer_dtype_idem d vs :
  Pd.infer_dtype (Pd.infer_dtype d vs) vs = Pd.infer_dtype d vs.
Proof. by destruct vs. Qed.

Lemma replace_column_same column s cols :
  Pd.assoc column cols = Some s -> Pd.replace_column column s cols = cols.
Proof.
  induction cols as [|[name s0] cols IH]; simpl; [done|].
  destruct (String.eqb name column); [by intros [= ->]|].
  intros H. by rewrite IH.
Qed.

Lemma setitem_same column s T :
  Pd.assoc column (df_columns T) = Some s -> Pd.setitem column s T = T.
Proof.
  intros H. unfold Pd.setitem. rewrite (replace_column_same _ _ _ H).
  by destruct T.
Qed.

Lemma mutated_same r T w :
  heap w !! r = Some T -> Spec.mutated r T w = w.
Proof.
  intros H. destruct w as [h o d f]. unfold Spec.mutated. simpl in *.
  f_equal. by apply list_insert_id.
Qed.

Lemma assoc_setitem column s T :
  Pd.assoc column (df_columns (Pd.setitem column s T)) = Some s.
Proof. apply assoc_replace_eq. Qed.

(** The body shared by the functions that rewrite a column where it
    stands. *)
Lemma run_apply_in_place g f w df T column s :
  heap w !! df = Some T ->
  Pd.assoc column (df_columns T) = Some s ->
  (forall v, g v = Ret (f v)) ->
  run (s <- getitem_at df column ;;
       s' <- lift (Pd.apply g s) ;;
       setitem_at df column s' ;;;
       ret (Some df)) w
  = (Ret (Some df),
     Spec.mutated df
       (Pd.setitem column
          (Pd.convert (s_dtype s) (map f (s_values s))) T) w).
Proof.
  intros Hheap Hs Hg.
  rewrite run_bind, (run_getitem_at _ _ T), (getitem_Some _ _ _ Hs) by done.
  rewrite run_bind, run_lift, (apply_convert _ f) by done.
  by rewrite run_bind, (run_setitem_at _ _ T).
Qed.

Lemma run_loc_setitem_at w r T column s :
  heap w !! r = Some T ->
  run (loc_setitem_at r column s) w
  = (Ret tt, Spec.mutated r (Pd.loc_setitem column s T) w).
Proof.
  intros H. unfold loc_setitem_at. by rewrite run_bind, (run_deref _ _ _ H).
Qed.

(** The same through [df.loc[:, column] = ...]: the column keeps its
    dtype. *)
Lemma run_apply_through_loc g f w df T column s :
  heap w !! df = Some T ->
  Pd.assoc column (df_columns T) = Some s ->
  (forall v, g v = Ret (f v)) ->
  run (s <- getitem_at df column ;;
       s' <- lift (Pd.apply g s) ;;
       loc_setitem_at df column s' ;;;
       ret (Some df)) w
  = (Ret (Some df),
     Spec.mutated df
       (Pd.setitem column
          (mkSeries (s_dtype s)
             (s_values (Pd.convert (s_dtype s) (map f (s_values s))))) T) w).
Proof.
  intros Hheap Hs Hg.
  rewrite run_bind, (run_getitem_at _ _ T), (getitem_Some _ _ _ Hs) by done.
  rewrite run_bind, run_lift, (apply_convert _ f) by done.
  rewrite run_bind, (run_loc_setitem_at _ _ T) by done.
  unfold Pd.loc_setitem. by rewrite Hs.
Qed.

Lemma all_nan_isna {A} (l : list A) :
  forallb Pd.isna (map (fun _ => VNaN) l) = true.
Proof. induction l as [|x l IH]; simpl; [done | exact IH]. Qed.

Lemma all_nan_is_nan (l : list value) :
  existsb Pd.is_nan l = true ->
  existsb Pd.is_nan (map (fun _ => VNaN) l) = true.
Proof. by destruct l. Qed.

(** Converting a converted column again changes nothing. *)
Lemma convert_idem (f : value -> value) d vs :
  (forall v, f (f v) = f v) ->
  f VNaN = VNaN ->
  let s1 := Pd.convert d (map f vs) in
  Pd.convert (s_dtype s1) (map f (s_values s1)) = s1.
Proof.
  intros Hf Hnan s1. subst s1.
  destruct (forallb Pd.isna (map f vs) && existsb Pd.is_nan (map f vs)) eqn:E.
  - assert (Hs1 : Pd.convert d (map f vs)
                  = mkSeries float64 (map (fun _ => VNaN) (map f vs)))
      by (unfold Pd.convert; by rewrite E).
    rewrite Hs1. simpl. rewrite (map_map (fun _ => VNaN) f).
    rewrite (map_ext (fun _ => f VNaN) (fun _ => VNaN)) by done.
    unfold Pd.convert.
    apply andb_prop in E as [_ E].
    by rewrite all_nan_isna, (all_nan_is_nan _ E), map_map.
  - assert (Hs1 : Pd.convert d (map f vs)
                  = mkSeries (Pd.infer_dtype d (map f vs)) (map f vs))
      by (unfold Pd.convert; by rewrite E).
    rewrite Hs1. simpl. rewrite map_map, (map_ext _ _ Hf).
    unfold Pd.convert. by rewrite E, infer_dtype_idem.
Qed.

Lemma convert_values_dtype d d' vs :
  s_values (Pd.convert d vs) = s_values (Pd.convert d' vs).
Proof. unfold Pd.convert. by destruct (_ && _). Qed.

(** Rewriting twice with an idempotent [f] is rewriting once. *)
Lemma apply_in_place_idem (f : value -> value) d column vs T :
  (forall v, f (f v) = f v) ->
  let s1 := mkSeries (Pd.infer_dtype d (map f vs)) (map f vs) in
  Pd.setitem column
    (mkSeries (Pd.infer_dtype (s_dtype s1) (map f (s_values s1)))
       (map f (s_values s1)))
    (Pd.setitem column s1 T)
  = Pd.setitem column s1 T.
Proof.
  intros Hf s1. rewrite setitem_setitem. f_equal. unfold s1. simpl.
  rewrite map_map, (map_ext _ _ Hf). by rewrite infer_dtype_idem.
Qed.

(** A column that holds a text is kept as computed, as objects. *)
Lemma convert_text d vs i t :
  vs !! i = Some (VStr t) -> Pd.convert d vs = mkSeries object vs.
Proof.
  intros Hi. unfold Pd.convert.
  destruct (forallb Pd.isna vs) eqn:E.
  { by pose proof (forallb_lookup _ _ _ _ E Hi). }
  simpl. f_equal. unfold Pd.infer_dtype.
  destruct vs as [|v vs]; [done|].
  destruct (forallb Pd.is_int (v :: vs)) eqn:E1.
  { by pose proof (forallb_lookup _ _ _ _ E1 Hi). }
  destruct (forallb Pd.is_bool (v :: vs)) eqn:E2.
  { by pose proof (forallb_lookup _ _ _ _ E2 Hi). }
  destruct (forallb Pd.is_nan (v :: vs)) eqn:E3; [|done].
  by pose proof (forallb_lookup _ _ _ _ E3 Hi).
Qed.

(* ================================================================== *)
(** ** lowercase_dataframe *)
(* ================================================================== *)

Lemma lower_value_lower_cell v : lower_value v = Ret (Laws.lower_cell v).
Proof. by destruct v. Qed.

Lemma lower_char_not_upper c : Laws.is_ascii_upper (PyStr.lower_char c) = false.
Proof. destruct c as [[] [] [] [] [] [] [] []]; vm_compute; reflexivity. Qed.

Lemma lower_char_idem c :
  PyStr.lower_char (PyStr.lower_char c) = PyStr.lower_char c.
Proof. destruct c as [[] [] [] [] [] [] [] []]; vm_compute; reflexivity. Qed.

Lemma lower_idem s : PyStr.lower (PyStr.lower s) = PyStr.lower s.
Proof.
  unfold PyStr.lower. rewrite chars_of_chars, map_map.
  by rewrite (map_ext _ _ lower_char_idem).
Qed.

Lemma lower_cell_idem v : Laws.lower_cell (Laws.lower_cell v) = Laws.lower_cell v.
Proof. destruct v; simpl; try done. by rewrite lower_idem. Qed.

Lemma run_lowercase_dataframe w df T column s :
  heap w !! df = Some T ->
  Pd.assoc column (df_columns T) = Some s ->
  run (lowercase_dataframe df column) w
  = (Ret (Some df),
     Spec.mutated df
       (Pd.setitem column
          (Pd.convert (s_dtype s) (map Laws.lower_cell (s_values s))) T) w).
Proof.
  intros Hheap Hs. unfold lowercase_dataframe. py_start Hheap.
  rewrite (assoc_Some_has_column _ _ _ Hs). simpl negb. cbv iota.
  by apply run_apply_in_place; [| | apply lower_value_lower_cell].
Qed.

(** X1. On a frame whose column holds at least one text cell,
    [lowercase_dataframe] rewrites the column of the caller's frame where
    it stands and returns that same frame: the column is of dtype object,
    a text cell holds no letter A-Z afterwards, a cell that is not text is
    the cell it was, and the other columns, the names and the index are
    untouched. *)
Theorem lowercase_dataframe_lowers_in_place
    (w : World) (df : ref) (T : DataFrame) (column : string) (s : Series) :
  heap w !! df = Some T ->
  Pd.assoc column (df_columns T) = Some s ->
  Laws.holds_text s ->
  exists (T' : DataFrame) (s' : Series),
    run (lowercase_dataframe df column) w
    = (Ret (Some df), Spec.mutated df T' w)
    /\ Pd.getitem column T' = Ret s'
    /\ s_dtype s' = object
    /\ s_values s' = map Laws.lower_cell (s_values s)
    /\ (forall i t,
          s_values s' !! i = Some (VStr t) ->
          Forall (fun c => Laws.is_ascii_upper c = false) (PyStr.chars t))
    /\ (forall i v,
          s_values s !! i = Some v -> Py.is_str v = false ->
          s_values s' !! i = Some v)
    /\ (forall c, c <> column -> Pd.getitem c T' = Pd.getitem c T)
    /\ Pd.column_names T' = Pd.column_names T
    /\ df_index T' = df_index T.
Proof.
  intros Hheap Hs (j & u & Hj).
  assert (Hconv : Pd.convert (s_dtype s) (map Laws.lower_cell (s_values s))
                  = mkSeries object (map Laws.lower_cell (s_values s))).
  { apply (convert_text _ _ j (PyStr.lower u)).
    by rewrite list_lookup_fmap, Hj. }
  eexists _, _.
  split; [by apply run_lowercase_dataframe|].
  split; [apply getitem_setitem|]. rewrite Hconv. simpl.
  split; [done|]. split; [done|]. split; [|split; [|split; [|split]]].
  - intros i t Hi. rewrite list_lookup_fmap in Hi.
    destruct (s_values s !! i) as [[t'| | | |]|]; simpl in Hi; try done.
    injection Hi as <-. unfold PyStr.lower. rewrite chars_of_chars.
    apply Forall_fmap, Forall_forall. intros c _. apply lower_char_not_upper.
  - intros i v Hi Hv. rewrite list_lookup_fmap, Hi. by destruct v.
  - intros c Hc. by apply getitem_setitem_ne.
  - by apply (column_names_setitem _ _ s).
  - done.
Qed.

Lemma lowercase_dataframe_lowers_in_place_witness :
  exists T',
    run (lowercase_dataframe 0%nat "name") Sample.world
    = (Ret (Some 0%nat), Spec.mutated 0%nat T' Sample.world).
Proof.
  destruct (lowercase_dataframe_lowers_in_place
              Sample.world 0%nat Sample.customers "name" _ eq_refl eq_refl
              (ex_intro _ 0%nat (ex_intro _ _ eq_refl)))
    as (T' & s' & H & _).
  by exists T'.
Defined.

(** Without a text cell the column goes through the conversion of
    pandas: [None, nan] comes back as the float column [nan, nan]. *)
Example lowercase_dataframe_without_text :
  let T := mkFrame [0; 1] [("name", mkSeries object [VNone; VNaN])] in
  let w := mkWorld [T] [] [] [] in
  run (lowercase_dataframe 0%nat "name") w
  = (Ret (Some 0%nat),
     Spec.mutated 0%nat
       (mkFrame [0; 1] [("name", mkSeries float64 [VNaN; VNaN])]) w).
Proof. by vm_compute. Qed.

(** X2. [lowercase_dataframe] is idempotent: a second call on the frame it
    was given returns it again and changes nothing. *)
Theorem lowercase_dataframe_idempotent
    (w : World) (df : ref) (T : DataFrame) (column : string) (s : Series) :
  heap w !! df = Some T ->
  Pd.assoc column (df_columns T) = Some s ->
  exists w1 : World,
    run (lowercase_dataframe df column) w = (Ret (Some df), w1)
    /\ run (lowercase_dataframe df column) w1 = (Ret (Some df), w1).
Proof.
  intros Hheap Hs. eexists. split; [by apply run_lowercase_dataframe|].
  erewrite run_lowercase_dataframe;
    [| by apply (heap_mutated_eq _ _ T) | apply assoc_setitem].
  rewrite mutated_mutated, setitem_setitem.
  by rewrite (convert_idem _ _ _ lower_cell_idem eq_refl).
Qed.

Lemma lowercase_dataframe_idempotent_witness :
  exists w1,
    run (lowercase_dataframe 0%nat "name") Sample.world
    = (Ret (Some 0%nat), w1).
Proof.
  destruct (lowercase_dataframe_idempotent
              Sample.world 0%nat Sample.customers "name" _ eq_refl eq_refl)
    as (w1 & H & _).
  by exists w1.
Defined.

(* ================================================================== *)
(** ** clean_special_characters, again *)
(* ================================================================== *)

Lemma kept_not_amp c : Spec.kept c = true -> Spec.amp_to_E c = c.
Proof. destruct c as [[] [] [] [] [] [] [] []]; vm_compute; done. Qed.

Lemma filter_idem {A} (p : A -> bool) l :
  List.filter p (List.filter p l) = List.filter p l.
Proof.
  induction l as [|x l IH]; simpl; [done|].
  destruct (p x) eqn:E; simpl; by rewrite ?E, IH.
Qed.

Lemma map_amp_kept l :
  map Spec.amp_to_E (List.filter Spec.kept l) = List.filter Spec.kept l.
Proof.
  induction l as [|c l IH]; simpl; [done|].
  destruct (Spec.kept c) eqn:E; simpl; [|done].
  by rewrite (kept_not_amp _ E), IH.
Qed.

Lemma clean_cell_idem v : Spec.clean_cell (Spec.clean_cell v) = Spec.clean_cell v.
Proof.
  destruct v; simpl; try done.
  by rewrite chars_of_chars, map_amp_kept, filter_idem.
Qed.

Lemma run_clean_special_characters w df T column s :
  heap w !! df = Some T ->
  Pd.assoc column (df_columns T) = Some s ->
  run (clean_special_characters df column) w
  = (Ret (Some df),
     Spec.mutated df
       (Pd.setitem column
          (mkSeries (s_dtype s)
             (s_values
                (Pd.convert (s_dtype s)
                   (map Spec.clean_cell (s_values s))))) T) w).
Proof.
  intros Hheap Hs. unfold clean_special_characters. py_start Hheap.
  rewrite (assoc_Some_has_column _ _ _ Hs). simpl negb. cbv iota.
  by apply run_apply_through_loc; [| | apply clean_text_clean_cell].
Qed.

(** X3. [clean_special_characters] is idempotent: a second call on the
    frame it was given returns it again and changes nothing. *)
Theorem clean_special_characters_idempotent
    (w : World) (df : ref) (T : DataFrame) (column : string) (s : Series) :
  heap w !! df = Some T ->
  Pd.assoc column (df_columns T) = Some s ->
  exists w1 : World,
    run (clean_special_characters df column) w = (Ret (Some df), w1)
    /\ run (clean_special_characters df column) w1 = (Ret (Some df), w1).
Proof.
  intros Hheap Hs. eexists. split; [by apply run_clean_special_characters|].
  erewrite run_clean_special_characters;
    [| by apply (heap_mutated_eq _ _ T) | apply assoc_setitem].
  rewrite mutated_mutated, setitem_setitem. cbn [s_dtype s_values].
  rewrite (convert_values_dtype (s_dtype s)
             (s_dtype (Pd.convert (s_dtype s)
                         (map Spec.clean_cell (s_values s))))).
  by rewrite (convert_idem _ _ _ clean_cell_idem eq_refl).
Qed.

Lemma clean_special_characters_idempotent_witness :
  exists w1,
    run (clean_special_characters 0%nat "name") Sample.world
    = (Ret (Some 0%nat), w1).
Proof.
  destruct (clean_special_characters_idempotent
              Sample.world 0%nat Sample.customers "name" _ eq_refl eq_refl)
    as (w1 & H & _).
  by exists w1.
Defined.

(* ================================================================== *)
(** ** format_phone_number and format_document, again *)
(* ================================================================== *)

Lemma digits_only_idem s :
  Spec.digits_only (Spec.digits_only s) = Spec.digits_only s.
Proof.
  unfold Spec.digits_only. by rewrite chars_of_chars, filter_idem.
Qed.

Lemma phone_cell_idem v : Spec.phone_cell (Spec.phone_cell v) = Spec.phone_cell v.
Proof. unfold Spec.phone_cell. simpl. by rewrite digits_only_idem. Qed.

(** X4. [format_phone_number] is idempotent up to the copy it makes:
    formatting the frame it returned returns a new frame equal to it. *)
Theorem format_phone_number_idempotent
    (w : World) (df : ref) (T : DataFrame) (column : string) (s : Series) :
  heap w !! df = Some T ->
  Pd.assoc column (df_columns T) = Some s ->
  exists (r1 : ref) (w1 : World) (T1 : DataFrame),
    run (format_phone_number df column) w = (Ret (Some r1), w1)
    /\ heap w1 !! r1 = Some T1
    /\ run (format_phone_number r1 column) w1
       = (Ret (Some (length (heap w1))), Spec.allocated [T1] w1).
Proof.
  intros Hheap Hs. eexists _, _, _.
  split; [by apply run_format_phone_number|].
  split; [apply heap_allocated_new|].
  erewrite run_format_phone_number;
    [| apply heap_allocated_new | apply assoc_setitem].
  cbv zeta. simpl s_values. rewrite setitem_setitem.
  rewrite map_map, (map_ext _ _ phone_cell_idem). done.
Qed.

Lemma format_phone_number_idempotent_witness :
  exists r1 w1,
    run (format_phone_number 0%nat "phone") Sample.world
    = (Ret (Some r1), w1).
Proof.
  destruct (format_phone_number_idempotent
              Sample.world 0%nat Sample.customers "phone" _ eq_refl eq_refl)
    as (r1 & w1 & _ & H & _).
  by exists r1, w1.
Defined.

Lemma run_format_document w df T column size s :
  heap w !! df = Some T ->
  Pd.assoc column (df_columns T) = Some s ->
  0 <= size ->
  run (format_document df column size) w
  = (Ret (Some (length (heap w))),
     Spec.allocated
       [Pd.setitem column
          (let vs := map (Spec.format_cell size) (s_values s) in
           mkSeries (Pd.infer_dtype (s_dtype s) vs) vs) T] w).
Proof.
  intros Hheap Hs Hsize. unfold format_document. py_start Hheap.
  rewrite (assoc_Some_has_column _ _ _ Hs). simpl negb. cbv iota.
  rewrite run_bind, (run_copy _ _ _ Hheap).
  rewrite run_bind, (run_getitem_at _ _ T) by apply heap_allocated_new.
  rewrite (getitem_Some _ _ _ Hs).
  rewrite run_bind, run_lift.
  rewrite (apply_total _ (Spec.format_cell size))
    by (intros; first [by apply process_format_cell
                      | apply format_cell_not_nan]).
  by rewrite run_bind, run_assign_copy.
Qed.

Section fitted.

Local Open Scope nat_scope.

Lemma zero_decimal : PyStr.isdecimal "0" = true.
Proof. reflexivity. Qed.

(** Fitting digits to a size gives exactly that many digits. *)
Lemma fit_digits_of_size (size : Z) d :
  (0 <= size)%Z ->
  Forall (fun c => PyStr.isdecimal c = true) (PyStr.chars d) ->
  Laws.digits_of_size size (VStr (Spec.fit size d)).
Proof.
  intros Hsize Hd. eexists. split; [done|]. unfold Spec.fit.
  destruct (Z.ltb_spec (PyStr.len d) size) as [Hlt|Hge].
  - unfold Spec.left_pad_zeros.
    rewrite <- (of_chars_chars d) at 2 4. rewrite <- of_chars_app.
    rewrite len_of_chars, chars_of_chars. split.
    + rewrite length_app, length_replicate, length_chars.
      unfold PyStr.len in Hlt. lia.
    + apply Forall_app. split; [|done].
      apply Forall_replicate, zero_decimal.
  - destruct (Z.ltb_spec size (PyStr.len d)) as [Hlt|Hle].
    + unfold Spec.first_chars. rewrite len_of_chars, chars_of_chars. split.
      * rewrite length_take, length_chars. unfold PyStr.len in Hlt. lia.
      * by apply Forall_take.
    + split; [lia | done].
Qed.

Lemma format_cell_shape size v :
  (0 <= size)%Z ->
  Spec.format_cell size v = VNone
  \/ Laws.digits_of_size size (Spec.format_cell size v).
Proof.
  intros Hsize. unfold Spec.format_cell.
  destruct (Spec.blank v); [by left|]. right.
  apply fit_digits_of_size; [done | apply digits_only_decimal].
Qed.

Lemma decimal_not_space c : PyStr.isdecimal c = true -> PyStr.isspace c = false.
Proof. destruct c as [[] [] [] [] [] [] [] []]; vm_compute; done. Qed.

Lemma decimal_lower c : PyStr.isdecimal c = true -> PyStr.lower_char c = c.
Proof. destruct c as [[] [] [] [] [] [] [] []]; vm_compute; done. Qed.

Lemma decimal_not_n c : PyStr.isdecimal c = true -> Ascii.eqb c "n" = false.
Proof. destruct c as [[] [] [] [] [] [] [] []]; vm_compute; done. Qed.

Lemma stripped_decimal l :
  Forall (fun c => PyStr.isdecimal c = true) l -> Spec.stripped l = l.
Proof.
  intros Hl. unfold Spec.stripped.
  assert (Hds : forall k, Forall (fun c => PyStr.isdecimal c = true) k ->
                          PyStr.drop_spaces k = k).
  { intros [|c k] Hk; [done|]. inversion Hk; subst.
    apply drop_spaces_stable. by apply decimal_not_space. }
  rewrite (Hds l Hl), Hds, rev_involutive; [done|].
  apply Forall_forall. intros c Hc. rewrite Forall_forall in Hl.
  apply Hl. apply list_elem_of_In. apply list_elem_of_In in Hc.
  by apply in_rev.
Qed.

Lemma filter_all {A} (p : A -> bool) l :
  Forall (fun x => p x = true) l -> List.filter p l = l.
Proof.
  induction 1 as [|x l Hx _ IH]; simpl; [done|]. by rewrite Hx, IH.
Qed.

(** A non-empty text of digits is formatted to itself. *)
Lemma format_cell_digits size d :
  (0 < size)%Z ->
  Laws.digits_of_size size (VStr d) ->
  Spec.format_cell size (VStr d) = VStr d.
Proof.
  intros Hsize (d' & [= <-] & Hlen & Hd).
  assert (Hne : exists c rest, d = String c rest /\ PyStr.isdecimal c = true).
  { destruct d as [|c rest]; [simpl in Hlen; unfold PyStr.len in Hlen;
      simpl in Hlen; lia|].
    inversion Hd; subst. by exists c, rest. }
  destruct Hne as (c & rest & -> & Hc).
  assert (Hstrip : PyStr.strip (String c rest) = String c rest).
  { by rewrite strip_chars, stripped_decimal, of_chars_chars. }
  assert (Hlower : PyStr.lower (String c rest) = String c rest).
  { unfold PyStr.lower.
    rewrite (Forall_fmap_ext_1 PyStr.lower_char id).
    - by rewrite list_fmap_id, of_chars_chars.
    - eapply Forall_impl; [exact Hd|]. intros a. apply decimal_lower. }
  unfold Spec.format_cell, Spec.blank. cbn [Py.str Pd.isna].
  rewrite Hstrip, Hlower.
  replace (Spec.all_space (String c rest)) with false
    by (unfold Spec.all_space; simpl; by rewrite (decimal_not_space _ Hc)).
  replace (Py.str_in (String c rest) ["nan"; "none"]) with false
    by (unfold Py.str_in; simpl; by rewrite (decimal_not_n _ Hc)).
  cbn [orb]. f_equal.
  unfold Spec.digits_only. rewrite (filter_all _ _ Hd), of_chars_chars.
  unfold Spec.fit.
  destruct (Z.ltb_spec (PyStr.len (String c rest)) size); [lia|].
  destruct (Z.ltb_spec size (PyStr.len (String c rest))); [lia | done].
Qed.

Lemma format_cell_idem size v :
  (0 < size)%Z ->
  Spec.format_cell size (Spec.format_cell size v) = Spec.format_cell size v.
Proof.
  intros Hsize.
  destruct (format_cell_shape size v) as [->|H]; [lia | done |].
  destruct H as (d & Hv & Hrest). rewrite Hv.
  apply format_cell_digits; [done|]. by exists d.
Qed.

End fitted.

(** X5. For a size that is not negative, every cell of the column
    [format_document] returns is either missing or a text of exactly
    [size] digits. *)
Theorem format_document_cells_have_size
    (w : World) (df : ref) (T : DataFrame) (column : string) (s : Series)
    (size : Z) :
  heap w !! df = Some T ->
  Pd.assoc column (df_columns T) = Some s ->
  0 <= size ->
  exists (r : ref) (w' : World) (R : DataFrame) (s' : Series),
    run (format_document df column size) w = (Ret (Some r), w')
    /\ heap w' !! r = Some R
    /\ heap w' !! df = Some T
    /\ Pd.getitem column R = Ret s'
    /\ length (s_values s') = length (s_values s)
    /\ Forall (fun v => v = VNone \/ Laws.digits_of_size size v)
         (s_values s').
Proof.
  intros Hheap Hs Hsize. eexists _, _, _, _.
  split; [by apply run_format_document|].
  split; [apply heap_allocated_new|].
  split; [by apply heap_allocated_old|].
  split; [apply getitem_setitem|]. simpl.
  split; [by rewrite length_map|].
  apply Forall_fmap, Forall_forall. intros v _. by apply format_cell_shape.
Qed.

Lemma format_document_cells_have_size_witness :
  exists r w',
    run (format_document 0%nat "phone" 11) Sample.world = (Ret (Some r), w').
Proof.
  destruct (format_document_cells_have_size
              Sample.world 0%nat Sample.customers "phone" _ 11
              eq_refl eq_refl ltac:(lia))
    as (r & w' & _ & _ & H & _).
  by exists r, w'.
Defined.

(** X6. For a positive size [format_document] is idempotent up to the copy
    it makes: formatting the frame it returned returns a new frame equal
    to it. *)
Theorem format_document_idempotent
    (w : World) (df : ref) (T : DataFrame) (column : string) (s : Series)
    (size : Z) :
  heap w !! df = Some T ->
  Pd.assoc column (df_columns T) = Some s ->
  0 < size ->
  exists (r1 : ref) (w1 : World) (T1 : DataFrame),
    run (format_document df column size) w = (Ret (Some r1), w1)
    /\ heap w1 !! r1 = Some T1
    /\ run (format_document r1 column size) w1
       = (Ret (Some (length (heap w1))), Spec.allocated [T1] w1).
Proof.
  intros Hheap Hs Hsize. eexists _, _, _.
  split; [apply run_format_document; [done | done | lia]|].
  split; [apply heap_allocated_new|].
  erewrite run_format_document;
    [| apply heap_allocated_new | apply assoc_setitem | lia].
  cbv zeta.
  by rewrite (apply_in_place_idem _ _ _ _ _ (fun v => format_cell_idem size v Hsize)).
Qed.

Lemma format_document_idempotent_witness :
  exists r1 w1,
    run (format_document 0%nat "phone" 11) Sample.world
    = (Ret (Some r1), w1).
Proof.
  destruct (format_document_idempotent
              Sample.world 0%nat Sample.customers "phone" _ 11
              eq_refl eq_refl ltac:(lia))
    as (r1 & w1 & _ & H & _).
  by exists r1, w1.
Defined.

(** With size 0 the second pass differs: the empty text left by the first
    is missing for the second. *)
Example format_document_size_zero :
  process 0 (VStr "12") = Ret (VStr "") /\ process 0 (VStr "") = Ret VNone.
Proof. by vm_compute. Qed.

(* ================================================================== *)
(** ** limit_column_size *)
(* ================================================================== *)

Section truncation.

Local Open Scope nat_scope.

Lemma slice_to_first_chars (limit : Z) t :
  (0 <= limit)%Z ->
  PyStr.slice_to limit t = Spec.first_chars (Z.to_nat limit) t.
Proof.
  intros Hlimit. unfold PyStr.slice_to, Spec.first_chars, PyStr.len.
  destruct (Z.ltb_spec limit 0) as [|_]; [lia|]. f_equal.
  destruct (Z.le_gt_cases limit (Z.of_nat (String.length t))).
  - by rewrite Z.min_l by lia.
  - rewrite Z.min_r by lia.
    rewrite !take_ge; [done | |]; rewrite length_chars; lia.
Qed.

Lemma truncate_text (limit : Z) t :
  (0 <= limit)%Z ->
  truncate limit (VStr t) = Ret (Laws.truncated_cell limit (VStr t)).
Proof.
  intros Hlimit. unfold truncate, Laws.truncated_cell. simpl.
  destruct (String.eqb_spec t "") as [->|_]; simpl.
  - unfold Spec.first_chars. simpl. by rewrite take_nil.
  - by rewrite slice_to_first_chars.
Qed.

Lemma len_first_chars n t :
  PyStr.len (Spec.first_chars n t)
  = Z.min (Z.of_nat n) (PyStr.len t).
Proof.
  unfold Spec.first_chars. rewrite len_of_chars, length_take, length_chars.
  unfold PyStr.len. lia.
Qed.

End truncation.

Lemma apply_truncate_astype limit s :
  0 <= limit ->
  Pd.apply (truncate limit) (Pd.astype_str s)
  = Ret (let vs := map (Laws.truncated_cell limit) (s_values s) in
         mkSeries (Pd.infer_dtype object vs) vs).
Proof.
  intros Hlimit. rewrite (apply_total _ (Laws.truncated_cell limit)).
  - simpl. rewrite map_map. done.
  - simpl. intros v Hv. apply list_elem_of_fmap in Hv as (u & -> & _).
    by apply truncate_text.
  - done.
Qed.

Lemma run_limit_column_size w df T column s limit :
  heap w !! df = Some T ->
  Pd.assoc column (df_columns T) = Some s ->
  0 <= limit ->
  run (limit_column_size df column limit) w
  = (Ret (length (heap w)),
     Spec.allocated
       [Pd.setitem column
          (let vs := map (Laws.truncated_cell limit) (s_values s) in
           mkSeries (Pd.infer_dtype object vs) vs) T] w).
Proof.
  intros Hheap Hs Hlimit. unfold limit_column_size.
  rewrite run_bind, (run_copy _ _ _ Hheap).
  rewrite run_bind, (run_contains _ _ _ _ (heap_allocated_new w T)).
  rewrite (assoc_Some_has_column _ _ _ Hs). simpl negb. cbv iota.
  rewrite run_bind, (run_getitem_at _ _ T) by apply heap_allocated_new.
  rewrite (getitem_Some _ _ _ Hs).
  rewrite run_bind, run_assign_copy.
  rewrite run_bind, (run_getitem_at _ _ (Pd.setitem column (Pd.astype_str s) T))
    by apply heap_allocated_new.
  rewrite getitem_setitem.
  rewrite run_bind, run_lift, apply_truncate_astype by done.
  rewrite run_bind, run_assign_copy.
  by rewrite setitem_setitem.
Qed.

(** X7. For a limit that is not negative and a frame that has the column,
    [limit_column_size] leaves the caller's frame alone and returns a copy
    whose column holds, for every value, the first [limit] characters of
    its text: each cell is a text of [min(limit, len(str(value)))]
    characters, missing values included (they become "nan" or "None",
    cut likewise). *)
Theorem limit_column_size_bounds_lengths
    (w : World) (df : ref) (T : DataFrame) (column : string) (s : Series)
    (limit : Z) :
  heap w !! df = Some T ->
  Pd.assoc column (df_columns T) = Some s ->
  0 <= limit ->
  exists (r : ref) (w' : World) (R : DataFrame) (s' : Series),
    run (limit_column_size df column limit) w = (Ret r, w')
    /\ r <> df
    /\ heap w' !! r = Some R
    /\ heap w' !! df = Some T
    /\ Pd.getitem column R = Ret s'
    /\ s_values s' = map (Laws.truncated_cell limit) (s_values s)
    /\ (forall i v,
          s_values s !! i = Some v ->
          exists t,
            s_values s' !! i = Some (VStr t)
            /\ PyStr.len t = Z.min limit (PyStr.len (Py.str v)))
    /\ (forall c, c <> column -> Pd.getitem c R = Pd.getitem c T).
Proof.
  intros Hheap Hs Hlimit. eexists _, _, _, _.
  split; [by apply run_limit_column_size|].
  split; [apply lookup_lt_Some in Hheap; lia|].
  split; [apply heap_allocated_new|].
  split; [by apply heap_allocated_old|].
  split; [apply getitem_setitem|]. simpl.
  split; [done|]. split.
  - intros i v Hi. eexists. rewrite list_lookup_fmap, Hi. split; [done|].
    rewrite len_first_chars. lia.
  - intros c Hc. by apply getitem_setitem_ne.
Qed.

Lemma limit_column_size_bounds_lengths_witness :
  exists r w',
    run (limit_column_size 0%nat "name" 3) Sample.world = (Ret r, w')
    /\ r <> 0%nat.
Proof.
  destruct (limit_column_size_bounds_lengths
              Sample.world 0%nat Sample.customers "name" _ 3
              eq_refl eq_refl ltac:(lia))
    as (r & w' & _ & _ & H & Hr & _).
  by exists r, w'.
Defined.

(* ================================================================== *)
(** ** drop_column *)
(* ================================================================== *)

Lemma names_other_columns column T :
  column ∉ map fst (Laws.other_columns column T).
Proof.
  intros Hin. apply list_elem_of_fmap in Hin as ([name s] & Hname & Hc).
  apply list_elem_of_filter in Hc as [Hkeep _]. simpl in *. subst name.
  by rewrite String.eqb_refl in Hkeep.
Qed.

Lemma assoc_other_columns c column T :
  c <> column ->
  Pd.assoc c (Laws.other_columns column T) = Pd.assoc c (df_columns T).
Proof.
  intros Hc. unfold Laws.other_columns.
  induction (df_columns T) as [|[name s] cols IH]; [done|].
  rewrite filter_cons. simpl.
  destruct (String.eqb_spec name column) as [->|Hne]; simpl.
  - destruct (String.eqb_spec column c); [congruence | done].
  - by rewrite IH.
Qed.

Lemma run_drop_column w df T column s :
  heap w !! df = Some T ->
  Pd.assoc column (df_columns T) = Some s ->
  run (drop_column df column) w
  = (Ret (Some (length (heap w))),
     Spec.allocated
       [mkFrame (df_index T) (Laws.other_columns column T)] w).
Proof.
  intros Hheap Hs. unfold drop_column. py_start Hheap.
  pose proof (assoc_Some_has_column _ _ _ Hs) as Hhas. rewrite Hhas.
  rewrite run_bind, (run_deref _ _ _ Hheap).
  rewrite run_bind, run_lift. unfold Pd.drop_columns. rewrite Hhas.
  reflexivity.
Qed.

(** X8. On a frame that has the column, [drop_column] leaves the caller's
    frame alone and returns a new frame with the same index and the other
    columns, in their order and with their cells; the column is gone, so
    dropping it from the result returns [None]. *)
Theorem drop_column_removes_only_that_column
    (w : World) (df : ref) (T : DataFrame) (column : string) (s : Series) :
  heap w !! df = Some T ->
  Pd.assoc column (df_columns T) = Some s ->
  exists (R : DataFrame),
    run (drop_column df column) w
    = (Ret (Some (length (heap w))), Spec.allocated [R] w)
    /\ heap (Spec.allocated [R] w) !! df = Some T
    /\ df_index R = df_index T
    /\ df_columns R = Laws.other_columns column T
    /\ (column ∉ Pd.column_names R)
    /\ (forall c, c <> column -> Pd.getitem c R = Pd.getitem c T)
    /\ run (drop_column (length (heap w)) column) (Spec.allocated [R] w)
       = (Ret None, Spec.allocated [R] w).
Proof.
  intros Hheap Hs. eexists.
  split; [exact (run_drop_column w df T column s Hheap Hs)|].
  split; [by apply heap_allocated_old|].
  split; [done|]. split; [done|].
  split; [apply names_other_columns|]. split.
  - intros c Hc. unfold Pd.getitem. simpl. by rewrite assoc_other_columns.
  - apply (drop_column_missing _ _ _ _ (heap_allocated_new _ _)).
    apply names_other_columns.
Qed.

Lemma drop_column_removes_only_that_column_witness :
  exists R,
    run (drop_column 0%nat "name") Sample.world
    = (Ret (Some 1%nat), Spec.allocated [R] Sample.world).
Proof.
  destruct (drop_column_removes_only_that_column
              Sample.world 0%nat Sample.customers "name" _ eq_refl eq_refl)
    as (R & H & _).
  by exists R.
Defined.

(* ================================================================== *)
(** ** rename_column *)
(* ================================================================== *)

Lemma run_rename_column w df T current_name new_name s :
  heap w !! df = Some T ->
  Pd.assoc current_name (df_columns T) = Some s ->
  run (rename_column df current_name new_name) w
  = (Ret (Some (length (heap w))),
     Spec.allocated [Pd.rename current_name new_name T] w).
Proof.
  intros Hheap Hs. unfold rename_column. rewrite run_try_except.
  py_start Hheap.
  rewrite (assoc_Some_has_column _ _ _ Hs). simpl negb. cbv iota.
  rewrite run_bind, run_ret.
  by rewrite run_bind, (run_deref _ _ _ Hheap).
Qed.

Lemma cells_of_rename old new T :
  Spec.cells_of (Pd.rename old new T) = Spec.cells_of T.
Proof.
  unfold Spec.cells_of. simpl. rewrite map_map. apply map_ext.
  by intros [name s].
Qed.

Lemma column_names_rename old new T :
  Pd.column_names (Pd.rename old new T)
  = map (Laws.renamed old new) (Pd.column_names T).
Proof.
  unfold Pd.column_names. simpl. rewrite !map_map. apply map_ext.
  by intros [name s].
Qed.

(** X9. On a frame that has the column, [rename_column] prints nothing,
    leaves the caller's frame alone and returns a new frame with the same
    rows, whose column names are those of the input with the current name
    replaced by the new one: the new name is a column of the result and,
    when the two names differ, the current name no longer is. *)
Theorem rename_column_renames
    (w : World) (df : ref) (T : DataFrame)
    (current_name new_name : string) (s : Series) :
  heap w !! df = Some T ->
  Pd.assoc current_name (df_columns T) = Some s ->
  exists (R : DataFrame),
    run (rename_column df current_name new_name) w
    = (Ret (Some (length (heap w))), Spec.allocated [R] w)
    /\ heap (Spec.allocated [R] w) !! df = Some T
    /\ Pd.column_names R
       = map (Laws.renamed current_name new_name) (Pd.column_names T)
    /\ Pd.rows R = Pd.rows T
    /\ (new_name ∈ Pd.column_names R)
    /\ (current_name <> new_name -> current_name ∉ Pd.column_names R).
Proof.
  intros Hheap Hs. eexists.
  split; [exact (run_rename_column w df T current_name new_name s Hheap Hs)|].
  split; [by apply heap_allocated_old|].
  split; [apply column_names_rename|].
  split; [unfold Pd.rows; fold (Spec.cells_of (Pd.rename current_name new_name T));
          by rewrite cells_of_rename|].
  rewrite column_names_rename. split.
  - apply list_elem_of_fmap. exists current_name. split.
    + unfold Laws.renamed. by rewrite String.eqb_refl.
    + destruct (decide (current_name ∈ Pd.column_names T)) as [|Hn]; [done|].
      apply assoc_None in Hn. congruence.
  - intros Hne Hin. apply list_elem_of_fmap in Hin as (name & Heq & _).
    unfold Laws.renamed in Heq.
    destruct (String.eqb_spec name current_name); congruence.
Qed.

Lemma rename_column_renames_witness :
  exists R,
    run (rename_column 0%nat "name" "customer") Sample.world
    = (Ret (Some 1%nat), Spec.allocated [R] Sample.world).
Proof.
  destruct (rename_column_renames
              Sample.world 0%nat Sample.customers "name" "customer" _
              eq_refl eq_refl)
    as (R & H & _).
  by exists R.
Defined.

(* ================================================================== *)
(** ** filter_dataframe *)
(* ================================================================== *)

Lemma column_names_select mask T :
  Pd.column_names (Pd.select mask T) = Pd.column_names T.
Proof.
  unfold Pd.column_names. simpl. rewrite map_map. apply map_ext.
  by intros [name s].
Qed.

Lemma filter_none {A} (p : A -> bool) l :
  (forall x, p x = false) -> List.filter p l = [].
Proof.
  intros Hp. induction l as [|x l IH]; simpl; [done|]. by rewrite Hp.
Qed.

Lemma run_filter_dataframe w df T column parameter s :
  heap w !! df = Some T ->
  Pd.assoc column (df_columns T) = Some s ->
  run (filter_dataframe df column parameter) w
  = (Ret (Some (length (heap w))),
     Spec.allocated [Pd.select (Pd.eq_scalar s parameter) T] w).
Proof.
  intros Hheap Hs. unfold filter_dataframe. py_start Hheap.
  rewrite (assoc_Some_has_column _ _ _ Hs). simpl negb. cbv iota.
  rewrite run_bind, (run_getitem_at _ _ T), (getitem_Some _ _ _ Hs) by done.
  by rewrite run_bind, (run_deref _ _ _ Hheap).
Qed.

(** X10. On a frame that has the column, [filter_dataframe] leaves the
    caller's frame alone and returns a new frame with the same columns,
    made of exactly the rows whose cell in the column is present and equal
    to the parameter, in their original order; a missing parameter
    ([None] or [nan]) selects no row. *)
Theorem filter_dataframe_selects_equal_rows
    (w : World) (df : ref) (T : DataFrame) (column : string) (s : Series)
    (parameter : value) :
  heap w !! df = Some T ->
  Pd.well_formed T ->
  Pd.assoc column (df_columns T) = Some s ->
  exists (R : DataFrame),
    run (filter_dataframe df column parameter) w
    = (Ret (Some (length (heap w))), Spec.allocated [R] w)
    /\ heap (Spec.allocated [R] w) !! df = Some T
    /\ Pd.column_names R = Pd.column_names T
    /\ Pd.rows R
       = List.filter (Laws.equals parameter (Spec.position column T))
           (Pd.rows T)
    /\ Pd.rows R `sublist_of` Pd.rows T
    /\ (Pd.isna parameter = true -> Pd.rows R = []).
Proof.
  intros Hheap Hwf Hs. eexists.
  pose proof (well_formed_rectangular _ Hwf) as Hrect.
  assert (Hrows : Pd.rows (Pd.select (Pd.eq_scalar s parameter) T)
                  = List.filter
                      (Laws.equals parameter (Spec.position column T))
                      (Pd.rows T)).
  { rewrite rows_select by done.
    rewrite <- take_mask_filter. f_equal.
    unfold Pd.eq_scalar. rewrite <- (cells_of_rows column s T) by done.
    by rewrite map_map. }
  split; [by apply run_filter_dataframe|].
  split; [by apply heap_allocated_old|].
  split; [apply column_names_select|].
  split; [done|]. split.
  - rewrite rows_select by done. apply take_mask_sublist.
  - intros Hp. rewrite Hrows. apply filter_none. intros row.
    unfold Laws.equals. rewrite Hp. simpl. by rewrite andb_false_r.
Qed.

Lemma filter_dataframe_selects_equal_rows_witness :
  exists R,
    run (filter_dataframe 0%nat "id" (VInt 1)) Sample.world
    = (Ret (Some 1%nat), Spec.allocated [R] Sample.world).
Proof.
  destruct (filter_dataframe_selects_equal_rows
              Sample.world 0%nat Sample.customers "id" _ (VInt 1)
              eq_refl sample_customers_well_formed eq_refl)
    as (R & H & _).
  by exists R.
Defined.

(* ================================================================== *)
(** ** remove_duplicates, again *)
(* ================================================================== *)

Section kept_values.

Implicit Types (v u : value) (vs seen : list value).

Local Open Scope nat_scope.

(** Every value met is either in the table already or represented among
    the kept ones. *)
Lemma kept_covers seen vs v :
  v ∈ vs ->
  existsb (Pd.same_key v) seen = true
  \/ exists u,
       u ∈ Pd.take_mask (map negb (Pd.duplicated_from seen vs)) vs
       /\ Pd.same_key u v = true.
Proof.
  revert seen. induction vs as [|v0 vs IH]; intros seen Hv.
  - by apply elem_of_nil in Hv.
  - simpl. destruct (existsb (Pd.same_key v0) seen) eqn:Hdup; simpl.
    + apply elem_of_cons in Hv as [->|Hv]; [by left | by apply IH].
    + apply elem_of_cons in Hv as [->|Hv].
      * right. exists v0. split; [left | apply same_key_refl].
      * destruct (IH (v0 :: seen) Hv) as [Hseen|(u & Hu & Huv)].
        -- simpl in Hseen. apply orb_true_iff in Hseen as [Hv0|Hseen].
           ++ right. exists v0. split; [left | by rewrite same_key_sym].
           ++ by left.
        -- right. exists u. split; [by right | done].
Qed.

Lemma first_occurrences_cover vs v :
  v ∈ vs ->
  exists u,
    u ∈ Pd.take_mask (Spec.first_occurrences vs) vs
    /\ Pd.same_key u v = true.
Proof.
  intros Hv. rewrite <- duplicated_first_occurrences.
  by destruct (kept_covers [] vs v Hv) as [|].
Qed.

Lemma map_seq_all_true (f : nat -> bool) a n :
  (forall i, a <= i < a + n -> f i = true) ->
  map f (seq a n) = replicate n true.
Proof.
  revert a. induction n as [|n IH]; intros a Hf; simpl; [done|].
  rewrite Hf by lia. f_equal. apply IH. intros i Hi. apply Hf. lia.
Qed.

(** Among pairwise distinct values every position is a first occurrence. *)
Lemma first_occurrences_of_distinct vs :
  Spec.pairwise_distinct vs ->
  Spec.first_occurrences vs = replicate (length vs) true.
Proof.
  intros Hd. unfold Spec.first_occurrences. apply map_seq_all_true.
  intros i Hi. unfold Spec.is_first_occurrence.
  destruct (lookup_lt_is_Some_2 vs i ltac:(lia)) as [v Hv]. rewrite Hv.
  apply forallb_forall. intros u Hu.
  apply list_elem_of_In, list_elem_of_lookup in Hu as [j Hj].
  apply lookup_take_Some in Hj as [Hj Hlt].
  rewrite (Hd j i u v); [done | lia | done | done].
Qed.

End kept_values.

Section whole_masks.

Context {A B : Type}.

Local Open Scope nat_scope.

Lemma take_mask_all (l : list A) n :
  length l <= n -> Pd.take_mask (replicate n true) l = l.
Proof.
  revert n. induction l as [|x l IH]; intros n Hn.
  - apply take_mask_nil.
  - destruct n as [|n]; simpl in *; [lia|]. f_equal. apply IH. lia.
Qed.

Lemma length_take_mask_same mask (l : list A) (k : list B) :
  length l = length k ->
  length (Pd.take_mask mask l) = length (Pd.take_mask mask k).
Proof.
  revert l k. induction mask as [|b mask IH]; intros l k Hlen; [done|].
  destruct l as [|x l], k as [|y k]; simpl in *; try lia.
  destruct b; simpl; [f_equal|]; apply IH; lia.
Qed.

End whole_masks.

Lemma rectangular_select mask T :
  Spec.rectangular (df_index T) (Spec.cells_of T) ->
  Spec.rectangular (df_index (Pd.select mask T))
    (Spec.cells_of (Pd.select mask T)).
Proof.
  intros H. rewrite cells_of_select. unfold Spec.rectangular in *. simpl.
  apply Forall_fmap. eapply Forall_impl; [exact H|]. simpl.
  intros c Hc. by apply length_take_mask_same.
Qed.

(** Selecting every row gives the frame back. *)
Lemma select_all T n :
  Spec.rectangular (df_index T) (Spec.cells_of T) ->
  n = length (df_index T) ->
  Pd.select (replicate n true) T = T.
Proof.
  intros Hrect ->. destruct T as [idx cols]. unfold Pd.select. simpl in *.
  rewrite take_mask_all by done. f_equal.
  rewrite <- (map_id cols) at 2. apply Forall_fmap_ext_1.
  unfold Spec.rectangular, Spec.cells_of in Hrect. simpl in Hrect.
  apply Forall_fmap in Hrect. eapply Forall_impl; [exact Hrect|].
  intros [name [d vs]] Hlen. simpl in *.
  rewrite take_mask_all by lia. done.
Qed.

Lemma assoc_length column s T :
  Spec.rectangular (df_index T) (Spec.cells_of T) ->
  Pd.assoc column (df_columns T) = Some s ->
  length (s_values s) = length (df_index T).
Proof.
  intros Hrect Hs. apply cells_of_lookup in Hs.
  exact (Forall_lookup_1 _ _ _ _ Hrect Hs).
Qed.

(** X11. [remove_duplicates] loses no value: the column of the frame it
    returns is a subsequence of the input column, and every value of the
    input column has an equal value (equal as a hash-table key) in it. *)
Theorem remove_duplicates_loses_no_value
    (w : World) (df : ref) (T : DataFrame) (column : string) (s : Series) :
  heap w !! df = Some T ->
  Pd.assoc column (df_columns T) = Some s ->
  exists (r : ref) (w' : World) (R : DataFrame) (s' : Series),
    run (remove_duplicates df column) w = (Ret r, w')
    /\ heap w' !! r = Some R
    /\ heap w' !! df = Some T
    /\ Pd.getitem column R = Ret s'
    /\ s_values s' `sublist_of` s_values s
    /\ (forall v, v ∈ s_values s ->
          exists u, u ∈ s_values s' /\ Pd.same_key u v = true).
Proof.
  intros Hheap Hs. eexists _, _, _, _.
  split; [by apply run_remove_duplicates|].
  split; [apply heap_allocated_new|].
  split; [by apply heap_allocated_old|].
  split; [unfold Pd.getitem; by rewrite assoc_select, Hs|]. simpl.
  split; [apply take_mask_sublist | apply first_occurrences_cover].
Qed.

Lemma remove_duplicates_loses_no_value_witness :
  exists r w', run (remove_duplicates 0%nat "id") Sample.world = (Ret r, w').
Proof.
  destruct (remove_duplicates_loses_no_value
              Sample.world 0%nat Sample.customers "id" _ eq_refl eq_refl)
    as (r & w' & _ & _ & H & _).
  by exists r, w'.
Defined.

(** X12. [remove_duplicates] is idempotent up to the frame it builds:
    removing the duplicates of the frame it returned returns a new frame
    equal to it. *)
Theorem remove_duplicates_idempotent
    (w : World) (df : ref) (T : DataFrame) (column : string) (s : Series) :
  heap w !! df = Some T ->
  Pd.well_formed T ->
  Pd.assoc column (df_columns T) = Some s ->
  exists (r1 : ref) (w1 : World) (T1 : DataFrame),
    run (remove_duplicates df column) w = (Ret r1, w1)
    /\ heap w1 !! r1 = Some T1
    /\ run (remove_duplicates r1 column) w1
       = (Ret (length (heap w1)), Spec.allocated [T1] w1).
Proof.
  intros Hheap Hwf Hs.
  pose proof (well_formed_rectangular _ Hwf) as Hrect.
  eexists _, _, _.
  split; [by apply run_remove_duplicates|].
  split; [apply heap_allocated_new|].
  erewrite run_remove_duplicates;
    [| apply heap_allocated_new | by rewrite assoc_select, Hs].
  simpl s_values.
  destruct (first_occurrences_distinct (s_values s)) as [Hd _].
  rewrite (first_occurrences_of_distinct _ Hd).
  rewrite select_all; [done | by apply rectangular_select |].
  simpl. apply length_take_mask_same. by apply (assoc_length column).
Qed.

Lemma remove_duplicates_idempotent_witness :
  exists r1 w1, run (remove_duplicates 0%nat "id") Sample.world = (Ret r1, w1).
Proof.
  destruct (remove_duplicates_idempotent
              Sample.world 0%nat Sample.customers "id" _
              eq_refl sample_customers_well_formed eq_refl)
    as (r1 & w1 & _ & H & _).
  by exists r1, w1.
Defined.

(* ================================================================== *)
(** ** filter_by_different_char_count, again *)
(* ================================================================== *)

Lemma kept_lengths_differ n vs :
  Forall (Laws.text_of_other_length n)
    (Pd.take_mask (Spec.length_mask n vs) (map Spec.stringified vs)).
Proof.
  induction vs as [|v vs IH]; simpl; [constructor|].
  destruct (Z.eqb_spec (PyStr.len (Py.str v)) n); simpl; [done|].
  constructor; [by eexists | done].
Qed.

Lemma length_mask_of_kept n vs :
  Spec.length_mask n
    (Pd.take_mask (Spec.length_mask n vs) (map Spec.stringified vs))
  = replicate
      (length (Pd.take_mask (Spec.length_mask n vs)
                 (map Spec.stringified vs))) true.
Proof.
  induction vs as [|v vs IH]; simpl; [done|].
  destruct (Z.eqb_spec (PyStr.len (Py.str v)) n) as [|Hne]; simpl; [done|].
  destruct (Z.eqb_spec (PyStr.len (Py.str v)) n); [done|]. simpl.
  by rewrite IH.
Qed.

Lemma astype_str_of_kept d mask vs :
  Pd.astype_str (mkSeries d (Pd.take_mask mask (map Spec.stringified vs)))
  = mkSeries object (Pd.take_mask mask (map Spec.stringified vs)).
Proof.
  unfold Pd.astype_str. simpl. f_equal.
  rewrite take_mask_map, map_map. by apply map_ext.
Qed.

Lemma rectangular_astype column s T :
  Spec.rectangular (df_index T) (Spec.cells_of T) ->
  Pd.assoc column (df_columns T) = Some s ->
  Spec.rectangular (df_index (Pd.setitem column (Pd.astype_str s) T))
    (Spec.cells_of (Pd.setitem column (Pd.astype_str s) T)).
Proof.
  intros Hrect Hs. unfold Spec.cells_of, Pd.setitem, Pd.astype_str. simpl.
  rewrite (cells_of_replace_map Spec.stringified) by done.
  by apply rectangular_alter.
Qed.

(** X13. In the frame a successful [filter_by_different_char_count]
    returns, every cell of the column is a text whose length is not
    [char_count]. *)
Theorem filter_by_different_char_count_leaves_no_such_length
    (w : World) (df : ref) (T : DataFrame) (column : string) (s : Series)
    (char_count : Z) :
  heap w !! df = Some T ->
  Pd.assoc column (df_columns T) = Some s ->
  exists (r : ref) (w' : World) (R : DataFrame) (s' : Series),
    run (filter_by_different_char_count df column char_count) w = (Ret r, w')
    /\ heap w' !! r = Some R
    /\ Pd.getitem column R = Ret s'
    /\ s_dtype s' = object
    /\ Forall (Laws.text_of_other_length char_count) (s_values s').
Proof.
  intros Hheap Hs. eexists _, _, _, _.
  split; [by apply run_filter_by_different_char_count|].
  split; [simpl; rewrite lookup_app_r, length_insert, Nat.sub_diag;
          [done | by rewrite length_insert]|].
  split; [unfold Pd.getitem; by rewrite assoc_select, assoc_setitem|].
  split; [done|]. apply kept_lengths_differ.
Qed.

Lemma filter_by_different_char_count_leaves_no_such_length_witness :
  exists r w',
    run (filter_by_different_char_count 0%nat "id" 1) Sample.world
    = (Ret r, w').
Proof.
  destruct (filter_by_different_char_count_leaves_no_such_length
              Sample.world 0%nat Sample.customers "id" _ 1 eq_refl eq_refl)
    as (r & w' & _ & _ & H & _).
  by exists r, w'.
Defined.

(** X14. Filtering again the frame a successful
    [filter_by_different_char_count] returned, with the same count, leaves
    that frame as it is and returns a new frame equal to it. *)
Theorem filter_by_different_char_count_idempotent
    (w : World) (df : ref) (T : DataFrame) (column : string) (s : Series)
    (char_count : Z) :
  heap w !! df = Some T ->
  Pd.well_formed T ->
  Pd.assoc column (df_columns T) = Some s ->
  exists (r1 : ref) (w1 : World) (T1 : DataFrame),
    run (filter_by_different_char_count df column char_count) w
    = (Ret r1, w1)
    /\ heap w1 !! r1 = Some T1
    /\ run (filter_by_different_char_count r1 column char_count) w1
       = (Ret (length (heap w1)), Spec.allocated [T1] w1).
Proof.
  intros Hheap Hwf Hs.
  pose proof (well_formed_rectangular _ Hwf) as Hrect.
  pose proof (rectangular_astype _ _ _ Hrect Hs) as Hrect'.
  set (T' := Pd.setitem column (Pd.astype_str s) T) in *.
  set (mask := Spec.length_mask char_count (s_values s)).
  set (R := Pd.select mask T').
  set (w1 := Spec.allocated [R] (Spec.mutated df T' w)).
  assert (Hnew : heap w1 !! length (heap w) = Some R).
  { unfold w1. simpl. rewrite lookup_app_r, length_insert, Nat.sub_diag;
      [done | by rewrite length_insert]. }
  assert (HsR : Pd.assoc column (df_columns R)
                = Some (mkSeries object
                          (Pd.take_mask mask
                             (map Spec.stringified (s_values s))))).
  { unfold R, T'. by rewrite assoc_select, assoc_setitem. }
  exists (length (heap w)), w1, R.
  split; [by apply run_filter_by_different_char_count|].
  split; [done|].
  rewrite (run_filter_by_different_char_count _ _ R _ _ _ Hnew HsR).
  cbv zeta. simpl s_values. rewrite astype_str_of_kept.
  rewrite (setitem_same _ _ _ HsR), (mutated_same _ _ _ Hnew).
  unfold mask. rewrite length_mask_of_kept.
  rewrite select_all; [done | by apply rectangular_select |].
  unfold R. simpl. apply length_take_mask_same.
  rewrite length_map. unfold T'. simpl.
  by apply (assoc_length column).
Qed.

Lemma filter_by_different_char_count_idempotent_witness :
  exists r1 w1,
    run (filter_by_different_char_count 0%nat "id" 1) Sample.world
    = (Ret r1, w1).
Proof.
  destruct (filter_by_different_char_count_idempotent
              Sample.world 0%nat Sample.customers "id" _ 1
              eq_refl sample_customers_well_formed eq_refl)
    as (r1 & w1 & _ & H & _).
  by exists r1, w1.
Defined.

(* ================================================================== *)
(** ** strip_dataframe, again *)
(* ================================================================== *)

Lemma strip_trimmed t : Laws.trimmed (PyStr.strip t).
Proof.
  unfold Laws.trimmed. rewrite strip_chars, chars_of_chars.
  destruct (stripped_cases (PyStr.chars t))
    as [[-> _]|(c & m & Hc & Hstr & _)]; [done|].
  rewrite Hstr. split; [done|]. rewrite <- Hstr. unfold Spec.stripped.
  destruct (drop_spaces_head (rev (PyStr.drop_spaces (PyStr.chars t))))
    as [E|(c' & k & E & Hc')].
  - unfold Spec.stripped in Hstr. by rewrite E in Hstr.
  - rewrite E. simpl. exists c'. by rewrite last_snoc.
Qed.

Lemma apply_columns_strip cols cols1 :
  Pd.apply_columns strip_column cols = Ret cols1 ->
  map fst cols1 = map fst cols
  /\ forall column s1,
       Pd.assoc column cols1 = Some s1 ->
       exists s, Pd.assoc column cols = Some s /\ strip_column s = Ret s1.
Proof.
  revert cols1. induction cols as [|[name s] cols IH]; intros cols1; simpl.
  - intros [= <-]. by split.
  - destruct (strip_column s) as [s1|] eqn:Hs; [|done]. simpl.
    destruct (Pd.apply_columns strip_column cols) as [rest|]; [|done]. simpl.
    intros [= <-]. destruct (IH rest eq_refl) as [Hnames Hcols].
    split; [simpl; by rewrite Hnames|].
    intros column s1'. simpl.
    destruct (String.eqb name column).
    + intros [= <-]. by exists s.
    + apply Hcols.
Qed.

Lemma strip_column_cases s s1 :
  strip_column s = Ret s1 ->
  (s_dtype s <> object -> s1 = s)
  /\ (s_dtype s = object ->
      length (s_values s1) = length (s_values s)
      /\ (Laws.holds_text s ->
          s_dtype s1 = object
          /\ s_values s1 = map Pd.str_strip_value (s_values s))
      /\ (forall i t,
            s_values s !! i = Some (VStr t) ->
            s_values s1 !! i = Some (VStr (PyStr.strip t)))
      /\ (forall i v,
            s_values s !! i = Some v -> Py.is_str v = false ->
            exists v', s_values s1 !! i = Some v' /\ Pd.isna v' = true)
      /\ forall i t, s_values s1 !! i = Some (VStr t) -> Laws.trimmed t).
Proof.
  unfold strip_column. destruct (decide (s_dtype s = object)) as [Hobj|Hobj];
    [|intros [= <-]; by split].
  unfold Pd.str_strip. destruct (Pd.str_accessor_ok s); [|done].
  assert (Htext : forall vs i t,
             forallb Pd.isna vs = true -> vs !! i = Some (VStr t) -> False).
  { intros vs i t Hna Hi. by pose proof (forallb_lookup _ _ _ _ Hna Hi). }
  assert (Hstrip : forall i t,
             s_values s !! i = Some (VStr t) ->
             map Pd.str_strip_value (s_values s) !! i
             = Some (VStr (PyStr.strip t))).
  { intros i t Hi. by rewrite list_lookup_fmap, Hi. }
  assert (Htrim : forall i t,
             map Pd.str_strip_value (s_values s) !! i = Some (VStr t) ->
             Laws.trimmed t).
  { intros i t Hi. rewrite list_lookup_fmap in Hi.
    destruct (s_values s !! i) as [[u| | | |]|]; simpl in Hi; try done.
    injection Hi as <-. apply strip_trimmed. }
  destruct (forallb Pd.isna (s_values s)) eqn:Hna.
  - intros [= <-]. split; [done|]. intros _. simpl.
    split; [done|]. split; [|split; [|split]].
    + intros (i & t & Hi). by destruct (Htext _ _ _ Hna Hi).
    + intros i t Hi. by destruct (Htext _ _ _ Hna Hi).
    + intros i v Hi _. exists v. split; [done|].
      by apply (forallb_lookup _ _ _ _ Hna Hi).
    + intros i t Hi. by destruct (Htext _ _ _ Hna Hi).
  - destruct (convert_stripped (s_values s)) as [[E ->]|[_ ->]];
      intros [= <-]; (split; [done|]); intros _; simpl.
    + rewrite !length_map. split; [done|]. split; [|split; [|split]].
      * intros (i & t & Hi). by destruct (Htext _ _ _ E (Hstrip _ _ Hi)).
      * intros i t Hi. by destruct (Htext _ _ _ E (Hstrip _ _ Hi)).
      * intros i v Hi _. exists VNaN. by rewrite !list_lookup_fmap, Hi.
      * intros i t Hi. rewrite list_lookup_fmap in Hi.
        by destruct (_ !! i).
    + rewrite length_map. split; [done|]. split; [done|].
      split; [done|]. split; [|done].
      intros i v Hi Hv. exists (Pd.str_strip_value v).
      rewrite list_lookup_fmap, Hi. by destruct v.
Qed.

(** A column of objects none of which is a text: the numbers and the
    booleans become [nan], and with them [None]; a column of missing
    values only is left as it is. *)
Example strip_column_without_text :
  strip_column (mkSeries object [VInt 1; VBool true; VNone])
  = Ret (mkSeries float64 [VNaN; VNaN; VNaN])
  /\ strip_column (mkSeries object [VNone; VNaN])
     = Ret (mkSeries object [VNone; VNaN])
  /\ strip_column (mkSeries object [VStr " a "; VInt 1; VNone])
     = Ret (mkSeries object [VStr "a"; VNaN; VNone]).
Proof. by vm_compute. Qed.

(** X15. When [strip_dataframe] returns, it has left the caller's frame
    alone and built a new frame with the same index and column names; a
    column that is not of dtype object is the column it was.  A column of
    dtype object keeps its length; each of its text cells holds the input
    text stripped, without white space at either end, and each other cell
    is missing afterwards.  When the column holds a text it stays of dtype
    object, with [None] and [nan] where they were and [nan] for any other
    value.  When the call raises, the store is as it was. *)
Theorem strip_dataframe_trims_text
    (w : World) (df : ref) (T : DataFrame) :
  heap w !! df = Some T ->
  match run (strip_dataframe df) w with
  | (Ret r, w') =>
      exists T1 : DataFrame,
        r = length (heap w)
        /\ w' = Spec.allocated [T1] w
        /\ df_index T1 = df_index T
        /\ Pd.column_names T1 = Pd.column_names T
        /\ forall column s1,
             Pd.assoc column (df_columns T1) = Some s1 ->
             exists s,
               Pd.assoc column (df_columns T) = Some s
               /\ (s_dtype s <> object -> s1 = s)
               /\ (s_dtype s = object ->
                   length (s_values s1) = length (s_values s)
                   /\ (Laws.holds_text s ->
                       s_dtype s1 = object
                       /\ s_values s1 = map Pd.str_strip_value (s_values s))
                   /\ (forall i t,
                         s_values s !! i = Some (VStr t) ->
                         s_values s1 !! i = Some (VStr (PyStr.strip t)))
                   /\ (forall i v,
                         s_values s !! i = Some v -> Py.is_str v = false ->
                         exists v',
                           s_values s1 !! i = Some v' /\ Pd.isna v' = true)
                   /\ forall i t,
                        s_values s1 !! i = Some (VStr t) -> Laws.trimmed t)
  | (Exc e, w') => w' = w
  end.
Proof.
  intros Hheap. unfold strip_dataframe.
  rewrite run_bind, (run_deref _ _ _ Hheap), run_bind, run_lift.
  unfold Pd.frame_apply.
  destruct (Pd.apply_columns strip_column (df_columns T)) as [cols1|] eqn:H;
    simpl; [|done].
  destruct (apply_columns_strip _ _ H) as [Hnames Hcols].
  eexists. split; [done|]. split; [done|]. split; [done|].
  split; [done|]. simpl. intros column s1 Hs1.
  destruct (Hcols column s1 Hs1) as (s & Hs & Hstrip).
  exists s. split; [done|]. by apply strip_column_cases.
Qed.

Lemma strip_dataframe_trims_text_witness :
  fst (run (strip_dataframe 0%nat) Sample.world) = Ret 1%nat.
Proof.
  pose proof (strip_dataframe_trims_text
                Sample.world 0%nat Sample.customers eq_refl) as H.
  destruct (run (strip_dataframe 0%nat) Sample.world) as [[r|e] w'] eqn:E.
  - destruct H as (T1 & -> & _). reflexivity.
  - vm_compute in E. discriminate E.
Defined.

(* ================================================================== *)
(** ** dataframe_to_excel, again *)
(* ================================================================== *)

Section sheets.

Local Open Scope nat_scope.

Lemma rows_of_widths idx (cols : list (list value)) :
  Forall (fun r => length (snd r) = length cols) (Pd.rows_of idx cols).
Proof.
  revert cols. induction idx as [|i idx IH]; intros cols; simpl.
  - constructor.
  - constructor; [simpl; by rewrite length_map|].
    specialize (IH (map tail cols)). by rewrite length_map in IH.
Qed.

Lemma foldr_max_uniform (rows : list (list value)) n :
  rows <> [] ->
  Forall (fun r => length r = n) rows ->
  foldr Nat.max 0 (map (@length value) rows) = n.
Proof.
  intros Hne Hrows. induction Hrows as [|r rows Hr Hrows IH]; [done|].
  simpl. destruct rows as [|r' rows'].
  - simpl. lia.
  - rewrite IH by done. lia.
Qed.

Lemma enumerate_from_seq {A} (g : nat -> A) (a : Z) b n :
  Xl.enumerate_from a (map g (seq b n))
  = map (fun j => ((a + Z.of_nat j - Z.of_nat b)%Z, g j)) (seq b n).
Proof.
  revert a b. induction n as [|n IH]; intros a b; simpl; [done|].
  f_equal; [f_equal; lia|].
  rewrite IH. apply map_ext. intros j. f_equal. lia.
Qed.

Lemma omap_succeeds {A B} (f : A -> outcome B) l :
  Forall (fun x => exists y, f x = Ret y) l ->
  exists ys, omap f l = Ret ys /\ length ys = length l.
Proof.
  induction 1 as [|x l [y Hy] _ (ys & Hys & Hlen)]; simpl.
  - by exists [].
  - rewrite Hy, Hys. simpl. exists (y :: ys). simpl. by rewrite Hlen.
Qed.

Lemma get_column_letter_succeeds (i : Z) :
  (1 <= i <= 18278)%Z -> exists letter, Xl.get_column_letter i = Ret letter.
Proof.
  intros Hi. unfold Xl.get_column_letter.
  destruct (Z.leb_spec 1 i), (Z.leb_spec i 18278); try lia.
  simpl. by eexists.
Qed.

Lemma max_length_succeeds name col :
  name <> "" -> exists m, Xl.max_length (VStr name :: col) = Ret m.
Proof.
  intros Hname. unfold Xl.max_length. simpl.
  destruct (String.eqb_spec name ""); [done|]. simpl. by eexists.
Qed.

Lemma column_width_succeeds (i : Z) name col :
  (1 <= i <= 18278)%Z -> name <> "" ->
  exists entry, column_width (i, VStr name :: col) = Ret entry.
Proof.
  intros Hi Hname. unfold column_width.
  destruct (max_length_succeeds name col Hname) as [m ->].
  destruct (get_column_letter_succeeds i Hi) as [letter ->].
  simpl. by eexists.
Qed.

(** Every column of the sheet of a frame with named columns gets a
    width. *)
Lemma column_widths_exist (names : list string) (data : list (list value)) :
  1 <= length names <= 26 ->
  Forall (fun name => name <> "") names ->
  Forall (fun r => length r = length names) data ->
  exists widths,
    omap column_width
      (Xl.enumerate_from 1 (Xl.ws_columns (map VStr names :: data)))
    = Ret widths
    /\ length widths = length names.
Proof.
  intros Hn Hnames Hdata.
  assert (Hmax : Xl.max_column (map VStr names :: data) = length names).
  { unfold Xl.max_column. rewrite (foldr_max_uniform _ (length names)).
    - lia.
    - done.
    - constructor; [by rewrite length_map | done]. }
  unfold Xl.ws_columns. rewrite Hmax, enumerate_from_seq.
  destruct (omap_succeeds column_width
              (map (fun j =>
                      ((1 + Z.of_nat j - Z.of_nat 0)%Z,
                       map (fun r => default VNone (r !! j))
                         (map VStr names :: data)))
                   (seq 0 (length names)))) as (widths & Hw & Hlen).
  - apply Forall_fmap, Forall_forall. intros j Hj.
    apply elem_of_seq in Hj. cbv beta.
    destruct (lookup_lt_is_Some_2 names j ltac:(lia)) as [name Hname].
    unfold compose. cbn [map]. change (map VStr names) with (VStr <$> names).
    rewrite list_lookup_fmap, Hname. cbn [fmap option_fmap option_map default].
    apply column_width_succeeds; [lia|].
    rewrite Forall_forall in Hnames. apply Hnames.
    by eapply list_elem_of_lookup_2.
  - exists widths. split; [done|].
    by rewrite Hlen, length_map, length_seq.
Qed.

End sheets.

(** *** Cells that keep what they are given *)

Lemma bind_value_plain v : Laws.plain v = true -> Xl.bind_value v = Ret v.
Proof.
  destruct v as [s| | | |]; try done. unfold Laws.plain, Xl.bind_value.
  intros [Hlen Hlegal]%andb_prop. apply Z.leb_le in Hlen.
  assert (Hcut : PyStr.slice_to 32767 s = s).
  { unfold PyStr.slice_to. destruct (Z.ltb_spec 32767 0) as [|_]; [lia|].
    rewrite Z.min_r by done. unfold PyStr.len. rewrite Nat2Z.id.
    by rewrite <- length_chars, firstn_all, of_chars_chars. }
  cbv zeta. rewrite Hcut. apply negb_true_iff in Hlegal. by rewrite Hlegal.
Qed.

Lemma append_row_plain row :
  Forall (fun v => Laws.plain v = true) row -> Xl.append_row row = Ret row.
Proof.
  intros H. unfold Xl.append_row.
  rewrite (omap_total _ id), map_id; [done|].
  intros v Hv. rewrite Forall_forall in H. by apply bind_value_plain, H.
Qed.

Lemma rows_of_cells (P : value -> Prop) idx (cols : list (list value)) :
  P VNaN ->
  Forall (Forall P) cols ->
  Forall (fun r => Forall P (snd r)) (Pd.rows_of idx cols).
Proof.
  intros Hnan. revert cols.
  induction idx as [|i idx IH]; intros cols Hcols; simpl; constructor.
  - simpl. apply Forall_fmap. eapply Forall_impl; [exact Hcols|].
    intros [|v c] Hc; simpl; [done|]. by inversion Hc.
  - apply IH, Forall_fmap. eapply Forall_impl; [exact Hcols|].
    intros [|v c] Hc; simpl; [done|]. by inversion Hc.
Qed.

(** The sheet of a plain frame holds its names and its rows. *)
Lemma append_rows_plain T :
  Laws.plain_frame T = true ->
  Xl.append_row (map VStr (Pd.column_names T))
  = Ret (map VStr (Pd.column_names T))
  /\ omap Xl.append_row (map snd (Pd.rows T)) = Ret (map snd (Pd.rows T)).
Proof.
  unfold Laws.plain_frame. rewrite forallb_forall. intros H.
  assert (Hcols : forall c, c ∈ df_columns T ->
            Laws.plain (VStr (fst c)) = true
            /\ Forall (fun v => Laws.plain v = true) (s_values (snd c))).
  { intros c Hc. apply list_elem_of_In, H in Hc.
    apply andb_prop in Hc as [Hname Hcells]. split; [done|].
    rewrite forallb_forall in Hcells. apply Forall_forall.
    intros v Hv. by apply Hcells, list_elem_of_In. }
  split.
  - apply append_row_plain. unfold Pd.column_names.
    rewrite <- list_fmap_compose. apply Forall_fmap, Forall_forall.
    intros c Hc. by apply Hcols.
  - rewrite (omap_total _ id), map_id; [done|].
    intros row Hrow. apply append_row_plain.
    apply list_elem_of_fmap in Hrow as (r & -> & Hr).
    assert (Hrows : Forall (fun r => Forall (fun v => Laws.plain v = true)
                                     (snd r)) (Pd.rows T)).
    { apply rows_of_cells; [done|].
      apply Forall_fmap, Forall_forall. intros c Hc. by apply Hcols. }
    rewrite Forall_forall in Hrows. by apply Hrows.
Qed.

(** *** Regions that [Table] accepts *)

Lemma string_of_uint_digits d :
  Forall (fun c => PyStr.isdecimal c = true)
    (PyStr.chars (NilEmpty.string_of_uint d)).
Proof. induction d; simpl; by constructor. Qed.

(** The decimal text of a positive number is made of digits. *)
Lemma of_int_digits z :
  0 < z -> Forall (fun c => PyStr.isdecimal c = true) (PyStr.chars (PyStr.of_int z)).
Proof.
  destruct z as [|p|p]; try lia. intros _. apply string_of_uint_digits.
Qed.

Lemma upper_char_digit c :
  PyStr.isdecimal c = true -> Xl.upper_char c = Some [c].
Proof. destruct c as [[] [] [] [] [] [] [] []]; vm_compute; done. Qed.

Lemma upper_char_capital c :
  PyStr.between 65 90 c = true -> Xl.upper_char c = Some [c].
Proof. destruct c as [[] [] [] [] [] [] [] []]; vm_compute; done. Qed.

Lemma capital_range_letter c :
  PyStr.between 65 90 c = true ->
  Xl.is_range_letter c = true /\ Xl.skip_dollar [c] = [c].
Proof. destruct c as [[] [] [] [] [] [] [] []]; vm_compute; done. Qed.

Lemma digit_no_range_letter c :
  PyStr.isdecimal c = true ->
  Xl.is_range_letter c = false /\ Xl.skip_dollar [c] = [c].
Proof. destruct c as [[] [] [] [] [] [] [] []]; vm_compute; done. Qed.

Lemma skip_dollar_head c l :
  Xl.skip_dollar [c] = [c] -> Xl.skip_dollar (c :: l) = c :: l.
Proof. destruct c as [[] [] [] [] [] [] [] []]; vm_compute; done. Qed.

Lemma upper_chars_fixed l :
  Forall (fun c => Xl.upper_char c = Some [c]) l -> Xl.upper_chars l = Some l.
Proof. induction 1 as [|c l Hc _ IH]; simpl; [done|]. by rewrite Hc, IH. Qed.

Lemma span_digits l :
  Forall (fun c => PyStr.isdecimal c = true) l ->
  Xl.span PyStr.isdecimal l = (l, []).
Proof. induction 1 as [|c l Hc _ IH]; simpl; [done|]. by rewrite Hc, IH. Qed.

Lemma span_letters_digits l :
  Forall (fun c => PyStr.isdecimal c = true) l ->
  Xl.span Xl.is_range_letter l = ([], l).
Proof.
  destruct 1 as [|c l Hc _]; simpl; [done|].
  by destruct (digit_no_range_letter c Hc) as [-> _].
Qed.

Lemma skip_dollar_digits l :
  Forall (fun c => PyStr.isdecimal c = true) l -> Xl.skip_dollar l = l.
Proof.
  destruct 1 as [|c l Hc _]; [done|].
  apply skip_dollar_head. by destruct (digit_no_range_letter c Hc).
Qed.

(** From A1 to a cell of one of the columns A to Z is a cell range. *)
Lemma matches_cells_region c ds :
  PyStr.between 65 90 c = true ->
  Forall (fun c => PyStr.isdecimal c = true) ds ->
  Xl.matches_cells ("A" :: "1" :: ":" :: c :: ds)%char = true.
Proof.
  intros Hc Hds. destruct (capital_range_letter c Hc) as [Hletter Hdollar].
  unfold Xl.matches_cells.
  change (Xl.after_letters (Xl.skip_dollar ("A" :: "1" :: ":" :: c :: ds)%char))
    with (Some ("1" :: ":" :: c :: ds)%char).
  cbv beta iota.
  change (Xl.span PyStr.isdecimal (Xl.skip_dollar ("1" :: ":" :: c :: ds)%char))
    with (["1"%char], (":" :: c :: ds)%char).
  cbv beta iota.
  rewrite (skip_dollar_head c ds Hdollar).
  unfold Xl.after_letters. cbn [Xl.span]. rewrite Hletter.
  rewrite (span_letters_digits ds Hds). cbn [length Nat.leb andb].
  by rewrite (skip_dollar_digits ds Hds), (span_digits ds Hds).
Qed.

Lemma Table_region name c rows :
  PyStr.between 65 90 c = true ->
  Forall (fun c => PyStr.isdecimal c = true) (PyStr.chars rows) ->
  Xl.Table_ name ("A1:" +:+ String c "" +:+ rows)
  = Ret (Xl.mkTable name ("A1:" +:+ String c "" +:+ rows) None).
Proof.
  intros Hc Hrows. unfold Xl.Table_.
  change (PyStr.chars ("A1:" +:+ String c "" +:+ rows))
    with ("A" :: "1" :: ":" :: c :: PyStr.chars rows)%char.
  rewrite upper_chars_fixed.
  - unfold Xl.matches_cell_range. rewrite chars_of_chars.
    rewrite (matches_cells_region c _ Hc Hrows). simpl orb. cbv iota.
    do 2 f_equal. change (PyStr.of_chars (?a :: ?b :: ?e :: c :: ?l))
      with (String a (String b (String e (String c (PyStr.of_chars l))))).
    by rewrite of_chars_chars.
  - do 3 (constructor; [by vm_compute|]).
    constructor; [by apply upper_char_capital|].
    eapply Forall_impl; [exact Hrows|]. apply upper_char_digit.
Qed.

(** The letter that [chr] gives for 1 to 26 columns. *)
Lemma table_ref_letter T :
  (1 <= Pd.ncols T <= 26)%nat ->
  exists c,
    PyStr.between 65 90 c = true
    /\ table_ref T
       = Ret ("A1:" +:+ String c "" +:+ PyStr.of_int (Z.of_nat (Pd.nrows T) + 1))
    /\ Xl.get_column_letter (Z.of_nat (Pd.ncols T)) = Ret (String c "").
Proof.
  intros Hn. unfold table_ref.
  generalize (PyStr.of_int (Z.of_nat (Pd.nrows T) + 1)). intros rows.
  generalize dependent (Pd.ncols T). intros n Hn.
  do 27 (destruct n as [|n];
         [first [lia | eexists; split; [|split]; [|reflexivity|];
                       by vm_compute]|]).
  lia.
Qed.

(** A frame without columns asks for a region that ends at the character
    before A, which [Table] refuses. *)
Lemma Table_no_columns name rows :
  exists msg, Xl.Table_ name ("A1:@" +:+ rows) = Exc (ValueError msg).
Proof.
  unfold Xl.Table_.
  change (PyStr.chars ("A1:@" +:+ rows))
    with ("A" :: "1" :: ":" :: "@" :: PyStr.chars rows)%char.
  assert (Hup : Xl.upper_chars ("A" :: "1" :: ":" :: "@" :: PyStr.chars rows)%char
                = match Xl.upper_chars (PyStr.chars rows) with
                  | Some us => Some ("A" :: "1" :: ":" :: "@" :: us)%char
                  | None => None
                  end).
  { cbn [Xl.upper_chars]. by destruct (Xl.upper_chars (PyStr.chars rows)). }
  rewrite Hup.
  destruct (Xl.upper_chars (PyStr.chars rows)) as [us|]; [|by eexists].
  unfold Xl.matches_cell_range. rewrite chars_of_chars.
  change (Xl.matches_cells ("A" :: "1" :: ":" :: "@" :: us)%char) with false.
  change (Xl.matches_columns ("A" :: "1" :: ":" :: "@" :: us)%char) with false.
  by eexists.
Qed.

Lemma build_sheet_no_columns T :
  df_columns T = [] -> exists msg, build_sheet T = Exc (ValueError msg).
Proof.
  intros Hcols. unfold build_sheet.
  destruct (append_rows_plain T) as [-> ->].
  { unfold Laws.plain_frame. by rewrite Hcols. }
  simpl obind. unfold table_ref, Pd.ncols. rewrite Hcols.
  change (PyStr.chr (65 + Z.of_nat (length (@nil (string * Series))) - 1))
    with (Some "@"%char).
  cbv iota. unfold obind at 1.
  destruct (Table_no_columns "DataTable"
              (PyStr.of_int (Z.of_nat (Pd.nrows T) + 1))) as [msg Hmsg].
  change ("A1:" +:+ String "@" "" +:+ ?r) with ("A1:@" +:+ r).
  rewrite Hmsg. by exists msg.
Qed.

(** X16. [dataframe_to_excel] on a frame without columns writes no file,
    whatever the system allows: the region it asks for is refused by
    [Table], or the directory was refused before; it prints one line
    starting with "Error exporting to Excel: " and returns [None], leaving
    the frames and the files as they were. *)
Theorem dataframe_to_excel_without_columns
    (os : OS) (w : World) (df : ref) (T : DataFrame)
    (directory file_name : string) :
  heap w !! df = Some T ->
  df_columns T = [] ->
  (exists msg, build_sheet T = Exc (ValueError msg))
  /\ exists (line : string) (dirs' : list string),
       run (dataframe_to_excel os df directory file_name) w
       = (Ret None, Laws.export_failed line dirs' w)
       /\ files (Laws.export_failed line dirs' w) = files w
       /\ heap (Laws.export_failed line dirs' w) = heap w
       /\ stdout (Laws.export_failed line dirs' w)
          = stdout w ++ ["Error exporting to Excel: " +:+ line].
Proof.
  intros Hheap Hcols.
  destruct (build_sheet_no_columns T Hcols) as [msg Hbuild].
  split; [by exists msg|].
  destruct (dataframe_to_excel_gives_up os w df T directory file_name _
              Hheap Hbuild) as (line & dirs' & H).
  by exists line, dirs'.
Qed.

Lemma dataframe_to_excel_without_columns_witness :
  exists line w',
    run (dataframe_to_excel Laws.willing 0%nat "out" "empty.xlsx")
        (mkWorld [mkFrame [0; 1] []] [] [] [])
    = (Ret None, w')
    /\ stdout w' = ["Error exporting to Excel: " +:+ line].
Proof.
  destruct (dataframe_to_excel_without_columns Laws.willing
              (mkWorld [mkFrame [0; 1] []] [] [] []) 0%nat (mkFrame [0; 1] [])
              "out" "empty.xlsx" eq_refl eq_refl)
    as (_ & line & dirs' & H & _).
  exists line,
    (Laws.export_failed line dirs' (mkWorld [mkFrame [0; 1] []] [] [] [])).
  by split.
Defined.

(** The sheet of a plain frame of 1 to 26 named columns. *)
Lemma build_sheet_within_alphabet T :
  (1 <= Pd.ncols T <= 26)%nat ->
  Forall (fun name => name <> "") (Pd.column_names T) ->
  Laws.plain_frame T = true ->
  exists (region : string) (widths : list (string * Z)),
    Spec.table_region (Pd.ncols T) (Pd.nrows T) = Ret region
    /\ length widths = Pd.ncols T
    /\ build_sheet T
       = Ret (Xl.mkSheet "extracted_data"
                (map VStr (Pd.column_names T) :: map snd (Pd.rows T))
                [1%nat]
                [Xl.with_style table_style
                   (Xl.mkTable "DataTable" region None)]
                widths).
Proof.
  intros Hn Hnames Hplain.
  destruct (table_ref_letter T Hn) as (c & Hc & Href & Hletter).
  destruct (column_widths_exist (Pd.column_names T) (map snd (Pd.rows T)))
    as (widths & Hwidths & Hlen).
  { unfold Pd.ncols in Hn. unfold Pd.column_names. by rewrite length_map. }
  { done. }
  { apply Forall_fmap. unfold Pd.rows, Pd.column_names.
    eapply Forall_impl; [apply rows_of_widths|].
    simpl. intros r Hr. by rewrite Hr, !length_map. }
  eexists _, widths. split; [|split].
  - unfold Spec.table_region. by rewrite Hletter.
  - rewrite Hlen. unfold Pd.column_names, Pd.ncols. by rewrite length_map.
  - unfold build_sheet. destruct (append_rows_plain T Hplain) as [-> ->].
    rewrite Href. simpl obind.
    rewrite (Table_region "DataTable" c _ Hc)
      by (apply of_int_digits; lia).
    simpl obind. by rewrite Hwidths.
Qed.

(** X17. For a frame of 1 to 26 columns, none with an empty name, whose
    names and cells a sheet keeps as they are (no text of more than 32767
    characters or with an illegal control character), a directory that is
    named and that the system lets be created, and a path it lets be
    written, [dataframe_to_excel] prints nothing and returns the joined
    path; the file written there is one sheet "extracted_data" whose first
    row, in bold, holds the column names, whose next rows are the rows of
    the frame, whose only table is "DataTable", striped, over A1 to the
    letter of the last column and the number of rows plus one, and which
    gives every column a width. *)
Theorem dataframe_to_excel_writes_sheet
    (os : OS) (w : World) (df : ref) (T : DataFrame)
    (directory file_name : string) :
  heap w !! df = Some T ->
  (1 <= Pd.ncols T <= 26)%nat ->
  Forall (fun name => name <> "") (Pd.column_names T) ->
  Laws.plain_frame T = true ->
  directory <> "" ->
  refuses_directory os directory = None ->
  refuses_file os (path_join directory file_name) = None ->
  exists (ws : Xl.Worksheet) (region : string),
    run (dataframe_to_excel os df directory file_name) w
    = (Ret (Some (path_join directory file_name)),
       Laws.exported directory (path_join directory file_name) ws w)
    /\ Xl.title ws = "extracted_data"
    /\ Xl.cells ws = map VStr (Pd.column_names T) :: map snd (Pd.rows T)
    /\ Xl.bold_rows ws = [1%nat]
    /\ Spec.table_region (Pd.ncols T) (Pd.nrows T) = Ret region
    /\ Xl.tables ws = [Xl.mkTable "DataTable" region (Some table_style)]
    /\ length (Xl.column_widths ws) = Pd.ncols T.
Proof.
  intros Hheap Hn Hnames Hplain Hdir Hmk Hsave.
  destruct (build_sheet_within_alphabet T Hn Hnames Hplain)
    as (region & widths & Hregion & Hlen & Hbuild).
  eexists _, region. split.
  - unfold dataframe_to_excel.
    rewrite run_try_except, run_bind, run_makedirs.
    destruct (String.eqb_spec directory ""); [done|]. rewrite Hmk.
    rewrite run_bind, (run_deref _ _ T) by done.
    rewrite run_bind, run_lift, Hbuild.
    rewrite run_bind, run_save. simpl dirs. simpl files. by rewrite Hsave.
  - by repeat split.
Qed.

Lemma dataframe_to_excel_writes_sheet_witness :
  fst (run (dataframe_to_excel Laws.willing 0%nat "out" "customers.xlsx")
         Sample.world)
  = Ret (Some "out/customers.xlsx").
Proof.
  destruct (dataframe_to_excel_writes_sheet Laws.willing
              Sample.world 0%nat Sample.customers "out" "customers.xlsx"
              eq_refl)
    as (ws & region & H & _).
  - vm_compute. lia.
  - repeat constructor; discriminate.
  - reflexivity.
  - discriminate.
  - reflexivity.
  - reflexivity.
  - exact (f_equal fst H).
Defined.

(** What building a sheet can raise, as long as the character the region
    is built from stays below code point 256. *)
Lemma omap_raises {A B} (P : exn -> Prop) (f : A -> outcome B) l e :
  (forall x e, f x = Exc e -> P e) -> omap f l = Exc e -> P e.
Proof.
  intros Hf. induction l as [|x l IH]; simpl; [done|].
  destruct (f x) as [y|e'] eqn:Hx; simpl.
  - destruct (omap f l) as [ys|e']; simpl; [done|].
    intros [= <-]. by apply IH.
  - intros [= <-]. by apply (Hf x).
Qed.

Lemma bind_value_raises v e :
  Xl.bind_value v = Exc e -> exists msg, e = IllegalCharacterError msg.
Proof.
  destruct v as [s| | | |]; try done. unfold Xl.bind_value. cbv zeta.
  destruct (existsb _ _); [|done]. intros [= <-]. by eexists.
Qed.

Lemma column_width_raises entry e :
  column_width entry = Exc e -> exists msg, e = ValueError msg.
Proof.
  destruct entry as [i col]. unfold column_width, Xl.max_length, Xl.py_max.
  destruct (map _ _); simpl; [intros [= <-]; by eexists|].
  unfold Xl.get_column_letter. destruct (_ && _); simpl; [done|].
  intros [= <-]. by eexists.
Qed.

Lemma build_sheet_raises T e :
  (Pd.ncols T <= 191)%nat ->
  build_sheet T = Exc e ->
  exists msg, e = ValueError msg \/ e = IllegalCharacterError msg.
Proof.
  intros Hn. unfold build_sheet.
  destruct (Xl.append_row _) as [header|e1] eqn:Hheader; simpl.
  2:{ intros [= <-].
      destruct (omap_raises (fun e => exists msg, e = IllegalCharacterError msg)
                  _ _ _ bind_value_raises Hheader) as [msg ->].
      exists msg. by right. }
  destruct (omap Xl.append_row _) as [data|e1] eqn:Hdata; simpl.
  2:{ intros [= <-].
      destruct (omap_raises (fun e => exists msg, e = IllegalCharacterError msg)
                  Xl.append_row _ _
                  (fun row e =>
                     omap_raises _ Xl.bind_value row e bind_value_raises)
                  Hdata) as [msg ->].
      exists msg. by right. }
  unfold table_ref, PyStr.chr.
  destruct (Z.leb_spec 0 (65 + Z.of_nat (Pd.ncols T) - 1)); [|lia].
  destruct (Z.ltb_spec (65 + Z.of_nat (Pd.ncols T) - 1) 256); [|lia].
  simpl andb. cbv iota. simpl obind.
  unfold Xl.Table_ at 1.
  destruct (Xl.upper_chars _) as [value|]; simpl.
  2:{ intros [= <-]. eexists. by left. }
  destruct (Xl.matches_cell_range _); simpl.
  2:{ intros [= <-]. eexists. by left. }
  destruct (omap column_width _) as [widths|e1] eqn:Hwidths; simpl; [done|].
  intros [= <-].
  destruct (omap_raises (fun e => exists msg, e = ValueError msg)
              _ _ _ column_width_raises Hwidths) as [msg ->].
  exists msg. by left.
Qed.

(** X18. On a frame of at most 26 columns [dataframe_to_excel] never
    raises.  It returns the joined path only when the directory is named,
    the system let it be created and the path be written, and the sheet
    could be built; that sheet is then the file at the path.  Otherwise it
    returns [None], having printed one line starting with "Error exporting
    to Excel: " and written no file. *)
Theorem dataframe_to_excel_never_raises
    (os : OS) (w : World) (df : ref) (T : DataFrame)
    (directory file_name : string) :
  heap w !! df = Some T ->
  (Pd.ncols T <= 26)%nat ->
  match run (dataframe_to_excel os df directory file_name) w with
  | (Ret (Some path), w') =>
      path = path_join directory file_name
      /\ directory <> ""
      /\ refuses_directory os directory = None
      /\ refuses_file os path = None
      /\ exists ws,
           build_sheet T = Ret ws
           /\ w' = Laws.exported directory path ws w
           /\ files w' !! 0%nat = Some (path, ws)
  | (Ret None, w') =>
      (directory = ""
       \/ refuses_directory os directory <> None
       \/ (exists e msg,
             build_sheet T = Exc e
             /\ (e = ValueError msg \/ e = IllegalCharacterError msg))
       \/ refuses_file os (path_join directory file_name) <> None)
      /\ exists line dirs',
           w' = Laws.export_failed line dirs' w /\ files w' = files w
  | (Exc e, w') => False
  end.
Proof.
  intros Hheap Hn. unfold dataframe_to_excel.
  rewrite run_try_except, run_bind, run_makedirs.
  destruct (String.eqb_spec directory "") as [Hdir|Hdir].
  { split; [by left | by eexists _, _]. }
  destruct (refuses_directory os directory) as [msg|] eqn:Hmk.
  { split; [right; by left | by eexists _, _]. }
  rewrite run_bind, (run_deref _ _ T) by done.
  rewrite run_bind, run_lift.
  destruct (build_sheet T) as [ws|e] eqn:Hbuild.
  2:{ split; [right; right; left | by eexists _, _].
      destruct (build_sheet_raises T e ltac:(lia) Hbuild) as [msg He].
      by exists e, msg. }
  rewrite run_bind, run_save.
  destruct (refuses_file os (path_join directory file_name)) as [msg|] eqn:Hsave.
  { split; [by do 3 right | by eexists _, _]. }
  split; [done|]. split; [done|]. split; [done|]. split; [done|].
  by exists ws.
Qed.

Lemma dataframe_to_excel_never_raises_witness :
  fst (run (dataframe_to_excel Laws.willing 0%nat "" "customers.xlsx")
         Sample.world)
  = Ret None.
Proof.
  pose proof (dataframe_to_excel_never_raises Laws.willing
                Sample.world 0%nat Sample.customers "" "customers.xlsx"
                eq_refl ltac:(vm_compute; lia)) as H.
  destruct (run (dataframe_to_excel Laws.willing 0%nat "" "customers.xlsx")
              Sample.world) as [[[path|]|e] w'] eqn:E.
  - destruct H as (_ & Hdir & _). by destruct Hdir.
  - reflexivity.
  - destruct H.
Defined.
